(** * falcano.attributes: a shallow embedding and its verified properties

    The development follows [falcano/attributes.py].  Python objects are
    immutable trees here; the places where the source mutates an object in
    place are written as functions returning the updated object, and where
    the identity of an object matters (comparison, one attribute bound to
    two names of a class) the objects are held in a store.  Exceptions
    are results of an error monad.  Python built-ins ([str], [sorted],
    [json.dumps], ...) are modelled on the fragment of values the attribute
    layer handles; outside that fragment the embedding answers
    [Unsupported] rather than guessing. *)

From Stdlib Require Import String Ascii List ZArith Bool Arith Lia.
From Stdlib Require Import Permutation Sorted DecimalString DecimalZ DecimalPos OrderedTypeEx.
Import ListNotations.
Open Scope string_scope.

(** ** Exceptions and results *)

Inductive exn : Type :=
| ValueError | TypeError | AttributeError | AssertionError
| KeyError | StopIteration | IndexError.

Inductive result (A : Type) : Type :=
| Ok (a : A)
| Raise (e : exn)
| Unsupported.

Arguments Ok {A} a.
Arguments Raise {A} e.
Arguments Unsupported {A}.

Definition bind {A B : Type} (m : result A) (k : A -> result B) : result B :=
  match m with
  | Ok a => k a
  | Raise e => Raise e
  | Unsupported => Unsupported
  end.

Notation "x <- m ;; k" := (bind m (fun x => k))
  (at level 61, m at next level, right associativity).

Definition raises {A : Type} (m : result A) : Prop := exists e, m = Raise e.

(** ** Values *)

(** Sets and dicts are given by their iteration order.  [VFun r] is a callable
    taking no argument and returning [r].  [VMap cls kwargs values] is a
    [MapAttribute] instance (of the class named [cls]) that still owns its
    [attribute_values] dictionary. *)
#[warnings="-register-all"]
Inductive pyval : Type :=
| VNone
| VBool (b : bool)
| VInt (n : Z)
| VStr (s : string)
| VList (items : list pyval)
| VSet (items : list pyval)
| VDict (entries : list (string * pyval))
| VFun (ret : pyval)
| VMap (cls : string) (attribute_kwargs attribute_values : list (string * pyval)).

Definition dict : Type := list (string * pyval).

(** ** Dictionaries keyed by strings, in insertion order *)

Module Dict.
Section Ops.
Context {V : Type}.

Fixpoint get (d : list (string * V)) (k : string) : option V :=
  match d with
  | [] => None
  | (k', v) :: rest => if String.eqb k' k then Some v else get rest k
  end.

Definition get_default (d : list (string * V)) (k : string) (dflt : V) : V :=
  match get d k with Some v => v | None => dflt end.

Definition mem (d : list (string * V)) (k : string) : bool :=
  match get d k with Some _ => true | None => false end.

(** [d[k] = v]: an existing key keeps its position. *)
Fixpoint set (d : list (string * V)) (k : string) (v : V) : list (string * V) :=
  match d with
  | [] => [(k, v)]
  | (k', v') :: rest =>
      if String.eqb k' k then (k, v) :: rest else (k', v') :: set rest k v
  end.

Definition remove (d : list (string * V)) (k : string) : list (string * V) :=
  filter (fun kv => negb (String.eqb (fst kv) k)) d.

Definition keys (d : list (string * V)) : list string := map fst d.
End Ops.
End Dict.

(** ** Built-ins *)

Module Py.

Definition is_None (v : pyval) : bool :=
  match v with VNone => true | _ => false end.

Definition is_str (v : pyval) : bool :=
  match v with VStr _ => true | _ => false end.

Definition callable (v : pyval) : bool :=
  match v with VFun _ => true | _ => false end.


(** Truth value testing.  [MapAttribute] defines neither [__bool__] nor
    [__len__], so its instances are true. *)
Definition truthy (v : pyval) : bool :=
  match v with
  | VNone => false
  | VBool b => b
  | VInt n => negb (Z.eqb n 0)
  | VStr s => negb (String.eqb s "")
  | VList l | VSet l => negb (Nat.eqb (List.length l) 0)
  | VDict d => negb (Nat.eqb (List.length d) 0)
  | VFun _ => true
  | VMap _ _ _ => true
  end.

Definition truthy_opt (o : option string) : bool :=
  match o with Some s => negb (String.eqb s "") | None => false end.

Definition str_of_Z (n : Z) : string := NilZero.string_of_int (Z.to_int n).

(** [str(v)] on scalars; the text of containers and objects goes through
    [repr] and is not modelled. *)
Definition str (v : pyval) : result string :=
  match v with
  | VStr s => Ok s
  | VNone => Ok "None"
  | VBool true => Ok "True"
  | VBool false => Ok "False"
  | VInt n => Ok (str_of_Z n)
  | _ => Unsupported
  end.

Fixpoint chars (s : string) : list pyval :=
  match s with
  | EmptyString => []
  | String c rest => VStr (String c EmptyString) :: chars rest
  end.

(** [iter(v)]: the items a [for] loop visits, or [None] when [iter] raises
    [TypeError]. *)
Definition iter (v : pyval) : option (list pyval) :=
  match v with
  | VStr s => Some (chars s)
  | VList l | VSet l => Some l
  | VDict d => Some (map VStr (Dict.keys d))
  | VMap _ _ values => Some (map VStr (Dict.keys values))
  | VNone | VBool _ | VInt _ | VFun _ => None
  end.

Section Sort.
Context {A : Type} (le : A -> A -> bool).

Fixpoint insert (x : A) (l : list A) : list A :=
  match l with
  | [] => [x]
  | y :: rest => if le x y then x :: l else y :: insert x rest
  end.

Fixpoint sort (l : list A) : list A :=
  match l with
  | [] => []
  | x :: rest => insert x (sort rest)
  end.
End Sort.

Definition sorted_strings (l : list string) : list string := sort String.leb l.

Definition as_str (v : pyval) : option string :=
  match v with VStr s => Some s | _ => None end.

Definition as_int (v : pyval) : option Z :=
  match v with
  | VInt n => Some n
  | VBool b => Some (if b then 1%Z else 0%Z)
  | _ => None
  end.

Fixpoint all_some {A B : Type} (f : A -> option B) (l : list A) : option (list B) :=
  match l with
  | [] => Some []
  | x :: rest =>
      match f x, all_some f rest with
      | Some y, Some ys => Some (y :: ys)
      | _, _ => None
      end
  end.

Definition int_le (x y : pyval) : bool :=
  match as_int x, as_int y with
  | Some a, Some b => Z.leb a b
  | _, _ => true
  end.

Definition orders_structurally (v : pyval) : bool :=
  match v with VList _ | VSet _ => true | _ => false end.

(** [sorted(l)].  Fewer than two items are never compared.  Strings order
    by code point, numbers ([bool] included) by value; comparing a string
    with a number, or [None], a dict, a function or a [MapAttribute] with
    anything, raises [TypeError].  Lists and sets as items are not
    modelled. *)
Definition sorted (l : list pyval) : result (list pyval) :=
  match l with
  | [] | [_] => Ok l
  | _ =>
      match all_some as_str l with
      | Some ss => Ok (map VStr (sorted_strings ss))
      | None =>
          if forallb (fun v => match as_int v with Some _ => true | None => false end) l
          then Ok (sort int_le l)
          else if existsb orders_structurally l then Unsupported
          else Raise TypeError
      end
  end.

(** [s.split(sep)]: [skip] counts the characters of a separator occurrence
    still to be passed over, [cur] is the segment read so far. *)
Fixpoint split_from (sep : string) (skip : nat) (cur s : string) : list string :=
  match s with
  | EmptyString => [cur]
  | String c rest =>
      match skip with
      | S k => split_from sep k cur rest
      | O =>
          if String.prefix sep s
          then cur :: split_from sep (String.length sep - 1) "" rest
          else split_from sep 0 (cur ++ String c EmptyString) rest
      end
  end.

Definition split (s sep : string) : result (list string) :=
  if String.eqb sep "" then Raise ValueError else Ok (split_from sep 0 "" s).

(** [s[n:]] *)
Fixpoint drop (n : nat) (s : string) : string :=
  match n, s with
  | S k, String _ rest => drop k rest
  | _, _ => s
  end.

(** [l[0]] and [l[-1]]. *)
Definition first (l : list string) : result string :=
  match l with [] => Raise IndexError | x :: _ => Ok x end.

Definition last (l : list string) : result string :=
  match rev l with [] => Raise IndexError | x :: _ => Ok x end.

(** [set(l)] of strings; the order of the result is the one of [l]. *)
Definition set_of (l : list string) : pyval :=
  VSet (map VStr (nodup string_dec l)).

End Py.

(** ** json *)

Module Json.

Definition dquote : ascii := ascii_of_nat 34.
Definition backslash : ascii := ascii_of_nat 92.

Definition hex_digit (n : nat) : ascii :=
  if Nat.ltb n 10 then ascii_of_nat (48 + n) else ascii_of_nat (87 + n).

(** [ESCAPE_DCT] of the json encoder, with the [\uXXXX] form for the other
    characters outside [' '..'~'] (code points below 256). *)
Definition escape_char (c : ascii) : string :=
  let n := nat_of_ascii c in
  if Nat.eqb n 34 then String backslash (String dquote "")
  else if Nat.eqb n 92 then String backslash (String backslash "")
  else if Nat.eqb n 8 then String backslash "b"
  else if Nat.eqb n 12 then String backslash "f"
  else if Nat.eqb n 10 then String backslash "n"
  else if Nat.eqb n 13 then String backslash "r"
  else if Nat.eqb n 9 then String backslash "t"
  else if Nat.ltb n 32 || Nat.ltb 126 n
  then String backslash
         ("u00" ++ String (hex_digit (n / 16)) (String (hex_digit (n mod 16)) ""))
  else String c "".

Fixpoint escape (s : string) : string :=
  match s with
  | EmptyString => ""
  | String c rest => escape_char c ++ escape rest
  end.

Definition dumps_str (s : string) : string :=
  String dquote (escape s ++ String dquote "").

(** [json.dumps(v)] on scalars.  Sets, functions and [MapAttribute]
    objects are not JSON serializable; lists and dicts are not modelled. *)
Definition dumps (v : pyval) : result string :=
  match v with
  | VNone => Ok "null"
  | VBool true => Ok "true"
  | VBool false => Ok "false"
  | VInt n => Ok (Py.str_of_Z n)
  | VStr s => Ok (dumps_str s)
  | VList _ | VDict _ => Unsupported
  | VSet _ | VFun _ | VMap _ _ _ => Raise TypeError
  end.

(** The JSON texts that are integer literals; other texts are not
    modelled. *)
Definition loads_text (s : string) : result pyval :=
  match NilZero.int_of_string s with
  | Some d =>
      let n := Z.of_int d in
      if String.eqb s (Py.str_of_Z n) || String.eqb s "-0" then Ok (VInt n)
      else Unsupported
  | None => Unsupported
  end.

(** [json.loads(v)]: the argument must be text. *)
Definition loads (v : pyval) : result pyval :=
  match v with
  | VStr s => loads_text s
  | _ => Raise TypeError
  end.

End Json.

(** ** Constants of [falcano.constants] *)

(** Modelled from the spec: the module [falcano.constants] is not part of the
    sources; these are the short wire type tags the spec lists
    ([S], [N], [BOOL], [SS], [L], [M], [NULL]). *)
Definition STRING_SHORT : string := "S".
Definition NUMBER_SHORT : string := "N".
Definition BOOLEAN : string := "BOOL".
Definition LIST_SHORT : string := "L".
Definition MAP_SHORT : string := "M".
Definition NULL : string := "NULL".

Fixpoint mapM {A B : Type} (f : A -> result B) (l : list A) : result (list B) :=
  match l with
  | [] => Ok []
  | x :: rest => y <- f x ;; ys <- mapM f rest ;; Ok (y :: ys)
  end.


(** ** Instances and classes *)

(** What [Attribute.__init__] stores on the instance. *)
Record AttrState : Type := mkAttrState {
  default : pyval;
  default_for_new : pyval;
  null : pyval;
  is_hash_key : pyval;
  is_range_key : pyval;
  attr_path : list (option string)
}.

(** The instance attributes [KeyAttribute.__init__] sets besides those of
    [Attribute]. *)
Record KeyConfig : Type := mkKeyConfig {
  prefix : option string;
  suffix : option string;
  fixed_value : option string;
  separator : string
}.

(** The attribute classes other than [MapAttribute].  Of these only
    [TTLAttribute] has a [__set__] of its own.  ([UTCDateTimeAttribute],
    which formats and parses [datetime] values, is left out.) *)
Inductive AttrClass : Type :=
| Unicode | UnicodeSet | Number | Null | List_ | Boolean
| Key (cfg : KeyConfig)
| TTL.

Inductive ClassKind : Type :=
| TheMapAttribute      (* the class [MapAttribute] itself: a raw map *)
| SubMapAttribute      (* a subclass of [MapAttribute] *)
| PlainContainer.      (* another [AttributeContainer] subclass, e.g. a model *)

(** The objects of the module.  [Plain] is an instance of an attribute class
    other than [MapAttribute].  [Container] is an [AttributeContainer]
    instance that owns [attribute_values] (for a [MapAttribute]: as left by
    [MapAttribute.__init__]; [attribute_kwargs] is empty for other
    containers).  [Descriptor] is a [MapAttribute] instance after
    [make_attribute]: [attribute_kwargs] and [attribute_values] are deleted,
    the state of [Attribute.__init__] is set, and [locals] are the copies of
    the class's attributes stored in the instance [__dict__].

    A class is what the metaclass leaves on it. *)
#[warnings="-register-all"]
Inductive pyobj : Type :=
| Plain (cls : AttrClass) (st : AttrState)
| Container (cls : Class) (attribute_kwargs attribute_values : dict)
| Descriptor (cls : Class) (st : AttrState) (locals : list (string * pyobj))
with Class : Type :=
| mkClass (kind : ClassKind) (name : string)
    (_attributes : list (string * pyobj))
    (_dynamo_to_python_attrs : list (string * string)).

(** Induction on objects, through the copies a converted map holds. *)
Section NestedInduction.
Variable P : pyobj -> Prop.
Hypothesis HPlain : forall k st, P (Plain k st).
Hypothesis HContainer : forall c kwargs values, P (Container c kwargs values).
Hypothesis HDescriptor :
  forall c st locals, Forall (fun na => P (snd na)) locals -> P (Descriptor c st locals).

Fixpoint pyobj_nested_ind (o : pyobj) : P o :=
  match o with
  | Plain k st => HPlain k st
  | Container c kwargs values => HContainer c kwargs values
  | Descriptor c st locals =>
      HDescriptor c st locals
        ((fix all (l : list (string * pyobj)) : Forall (fun na => P (snd na)) l :=
            match l with
            | [] => Forall_nil _
            | na :: rest => Forall_cons na (pyobj_nested_ind (snd na)) (all rest)
            end) locals)
  end.
End NestedInduction.

Definition class_kind (c : Class) : ClassKind :=
  match c with mkClass k _ _ _ => k end.

Definition class_name (c : Class) : string :=
  match c with mkClass _ n _ _ => n end.

Definition _dynamo_to_python_attrs (c : Class) : list (string * string) :=
  match c with mkClass _ _ _ r => r end.

(** [cls == MapAttribute] *)
Definition is_MapAttribute_itself (c : Class) : bool :=
  match class_kind c with TheMapAttribute => true | _ => false end.

(** [copy.deepcopy]: objects are values here, a copy is the value itself and
    later updates of the copy leave the original alone. *)
Definition deepcopy (a : pyobj) : pyobj := a.

Definition isinstance_MapAttribute (o : pyobj) : bool :=
  match o with
  | Plain _ _ => false
  | Container c _ _ =>
      match class_kind c with PlainContainer => false | _ => true end
  | Descriptor _ _ _ => true
  end.

Definition isinstance_Attribute (o : pyobj) : bool :=
  match o with
  | Plain _ _ => true
  | _ => isinstance_MapAttribute o
  end.

(** Reading an attribute of [Attribute] ([attr_path], [default], ...) on an
    instance that was never converted: [MapAttribute.__getattr__] raises
    [AttributeError], unless a raw map happens to hold the name as a key. *)
Definition unconverted {X : Type} (c : Class) (values : dict) (attr : string) : result X :=
  if is_MapAttribute_itself c && Dict.mem values attr then Unsupported
  else Raise AttributeError.

(** [lookup name k missing entries] is [k (entries[name])], and [missing]
    when the key is absent. *)
Definition lookup {X : Type} (name : string) (k : pyobj -> result X)
    (missing : result X) : list (string * pyobj) -> result X :=
  fix find entries :=
    match entries with
    | [] => missing
    | (n, a) :: rest => if String.eqb n name then k a else find rest
    end.

(** Object identity.  [self is other] compares the identities of two objects;
    a store gives the state of each live object. *)
Definition ident : Type := nat.

Definition store : Type := ident -> option pyobj.

(** The outcome of a rich comparison method. *)
Inductive rich : Type :=
| RTrue | RFalse | NotImplemented.

Definition rich_of_bool (b : bool) : rich := if b then RTrue else RFalse.

(** [object.__eq__] and [object.__ne__], which [Attribute] inherits. *)
Definition object__eq__ (self other : ident) : rich :=
  if Nat.eqb self other then RTrue else NotImplemented.

Definition object__ne__ (self other : ident) : rich :=
  match object__eq__ self other with
  | RTrue => RFalse
  | RFalse => RTrue
  | NotImplemented => NotImplemented
  end.

(** The wire name of a field: the [attr_name] it was given, or its own
    name. *)
Definition wire_name (field : string) (attr_name : option string) : string :=
  match attr_name with
  | Some w => w
  | None => field
  end.

(** What a descriptor read returns: the attribute or a bound value. *)
Inductive got : Type :=
| GotAttribute (a : pyobj)
| GotValue (v : pyval).

(** ** Attribute *)

Module Attribute.

(** [getfullargspec(Attribute.__init__).args[1:]] *)
Definition attribute_args : list string :=
  ["hash_key"; "range_key"; "null"; "default"; "default_for_new"; "attr_name"].

(** [attr_name] is declared [Optional[str]]. *)
Definition as_name (v : pyval) : result (option string) :=
  match v with
  | VNone => Ok None
  | VStr s => Ok (Some s)
  | _ => Unsupported
  end.

(** [Attribute.__init__(self, **kwargs)]; [class_null] is the class
    attribute [null] an instance falls back to. *)
Definition __init__ (class_null : bool) (kwargs : dict) : result AttrState :=
  if negb (forallb (fun k => existsb (String.eqb k) attribute_args) (Dict.keys kwargs))
  then Raise TypeError
  else
    let default := Dict.get_default kwargs "default" VNone in
    let default_for_new := Dict.get_default kwargs "default_for_new" VNone in
    let null := Dict.get_default kwargs "null" VNone in
    if Py.truthy default && Py.truthy default_for_new then Raise ValueError
    else
      attr_name <- as_name (Dict.get_default kwargs "attr_name" VNone) ;;
      Ok {| default := default;
            default_for_new := default_for_new;
            null := if Py.is_None null then VBool class_null else null;
            is_hash_key := Dict.get_default kwargs "hash_key" (VBool false);
            is_range_key := Dict.get_default kwargs "range_key" (VBool false);
            attr_path := [attr_name] |}.

(** [self.attr_path[-1]] *)
Definition last_segment (st : AttrState) : result (option string) :=
  match rev (attr_path st) with
  | [] => Raise IndexError
  | n :: _ => Ok n
  end.

(** The state with [attr_path] replaced. *)
Definition with_attr_path (st : AttrState) (path : list (option string)) : AttrState :=
  {| default := default st;
     default_for_new := default_for_new st;
     null := null st;
     is_hash_key := is_hash_key st;
     is_range_key := is_range_key st;
     attr_path := path |}.

(** [self.attr_path[-1] = value] *)
Definition set_last_segment (st : AttrState) (name : string) : result AttrState :=
  match rev (attr_path st) with
  | [] => Raise IndexError
  | _ :: before => Ok (with_attr_path st (rev before ++ [Some name]))
  end.

(** [self.attr_path.insert(0, path_segment)] *)
Definition insert_path (path_segment : option string) (st : AttrState) : AttrState :=
  with_attr_path st (path_segment :: attr_path st).

(** The property [attr_name]. *)
Definition attr_name (self : pyobj) : result (option string) :=
  match self with
  | Plain _ st | Descriptor _ st _ => last_segment st
  | Container c _ values => unconverted c values "attr_path"
  end.

(** The setter of [attr_name]. *)
Definition set_attr_name (self : pyobj) (value : string) : result pyobj :=
  match self with
  | Plain k st => st' <- set_last_segment st value ;; Ok (Plain k st')
  | Descriptor c st locals =>
      st' <- set_last_segment st value ;; Ok (Descriptor c st' locals)
  | Container c _ values => unconverted c values "attr_path"
  end.

Definition _is_map_attribute_class_object (instance : pyobj) : bool :=
  match instance with
  | Descriptor _ _ _ => true
  | _ => false
  end.

(** [__set__(self, instance, value)].  Every object here is true: no class
    of the module defines [__bool__] or [__len__].  A wire name [None]
    (an attribute no metaclass has named) would be used as a key and is
    not modelled. *)
Definition __set__ (self instance : pyobj) (value : pyval) : result pyobj :=
  if negb (_is_map_attribute_class_object instance) then
    match instance with
    | Container c kwargs attribute_values =>
        wire <- attr_name self ;;
        match wire with
        | Some w =>
            let attr_name := Dict.get_default (_dynamo_to_python_attrs c) w w in
            Ok (Container c kwargs (Dict.set attribute_values attr_name value))
        | None => Unsupported
        end
    | _ => Raise AttributeError
    end
  else Ok instance.

(** [__get__(self, instance, owner)], [instance] being [None] for an
    access on the class. *)
Definition __get__ (self : pyobj) (instance : option pyobj) : result got :=
  match instance with
  | Some (Descriptor c _ __dict__) =>
      wire <- attr_name self ;;
      match wire with
      | Some w =>
          let attr_name := Dict.get_default (_dynamo_to_python_attrs c) w w in
          match Dict.get __dict__ attr_name with
          | Some local_attr => Ok (GotAttribute local_attr)
          | None => Ok (GotAttribute self)
          end
      | None => Ok (GotAttribute self)
      end
  | Some (Container c _ attribute_values) =>
      wire <- attr_name self ;;
      match wire with
      | Some w =>
          let attr_name := Dict.get_default (_dynamo_to_python_attrs c) w w in
          Ok (GotValue (Dict.get_default attribute_values attr_name VNone))
      | None => Ok (GotValue VNone)
      end
  | Some (Plain _ _) => Raise AttributeError
  | None => Ok (GotAttribute self)
  end.

Definition serialize (value : pyval) : result pyval := Ok value.

Definition deserialize (value : pyval) : result pyval := Ok value.

End Attribute.

Module UnicodeAttribute.

Definition serialize (value : pyval) : result pyval :=
  if negb (Py.truthy value) then Ok VNone
  else if Py.is_str value then Ok value
  else s <- Py.str value ;; Ok (VStr s).

Definition deserialize (value : pyval) : result pyval :=
  Attribute.deserialize value.

End UnicodeAttribute.

(** The items of the value both set serializers sort: [value] itself when
    [iter(value)] succeeds, [[value]] otherwise. *)
Definition iterable_or_singleton (value : pyval) : pyval :=
  match Py.iter value with
  | Some _ => value
  | None => VList [value]
  end.

Definition items_of (value : pyval) : result (list pyval) :=
  match Py.iter value with
  | Some items => Ok items
  | None => Raise TypeError
  end.

(** A set display or [set(...)] over the given items.  Lists, sets, dicts and
    [MapAttribute] objects (which define [__eq__] and no [__hash__]) are not
    hashable.  Sets of strings and sets of integers are modelled. *)
Definition build_set (items : list pyval) : result pyval :=
  match Py.all_some Py.as_str items with
  | Some ss => Ok (Py.set_of ss)
  | None =>
      match Py.all_some (fun v => match v with VInt n => Some n | _ => None end) items with
      | Some ns => Ok (VSet (map VInt (nodup Z.eq_dec ns)))
      | None =>
          if existsb (fun v => match v with
                               | VList _ | VSet _ | VDict _ | VMap _ _ _ => true
                               | _ => false
                               end) items
          then Raise TypeError
          else Unsupported
      end
  end.

Module SetMixin.

Definition serialize (value : pyval) : result pyval :=
  if negb (Py.is_None value) then
    let value := iterable_or_singleton value in
    if Py.truthy value then
      items <- items_of value ;;
      ordered <- Py.sorted items ;;
      texts <- mapM Json.dumps ordered ;;
      Ok (VList (map VStr texts))
    else Ok VNone
  else Ok VNone.

Definition deserialize (value : pyval) : result pyval :=
  if Py.truthy value then
    items <- items_of value ;;
    decoded <- mapM Json.loads items ;;
    build_set decoded
  else Ok VNone.

End SetMixin.

Module UnicodeSetAttribute.

Definition null : bool := true.

Definition element_serialize (value : pyval) : result string :=
  match value with
  | VStr s => Ok s
  | _ => Py.str value
  end.

Definition element_deserialize (value : pyval) : pyval := value.

Definition serialize (value : pyval) : result pyval :=
  if negb (Py.is_None value) then
    let value := iterable_or_singleton value in
    if Py.truthy value then
      items <- items_of value ;;
      ordered <- Py.sorted items ;;
      elements <- mapM element_serialize ordered ;;
      Ok (Py.set_of elements)
    else Ok VNone
  else Ok VNone.

Definition deserialize (value : pyval) : result pyval :=
  if Py.truthy value then
    items <- items_of value ;;
    build_set (map element_deserialize items)
  else Ok VNone.

End UnicodeSetAttribute.

Module NumberAttribute.

Definition serialize (value : pyval) : result pyval := Ok value.

Definition deserialize (value : pyval) : result pyval := Json.loads value.

End NumberAttribute.

(** ** TTLAttribute *)

(** The values above include no dates.  A [datetime] is given by the
    instant its fields denote when read as UTC, in microseconds since the
    epoch, and by the offset of its [tzinfo] from UTC, in microseconds
    ([None] for a naive value).  Its year lies between 1 and 9999. *)
Record datetime : Type := mkDatetime {
  wall : Z;
  utcoffset : option Z
}.

Definition MIN_WALL : Z := (-62135596800) * 1000000.
Definition MAX_WALL : Z := 253402300799 * 1000000 + 999999.

Definition representable (microseconds : Z) : bool :=
  Z.leb MIN_WALL microseconds && Z.leb microseconds MAX_WALL.

(** [calendar.timegm(d.utctimetuple())]: an aware value is shifted to UTC,
    a naive one is taken as UTC, and the time tuple holds whole seconds.
    The shift overflows when it leaves the years of a [datetime]; the error
    is not modelled. *)
Definition utc_seconds (d : datetime) : result Z :=
  let utc := (wall d - match utcoffset d with Some offset => offset | None => 0 end)%Z in
  if representable utc then Ok (utc / 1000000)%Z else Unsupported.

(** [datetime.utcfromtimestamp(timestamp)] for an integer; outside the
    years of a [datetime] the call fails with an error that depends on the
    platform, which is not modelled. *)
Definition utcfromtimestamp (timestamp : Z) : result datetime :=
  if representable (timestamp * 1000000)
  then Ok {| wall := (timestamp * 1000000)%Z; utcoffset := None |}
  else Unsupported.

(** [d.replace(tzinfo=tzutc())] *)
Definition replace_tzutc (d : datetime) : datetime :=
  {| wall := wall d; utcoffset := Some 0%Z |}.

(** What a TTL attribute may be handed: a [timedelta] (given in
    microseconds), a [datetime], or another value. *)
Inductive ttl_value : Type :=
| TTimedelta (microseconds : Z)
| TDatetime (d : datetime)
| TValue (v : pyval).

Module TTLAttribute.

(** A [timedelta] is added to the reading of the clock in floating point;
    that case is not modelled. *)
Definition _normalize (value : ttl_value) : result (option datetime) :=
  match value with
  | TValue VNone => Ok None
  | TTimedelta _ => Unsupported
  | TDatetime d =>
      match utcoffset d with
      | None => Raise ValueError
      | Some _ =>
          value <- utc_seconds d ;;
          utc <- utcfromtimestamp value ;;
          Ok (Some (replace_tzutc utc))
      end
  | TValue _ => Raise ValueError
  end.

Definition serialize (value : ttl_value) : result pyval :=
  match value with
  | TValue VNone => Ok VNone
  | _ =>
      normalized <- _normalize value ;;
      match normalized with
      | Some d =>
          seconds <- utc_seconds d ;;
          text <- Json.dumps (VInt seconds) ;;
          Ok (VStr text)
      | None => Raise AttributeError
      end
  end.

Definition deserialize (value : pyval) : result datetime :=
  timestamp <- Json.loads value ;;
  match timestamp with
  | VInt n => utc <- utcfromtimestamp n ;; Ok (replace_tzutc utc)
  | _ => Unsupported
  end.

(** [__set__(self, instance, value)].  The dictionary [attribute_values]
    of a container holds values of the embedding, and a date is none of
    them: a value that normalizes to a date is not modelled.  What is left
    is [None], which is stored, and the values that are neither a date nor
    a duration, for which [_normalize] raises. *)
Definition __set__ (self instance : pyobj) (value : ttl_value) : result pyobj :=
  normalized <- _normalize value ;;
  match normalized with
  | None => Attribute.__set__ self instance VNone
  | Some _ => Unsupported
  end.

End TTLAttribute.

Module NullAttribute.

Definition serialize (value : pyval) : result pyval := Ok (VBool true).

Definition deserialize (value : pyval) : result pyval := Ok VNone.

End NullAttribute.

Module ListAttribute.

Definition serialize (values : pyval) : result pyval := Ok values.

Definition deserialize (values : pyval) : result pyval := Ok values.

End ListAttribute.

Module BooleanAttribute.

Definition serialize (value : pyval) : result pyval :=
  if Py.is_None value then Ok VNone
  else if Py.truthy value then Ok (VBool true)
  else Ok (VBool false).

Definition deserialize (value : pyval) : result pyval :=
  Ok (VBool (Py.truthy value)).

End BooleanAttribute.

Module KeyAttribute.

Definition __init__ (prefix suffix value : option string)
    (hash_key range_key : bool) (separator : option string)
  : result (KeyConfig * AttrState) :=
  let cfg := {| prefix := prefix;
                suffix := suffix;
                fixed_value := value;
                separator := if Py.truthy_opt separator
                             then match separator with Some s => s | None => "#" end
                             else "#" |} in
  if negb (Py.truthy_opt suffix) && negb (Py.truthy_opt prefix)
     && negb (Py.truthy_opt value)
  then Raise AttributeError
  else if negb hash_key && negb range_key then Raise AttributeError
  else
    st <- Attribute.__init__ false
            [("hash_key", VBool hash_key); ("range_key", VBool range_key)] ;;
    Ok (cfg, st).

(** The [value] interpolated by the f-string: [format(value, '')]. *)
Definition serialize (self : KeyConfig) (value : pyval) : result pyval :=
  let value :=
    if negb (Py.truthy value) && Py.truthy_opt (fixed_value self)
    then match fixed_value self with Some s => VStr s | None => value end
    else value in
  text <- Py.str value ;;
  let head := if Py.truthy_opt (prefix self)
              then match prefix self with Some p => p ++ separator self | None => "" end
              else "" in
  let tail := if Py.truthy_opt (suffix self)
              then match suffix self with Some s => separator self ++ s | None => "" end
              else "" in
  UnicodeAttribute.serialize (VStr (head ++ text ++ tail)).

Definition deserialize (self : KeyConfig) (value : pyval) : result pyval :=
  match value with
  | VStr s =>
      segments <- Py.split s (separator self) ;;
      segment <- (if Py.truthy_opt (prefix self) then Py.last segments
                  else Py.first segments) ;;
      UnicodeAttribute.deserialize (VStr segment)
  | VMap _ _ _ => Unsupported
  | _ => Raise AttributeError
  end.

End KeyAttribute.

(** ** AttributeContainer *)

Module AttributeContainer.

Definition get_attributes (c : Class) : list (string * pyobj) :=
  match c with mkClass _ _ attrs _ => attrs end.

Definition _dynamo_to_python_attr (c : Class) (dynamo_key : string) : string :=
  Dict.get_default (_dynamo_to_python_attrs c) dynamo_key dynamo_key.

(** [attr.default] and [attr.default_for_new] read on a member of the
    class. *)
Definition state_of (attr : pyobj) : result AttrState :=
  match attr with
  | Plain _ st | Descriptor _ st _ => Ok st
  | Container c _ values => unconverted c values "default"
  end.

Section Construction.
(** The [__set__] of the descriptor's class and the [_set_attributes] of
    the class of [self]: both are overridden by [MapAttribute]. *)
Variable descriptor__set__ : pyobj -> pyobj -> pyval -> result pyobj.
Variable self_set_attributes : Class -> pyobj -> dict -> result pyobj.

(** [setattr(self, name, value)] with [c] the class of [self].  A raw
    map stores the pair in [attribute_values]
    ([MapAttribute.__setattr__]); otherwise the data descriptor of that
    name on the class is called.  A name that is no descriptor would
    become an ordinary instance attribute, which the embedding does not
    hold. *)
Definition setattr (c : Class) (self : pyobj) (name : string) (value : pyval)
  : result pyobj :=
  match self with
  | Container c' kwargs attribute_values =>
      if is_MapAttribute_itself c
      then Ok (Container c' kwargs (Dict.set attribute_values name value))
      else lookup name (fun attr => descriptor__set__ attr self value)
             Unsupported (get_attributes c)
  | _ => Unsupported
  end.

Definition _set_defaults (c : Class) (self : pyobj) (_user_instantiated : pyval)
  : result pyobj :=
  (fix loop (items : list (string * pyobj)) (self : pyobj) : result pyobj :=
     match items with
     | [] => Ok self
     | (name, attr) :: rest =>
         st <- state_of attr ;;
         let default :=
           if Py.truthy _user_instantiated && negb (Py.is_None (default_for_new st))
           then default_for_new st
           else default st in
         let value := match default with VFun ret => ret | _ => default end in
         self <- (if negb (Py.is_None value) then setattr c self name value
                  else Ok self) ;;
         loop rest self
     end) (get_attributes c) self.

Definition _set_attributes (c : Class) (self : pyobj) (attributes : dict)
  : result pyobj :=
  (fix loop (items : dict) (self : pyobj) : result pyobj :=
     match items with
     | [] => Ok self
     | (attr_name, attr_value) :: rest =>
         if negb (Dict.mem (get_attributes c) attr_name) then Raise ValueError
         else self <- setattr c self attr_name attr_value ;; loop rest self
     end) attributes self.

(** [__init__(self, _user_instantiated, **attributes)] on an instance
    whose [attribute_kwargs] are [kwargs] (none unless [self] is a
    [MapAttribute]). *)
Definition __init__ (c : Class) (kwargs : dict) (_user_instantiated : pyval)
    (attributes : dict) : result pyobj :=
  let self := Container c kwargs [] in
  self <- _set_defaults c self _user_instantiated ;;
  self_set_attributes c self attributes.

End Construction.

(** [self is other] *)
Definition __eq__ (self other : ident) : bool := Nat.eqb self other.

(** [self is not other] *)
Definition __ne__ (self other : ident) : bool := negb (Nat.eqb self other).

End AttributeContainer.

(** ** Names a field cannot take *)

(** The names the classes [Attribute], [AttributeContainer] and
    [MapAttribute] use themselves: what [Attribute.__init__],
    [AttributeContainer.__init__] and [MapAttribute.__init__] set on the
    instance, and the methods, properties and class attributes that have no
    leading underscore. *)
Definition member_names : list string :=
  [ "default"; "default_for_new"; "null"; "is_hash_key"; "is_range_key"; "attr_path";
    "attribute_values"; "attribute_kwargs";
    "attr_type"; "attr_name"; "serialize"; "deserialize"; "get_value"; "attr_fn";
    "between"; "eq"; "exists"; "does_not_exist"; "startswith";
    "append"; "prepend"; "set"; "remove"; "add"; "delete";
    "get_attributes";
    "attribute_args"; "is_attribute_container"; "make_attribute";
    "update_attribute_paths"; "is_correctly_typed"; "validate"; "is_raw"; "as_dict" ].

(** A field declared under one of these names, or under a name with a
    leading underscore ([_attributes], [_dynamo_to_python_attrs],
    [__dict__], [__class__], the private and the special methods), takes
    the place, on the class or in the instance [__dict__], of something the
    machinery of the module reads.  Classes that declare such a field are
    not modelled: registering one, or converting an instance of one, is
    [Unsupported]. *)
Definition reserved (name : string) : bool :=
  String.prefix "_" name || existsb (String.eqb name) member_names.

(** The object as a value bound in an [attribute_values] dictionary. *)
Definition as_value (o : pyobj) : result pyval :=
  match o with
  | Container c kwargs values => Ok (VMap (class_name c) kwargs values)
  | _ => Unsupported
  end.

(** ** The registry of [MapAttribute.deserialize] *)

(** The class [MapAttribute] itself declares no attribute. *)
Definition MapAttribute_class : Class := mkClass TheMapAttribute "MapAttribute" [] [].

(** An attribute built without arguments, as the registries hold them. *)
Definition bare : AttrState :=
  {| default := VNone; default_for_new := VNone; null := VBool false;
     is_hash_key := VBool false; is_range_key := VBool false;
     attr_path := [None] |}.

Definition DESERIALIZE_CLASS_MAP : list (string * pyobj) :=
  [ (LIST_SHORT, Plain List_ bare);
    (NUMBER_SHORT, Plain Number bare);
    (STRING_SHORT, Plain Unicode bare);
    (BOOLEAN, Plain Boolean bare);
    (MAP_SHORT, Container MapAttribute_class [] []);
    (NULL, Plain Null bare) ].

(** [value.keys()] on a wire value; a [MapAttribute] object as wire value is
    not modelled. *)
Definition keys_of (value : pyval) : result (list string) :=
  match value with
  | VDict entries => Ok (Dict.keys entries)
  | VMap _ _ _ => Unsupported
  | _ => Raise AttributeError
  end.

Definition _get_value_for_deserialize (value : pyval) : result pyval :=
  keys <- keys_of value ;;
  match keys, value with
  | key :: _, VDict entries =>
      if String.eqb key NULL then Ok VNone
      else match Dict.get entries key with
           | Some v => Ok v
           | None => Raise KeyError
           end
  | _, _ => Raise StopIteration
  end.

Definition _get_class_for_deserialize (value : pyval) : result pyobj :=
  keys <- keys_of value ;;
  match keys with
  | value_type :: _ =>
      match Dict.get DESERIALIZE_CLASS_MAP value_type with
      | None => Raise ValueError
      | Some attr_class => Ok attr_class
      end
  | [] => Raise IndexError
  end.

(** [attr_class.deserialize(value)] for the attribute classes other than
    [MapAttribute].  What a [TTLAttribute] decodes is a date, which is no
    value of the embedding: only its errors are kept. *)
Definition deserialize_plain (k : AttrClass) (value : pyval) : result pyval :=
  match k with
  | Unicode => UnicodeAttribute.deserialize value
  | UnicodeSet => UnicodeSetAttribute.deserialize value
  | Number => NumberAttribute.deserialize value
  | Null => NullAttribute.deserialize value
  | List_ => ListAttribute.deserialize value
  | Boolean => BooleanAttribute.deserialize value
  | Key cfg => KeyAttribute.deserialize cfg value
  | TTL => date <- TTLAttribute.deserialize value ;; Unsupported
  end.

(** ** MapAttribute *)

Module MapAttribute.

Definition is_raw (c : Class) : bool := is_MapAttribute_itself c.

Section Construction.
(** [type(self)] called with the entries of the mapping as keywords. *)
Variable construct : Class -> dict -> result pyval.

Definition __set__ (self instance : pyobj) (value : pyval) : result pyobj :=
  value <- match value with
           | VDict entries =>
               match self with
               | Descriptor c _ _ | Container c _ _ => construct c entries
               | Plain _ _ => Raise AttributeError
               end
           | _ => Ok value
           end ;;
  Attribute.__set__ self instance value.

(** The [__set__] found on the class of the descriptor. *)
Definition descriptor__set__ (attr instance : pyobj) (value : pyval) : result pyobj :=
  match attr with
  | Plain TTL _ => TTLAttribute.__set__ attr instance (TValue value)
  | Plain _ _ => Attribute.__set__ attr instance value
  | _ => __set__ attr instance value
  end.

Definition setattr := AttributeContainer.setattr descriptor__set__.

Definition _set_attributes (c : Class) (self : pyobj) (attrs : dict) : result pyobj :=
  if is_raw c then
    (fix loop (items : dict) (self : pyobj) : result pyobj :=
       match items with
       | [] => Ok self
       | (name, value) :: rest =>
           self <- setattr c self name value ;; loop rest self
       end) attrs self
  else AttributeContainer._set_attributes descriptor__set__ c self attrs.

(** The body of [__init__(self, **attributes)].  The call binds the
    instance to [self], so that a keyword of that name is refused before
    the body runs: [TypeError], multiple values for the argument [self]. *)
Definition init (c : Class) (attributes : dict) : result pyval :=
  if Dict.mem attributes "self" then Raise TypeError else
  let attribute_kwargs :=
    filter (fun kv => Dict.mem attributes (fst kv))
      (map (fun arg => (arg, Dict.get_default attributes arg VNone))
         Attribute.attribute_args) in
  let attributes :=
    filter (fun kv => negb (existsb (String.eqb (fst kv)) Attribute.attribute_args))
      attributes in
  self <- AttributeContainer.__init__ descriptor__set__ _set_attributes c
            attribute_kwargs
            (Dict.get_default attributes "_user_instantiated" (VBool true))
            (Dict.remove attributes "_user_instantiated") ;;
  self <- (if negb (Nat.eqb (List.length attribute_kwargs) 0)
              && (negb (Nat.eqb (List.length attributes) 0)
                  || is_raw c
                  || forallb (Dict.mem (AttributeContainer.get_attributes c))
                       (Dict.keys attribute_kwargs))
           then _set_attributes c self attribute_kwargs
           else Ok self) ;;
  as_value self.

End Construction.

Fixpoint __init__ (c : Class) (attributes : dict) {struct c} : result pyval :=
  init __init__ c attributes.


Definition is_attribute_container (self : pyobj) : bool :=
  match self with
  | Container _ _ _ => true
  | _ => false
  end.

Definition make_attribute (self : pyobj) : result (bool * pyobj) :=
  if negb (is_attribute_container self) then
    (* This instance has already been initialized by another
       AttributeContainer class. *)
    Ok (false, self)
  else
    match self with
    | Container c kwargs _ =>
        st <- Attribute.__init__ false kwargs ;;
        let attrs := AttributeContainer.get_attributes c in
        if existsb reserved (Dict.keys attrs)
        then Unsupported
        else Ok (true, Descriptor c st (map (fun na => (fst na, deepcopy (snd na))) attrs))
    | _ => Ok (false, self)
    end.

(** The loop of [update_attribute_paths] over the names of the class:
    [update] is applied to [self.__dict__[name]], which is updated in place.
    The names of a dict are distinct, so each read sees the copy that
    [make_attribute] stored, here [locals]. *)
Definition update_copies (update : pyobj -> result pyobj)
    (locals : list (string * pyobj))
  : list string -> list (string * pyobj) -> result (list (string * pyobj)) :=
  fix loop (names : list string) (__dict__ : list (string * pyobj)) :=
    match names with
    | [] => Ok __dict__
    | name :: rest =>
        local_attr <- lookup name update (Raise KeyError) locals ;;
        loop rest (Dict.set __dict__ name local_attr)
    end.

(** For a nested [MapAttribute] the recursive call updates the descendants
    of [local_attr] and the insertion its own path; the two touch different
    fields. *)
Fixpoint update_attribute_paths (self : pyobj) (path_segment : option string)
    {struct self} : result pyobj :=
  match self with
  | Plain _ _ => Raise AttributeError
  | Container _ _ _ => Raise AssertionError
  | Descriptor c st locals =>
      let update (local_attr : pyobj) : result pyobj :=
        match local_attr with
        | Plain k st' => Ok (Plain k (Attribute.insert_path path_segment st'))
        | Container c' _ values => unconverted c' values "attr_path"
        | Descriptor _ _ _ =>
            updated <- update_attribute_paths local_attr path_segment ;;
            match updated with
            | Descriptor c' st' locals' =>
                Ok (Descriptor c' (Attribute.insert_path path_segment st') locals')
            | _ => Ok updated
            end
        end in
      locals' <- update_copies update locals
                   (Dict.keys (AttributeContainer.get_attributes c)) locals ;;
      Ok (Descriptor c st locals')
  end.

(** What the loop does to one copy. *)
Definition update_copy (path_segment : option string) (local_attr : pyobj) : result pyobj :=
  match local_attr with
  | Plain k st' => Ok (Plain k (Attribute.insert_path path_segment st'))
  | Container c' _ values => unconverted c' values "attr_path"
  | Descriptor _ _ _ =>
      updated <- update_attribute_paths local_attr path_segment ;;
      match updated with
      | Descriptor c' st' locals' =>
          Ok (Descriptor c' (Attribute.insert_path path_segment st') locals')
      | _ => Ok updated
      end
  end.

Definition __eq__ (self : pyobj) (self_id other : ident) : rich :=
  if is_attribute_container self
  then rich_of_bool (AttributeContainer.__eq__ self_id other)
  else object__eq__ self_id other.

Definition __ne__ (self : pyobj) (self_id other : ident) : rich :=
  if is_attribute_container self
  then rich_of_bool (AttributeContainer.__ne__ self_id other)
  else object__ne__ self_id other.

Definition _get_deserialize_class (c : Class) (key : string) (value : pyval)
  : result (option pyobj) :=
  if negb (is_raw c)
  then Ok (Dict.get (AttributeContainer.get_attributes c) key)
  else attr_class <- _get_class_for_deserialize value ;; Ok (Some attr_class).

Section Decode.
(** [attr_class.deserialize] on a nested map, [attr_class] being a
    [MapAttribute] of class [c]. *)
Variable deserialize_map : Class -> pyval -> result pyval.

(** The loop of [deserialize] over the items of [values], filling
    [deserialized_dict].  A nested map is decoded from the payload under the
    first key of [val], which is [attr_value] whenever that is not [None]. *)
Definition deserialize_items (c : Class) : dict -> dict -> result dict :=
  fix loop (items : dict) (deserialized_dict : dict) : result dict :=
    match items with
    | [] => Ok deserialized_dict
    | (key, val) :: rest =>
        attr_value <- _get_value_for_deserialize val ;;
        let key := AttributeContainer._dynamo_to_python_attr c key in
        attr_class <- _get_deserialize_class c key val ;;
        match attr_class with
        | None => loop rest deserialized_dict
        | Some attr_class =>
            deserialized_value <-
              (if negb (Py.is_None attr_value) then
                 match attr_class with
                 | Plain k _ => deserialize_plain k attr_value
                 | Container c' _ _ | Descriptor c' _ _ =>
                     match val with
                     | VDict ((_, payload) :: _) => deserialize_map c' payload
                     | _ => Unsupported
                     end
                 end
               else Ok VNone) ;;
            loop rest (Dict.set deserialized_dict key deserialized_value)
        end
    end.
End Decode.

(** [deserialize(self, values)] with [c] the class of [self].  [values]
    that are no dict are outside the wire format and not modelled. *)
Fixpoint deserialize (c : Class) (values : pyval) {struct values} : result pyval :=
  match values with
  | VDict entries =>
      deserialized_dict <- deserialize_items deserialize c entries [] ;;
      (* If this is a subclass of a MapAttribute (i.e typed), instantiate
         an instance *)
      if negb (is_raw c)
      then __init__ c deserialized_dict
      else Ok (VDict deserialized_dict)
  | _ => Unsupported
  end.

End MapAttribute.

(** ** AttributeContainerMeta *)

Module AttributeContainerMeta.

Definition name_le (x y : string * pyobj) : bool := String.leb (fst x) (fst y).

(** [inspect.getmembers(cls, lambda o: isinstance(o, Attribute))]: the
    members of the class (its own and the inherited ones) that are
    attributes, sorted by name. *)
Definition getmembers (members : list (string * pyobj)) : list (string * pyobj) :=
  Py.sort name_le (filter (fun m => isinstance_Attribute (snd m)) members).

(** What one turn of the loop of [_initialize_attributes] does to the
    attribute itself: the conversion of a nested map, the naming, and the
    prefixing of the paths of the copies.  The result is the attribute and
    the [attr_name] it came with. *)
Definition prepare (name : string) (attribute : pyobj) : result (pyobj * option string) :=
  made <- (if isinstance_MapAttribute attribute
           then MapAttribute.make_attribute attribute
           else Ok (false, attribute)) ;;
  let '(initialized, attribute) := made in
  attr_name <- Attribute.attr_name attribute ;;
  attribute <- match attr_name with
               | Some _ => Ok attribute
               | None => Attribute.set_attr_name attribute name
               end ;;
  attribute <- (if initialized && isinstance_MapAttribute attribute
                then MapAttribute.update_attribute_paths attribute
                       (Some (wire_name name attr_name))
                else Ok attribute) ;;
  Ok (attribute, attr_name).

(** One turn of the loop on the two dictionaries of the class, for an
    attribute that no other name of the class is bound to: the schema map
    then holds the attribute as this turn leaves it.  ([register_in] below
    is the turn in general.) *)
Definition register (name : string) (attribute : pyobj)
    (acc : list (string * pyobj) * list (string * string))
  : result (list (string * pyobj) * list (string * string)) :=
  let '(_attributes, _dynamo_to_python_attrs) := acc in
  prepared <- prepare name attribute ;;
  let '(attribute, attr_name) := prepared in
  Ok (Dict.set _attributes name attribute,
      match attr_name with
      | Some w => Dict.set _dynamo_to_python_attrs w name
      | None => _dynamo_to_python_attrs
      end).

Fixpoint register_all (members : list (string * pyobj))
    (acc : list (string * pyobj) * list (string * string))
  : result (list (string * pyobj) * list (string * string)) :=
  match members with
  | [] => Ok acc
  | (name, attribute) :: rest =>
      acc' <- register name attribute acc ;;
      register_all rest acc'
  end.

(** [_initialize_attributes(cls)]: the class as the metaclass leaves it,
    for a class each of whose attribute members is an object of its own. *)
Definition _initialize_attributes (kind : ClassKind) (name : string)
    (members : list (string * pyobj)) : result Class :=
  let attributes := getmembers members in
  if existsb reserved (Dict.keys attributes) then Unsupported
  else
    acc <- register_all attributes ([], []) ;;
    Ok (mkClass kind name (fst acc) (snd acc)).

(** *** One object under several names

    The loop names and converts the attribute object itself.  In general
    the body of a class binds names to objects, and two names may be bound
    to one object: the second name then finds the object as the first left
    it, named and converted.  Here the members are given by identity and a
    store holds the state of each object. *)
Definition store_set (s : store) (i : ident) (o : pyobj) : store :=
  fun j => if Nat.eqb j i then Some o else s j.

Definition binding_le (x y : string * ident) : bool := String.leb (fst x) (fst y).

(** [isinstance(o, Attribute)] for the object at [i]; an identity the store
    does not hold stands for an object of another kind. *)
Definition is_attribute_at (s : store) (i : ident) : bool :=
  match s i with
  | Some o => isinstance_Attribute o
  | None => false
  end.

Definition getmembers_in (s : store) (members : list (string * ident))
  : list (string * ident) :=
  Py.sort binding_le (filter (fun m => is_attribute_at s (snd m)) members).

(** One turn of the loop: the object is updated in the store, and the
    schema map holds the object itself. *)
Definition register_in (name : string) (attribute_id : ident)
    (acc : store * list (string * ident) * list (string * string))
  : result (store * list (string * ident) * list (string * string)) :=
  let '(s, _attributes, _dynamo_to_python_attrs) := acc in
  match s attribute_id with
  | None => Unsupported
  | Some attribute =>
      prepared <- prepare name attribute ;;
      let '(attribute, attr_name) := prepared in
      Ok (store_set s attribute_id attribute,
          Dict.set _attributes name attribute_id,
          match attr_name with
          | Some w => Dict.set _dynamo_to_python_attrs w name
          | None => _dynamo_to_python_attrs
          end)
  end.

Fixpoint register_all_in (members : list (string * ident))
    (acc : store * list (string * ident) * list (string * string))
  : result (store * list (string * ident) * list (string * string)) :=
  match members with
  | [] => Ok acc
  | (name, attribute_id) :: rest =>
      acc' <- register_in name attribute_id acc ;;
      register_all_in rest acc'
  end.

(** The objects that names are bound to. *)
Definition objects_at (s : store) (bindings : list (string * ident))
  : result (list (string * pyobj)) :=
  mapM (fun m => match s (snd m) with
                 | Some o => Ok (fst m, o)
                 | None => Unsupported
                 end) bindings.

(** [_initialize_attributes(cls)] in general: the class as the metaclass
    leaves it, its schema map read in the store the loop leaves, and that
    store. *)
Definition _initialize_attributes_in (kind : ClassKind) (name : string)
    (s : store) (members : list (string * ident)) : result (Class * store) :=
  let attributes := getmembers_in s members in
  if existsb reserved (Dict.keys attributes) then Unsupported
  else
    acc <- register_all_in attributes (s, [], []) ;;
    let '(s, _attributes, _dynamo_to_python_attrs) := acc in
    attributes <- objects_at s _attributes ;;
    Ok (mkClass kind name attributes _dynamo_to_python_attrs, s).

End AttributeContainerMeta.

(** ** The operators [==] and [!=] *)

(** The [__eq__] and [__ne__] the class of the object at [self] provides. *)
Definition method__eq__ (s : store) (self other : ident) : result rich :=
  match s self with
  | Some (Plain _ _) => Ok (object__eq__ self other)
  | Some (Container c kwargs values) =>
      match class_kind c with
      | PlainContainer => Ok (rich_of_bool (AttributeContainer.__eq__ self other))
      | _ => Ok (MapAttribute.__eq__ (Container c kwargs values) self other)
      end
  | Some (Descriptor c st locals) =>
      Ok (MapAttribute.__eq__ (Descriptor c st locals) self other)
  | None => Unsupported
  end.

Definition method__ne__ (s : store) (self other : ident) : result rich :=
  match s self with
  | Some (Plain _ _) => Ok (object__ne__ self other)
  | Some (Container c kwargs values) =>
      match class_kind c with
      | PlainContainer => Ok (rich_of_bool (AttributeContainer.__ne__ self other))
      | _ => Ok (MapAttribute.__ne__ (Container c kwargs values) self other)
      end
  | Some (Descriptor c st locals) =>
      Ok (MapAttribute.__ne__ (Descriptor c st locals) self other)
  | None => Unsupported
  end.

(** [a == b]: the method of [a], then the reflected one of [b], then
    identity.  (No class of the module is a proper subclass of another with
    a method of its own that would be tried first.) *)
Definition py_eq (s : store) (a b : ident) : result bool :=
  r <- method__eq__ s a b ;;
  match r with
  | RTrue => Ok true
  | RFalse => Ok false
  | NotImplemented =>
      r' <- method__eq__ s b a ;;
      match r' with
      | RTrue => Ok true
      | RFalse => Ok false
      | NotImplemented => Ok (Nat.eqb a b)
      end
  end.

Definition py_ne (s : store) (a b : ident) : result bool :=
  r <- method__ne__ s a b ;;
  match r with
  | RTrue => Ok true
  | RFalse => Ok false
  | NotImplemented =>
      r' <- method__ne__ s b a ;;
      match r' with
      | RTrue => Ok true
      | RFalse => Ok false
      | NotImplemented => Ok (negb (Nat.eqb a b))
      end
  end.

(** The state two containers hold is the same when their
    [attribute_values] are. *)
Definition same_field_values (x y : pyobj) : Prop :=
  match x, y with
  | Container _ _ vx, Container _ _ vy => vx = vy
  | _, _ => False
  end.

(** ** Attribute access on classes and class objects *)

(** [cls.name] for a declared field. *)
Definition class_getattr (c : Class) (name : string) : result got :=
  lookup name (fun attr => Attribute.__get__ attr None) (Raise AttributeError)
    (AttributeContainer.get_attributes c).

(** [o.name] on a [MapAttribute] or another container [o].  For a field
    declared on the class of [o] the descriptor on the class answers.  A
    name of the classes' own ([null], [attr_type], a method, ...) is found
    by the ordinary lookup, which is not modelled.  Any other name falls to
    [MapAttribute.__getattr__]. *)
Definition getattr (o : pyobj) (name : string) : result got :=
  match o with
  | Descriptor c _ _ =>
      lookup name (fun attr => Attribute.__get__ attr (Some o))
        (if reserved name then Unsupported else Raise AttributeError)
        (AttributeContainer.get_attributes c)
  | Container c _ values =>
      lookup name (fun attr => Attribute.__get__ attr (Some o))
        (if reserved name then Unsupported
         else if MapAttribute.is_raw c
         then match Dict.get values name with
              | Some v => Ok (GotValue v)
              | None => Raise AttributeError
              end
         else Raise AttributeError)
        (AttributeContainer.get_attributes c)
  | Plain _ _ => Unsupported
  end.

(** [g.name] when [g] is what a previous access returned. *)
Definition then_getattr (g : result got) (name : string) : result got :=
  g <- g ;;
  match g with
  | GotAttribute o => getattr o name
  | GotValue _ => Unsupported
  end.

(** [g.attr_path] *)
Definition attr_path_of (g : result got) : result (list (option string)) :=
  g <- g ;;
  match g with
  | GotAttribute (Plain _ st) | GotAttribute (Descriptor _ st _) => Ok (attr_path st)
  | GotAttribute (Container c _ values) => unconverted c values "attr_path"
  | GotValue _ => Unsupported
  end.

(** ** The composite key as the specification words it *)

(** A part is configured as absent when it is [None] or empty. *)
Definition configured (part : option string) : list string :=
  match part with
  | Some s => if String.eqb s "" then [] else [s]
  | None => []
  end.

(** [prefix SEP value SEP suffix], omitting any part configured as absent. *)
Definition compose_key (cfg : KeyConfig) (value : string) : string :=
  String.concat (separator cfg)
    (configured (prefix cfg) ++ [value] ++ configured (suffix cfg)).

(** The fixed value stands in when no dynamic value is supplied. *)
Definition supplied_or_fixed (cfg : KeyConfig) (value : pyval) : pyval :=
  match configured (fixed_value cfg) with
  | [fixed] => if Py.truthy value then value else VStr fixed
  | _ => value
  end.

(** The last segment when a prefix is configured, otherwise the first. *)
Definition pick_segment (cfg : KeyConfig) (segments : list string) : string :=
  match configured (prefix cfg) with
  | [] => List.hd "" segments
  | _ => List.last segments ""
  end.

(** ** The set serializers as the specification words them *)

(** A list of individually JSON-encoded elements, sorted. *)
Definition sorted_json_list (items : list pyval) (wire : pyval) : Prop :=
  exists ordered texts,
    Py.sorted items = Ok ordered /\
    mapM Json.dumps ordered = Ok texts /\
    wire = VList (map VStr texts).

(** ** Objects used in examples *)

(** An attribute named [wire] and otherwise built without arguments. *)
Definition named (wire : string) : AttrState :=
  {| default := VNone; default_for_new := VNone; null := VBool false;
     is_hash_key := VBool false; is_range_key := VBool false;
     attr_path := [Some wire] |}.

(** A raw map after [make_attribute]. *)
Definition converted_once : pyobj := Descriptor MapAttribute_class bare [].

(** A raw map that a first class declared as its field [doc]. *)
Definition reused_field : pyobj := Descriptor MapAttribute_class (named "doc") [].

(** Two distinct raw maps holding the same pair. *)
Definition two_equal_maps : store :=
  fun i =>
    match i with
    | 0 | 1 => Some (Container MapAttribute_class [] [("k", VInt 1)])
    | _ => None
    end.

(** A hash key [user#<id>]. *)
Definition user_key : KeyConfig :=
  {| prefix := Some "user"; suffix := None; fixed_value := None; separator := "#" |}.

(** A nested map type with one field that has a for-new default. *)
Definition Profile_members : list (string * pyobj) :=
  [("nickname",
    Plain Unicode
      {| default := VNone; default_for_new := VStr "anonymous"; null := VBool false;
         is_hash_key := VBool false; is_range_key := VBool false;
         attr_path := [None] |})].

Definition Profile : Class :=
  mkClass SubMapAttribute "Profile"
    [("nickname",
      Plain Unicode
        {| default := VNone; default_for_new := VStr "anonymous"; null := VBool false;
           is_hash_key := VBool false; is_range_key := VBool false;
           attr_path := [Some "nickname"] |})]
    [].

(** A model with a field [profile] of that type. *)
Definition Account_members : list (string * pyobj) :=
  [("profile", Container Profile [("attr_name", VStr "p")] [])].

(** ** Notions used in the statements *)

(** [attr_path] and class of an object that has them. *)
Definition path_of (o : pyobj) : list (option string) :=
  match o with
  | Plain _ st | Descriptor _ st _ => attr_path st
  | Container _ _ _ => []
  end.

Definition class_of (o : pyobj) : option Class :=
  match o with
  | Plain _ _ => None
  | Container c _ _ | Descriptor c _ _ => Some c
  end.

(** An attribute in the state registration leaves it in: no map in it is in
    data mode, and the [__dict__] of each map holds a copy for every name of
    its class. *)
Fixpoint converted (o : pyobj) : bool :=
  match o with
  | Plain _ _ => true
  | Container _ _ _ => false
  | Descriptor c _ locals =>
      forallb (Dict.mem locals) (Dict.keys (AttributeContainer.get_attributes c))
      && forallb (fun na => converted (snd na)) locals
  end.

Definition class_converted (c : Class) : bool :=
  forallb (fun na => converted (snd na)) (AttributeContainer.get_attributes c).

(** The instance under construction: a container of its class with the
    keyword arguments it was given. *)
Definition container_of (c : Class) (kwargs : dict) (o : pyobj) : Prop :=
  exists values, o = Container c kwargs values.

(** A member that is an attribute other than a map, with a path. *)
Definition plain_member (m : string * pyobj) : Prop :=
  match snd m with
  | Plain _ st => attr_path st <> []
  | _ => False
  end.

(** The reverse map a single field leaves. *)
Definition reverse_of (field : string) (attr_name : option string) : list (string * string) :=
  match attr_name with
  | Some w => [(w, field)]
  | None => []
  end.

(** The keyword arguments that only name the attribute. *)
Definition naming (attr_name : option string) : dict :=
  match attr_name with
  | Some w => [("attr_name", VStr w)]
  | None => []
  end.

(** The character [c] occurs in [s]. *)
Fixpoint occurs (c : ascii) (s : string) : bool :=
  match s with
  | EmptyString => false
  | String x rest => Ascii.eqb x c || occurs c rest
  end.

(** ** MapAttribute: iteration, item access and validation *)



Module MapAttributeAccess.

(** [__iter__(self)], the keys being listed in iteration order;
    [Attribute.__iter__] raises [TypeError]. *)
Definition __iter__ (self : pyobj) : result (list string) :=
  if negb (isinstance_MapAttribute self) then Unsupported
  else
    match self with
    | Container _ _ attribute_values => Ok (Dict.keys attribute_values)
    | _ => Raise TypeError
    end.

(** [__getitem__(self, item)].  On a converted raw map the item is looked
    up among the ordinary attributes of the object (its methods, the state
    of [Attribute.__init__]), which are not modelled. *)
Definition __getitem__ (self : pyobj) (item : string) : result got :=
  if negb (isinstance_MapAttribute self) then Unsupported
  else
    match self with
    | Container _ _ attribute_values =>
        match Dict.get attribute_values item with
        | Some v => Ok (GotValue v)
        | None => Raise KeyError
        end
    | Descriptor c _ _ =>
        if MapAttribute.is_raw c then Unsupported
        else if Dict.mem (AttributeContainer.get_attributes c) item
        then getattr self item
        else Raise AttributeError
    | Plain _ _ => Unsupported
    end.

(** [__setitem__(self, item, value)] *)
Definition __setitem__ (self : pyobj) (item : string) (value : pyval) : result pyobj :=
  if negb (isinstance_MapAttribute self) then Unsupported
  else if negb (MapAttribute.is_attribute_container self) then Raise TypeError
  else
    match self with
    | Container c kwargs attribute_values =>
        if MapAttribute.is_raw c
        then Ok (Container c kwargs (Dict.set attribute_values item value))
        else if Dict.mem (AttributeContainer.get_attributes c) item
        then MapAttribute.setattr MapAttribute.__init__ c self item value
        else Raise AttributeError
    | _ => Raise TypeError
    end.

(** [__getattr__(self, attr)], which Python calls when the ordinary lookup
    of [attr] has failed. *)
Definition __getattr__ (self : pyobj) (attr : string) : result pyval :=
  match self with
  | Container c _ attribute_values =>
      if MapAttribute.is_raw c then
        match Dict.get attribute_values attr with
        | Some v => Ok v
        | None => Raise AttributeError
        end
      else Raise AttributeError
  | _ => Raise AttributeError
  end.

(** [getattr(self, key)] for a field the class declares; other names reach
    the ordinary attributes of the object, which are not modelled. *)
Definition field (self : pyobj) (key : string) : result got :=
  match class_of self with
  | Some c =>
      if Dict.mem (AttributeContainer.get_attributes c) key then getattr self key
      else Unsupported
  | None => Unsupported
  end.



End MapAttributeAccess.

(** ** Serialization of maps *)

(** The types the tables are keyed by, as [type(value)] gives them, and
    those of the other values.  [Tinstance] is the class of an object of
    the module. *)
Inductive pytype : Type :=
| Tdict | Tlist | Tset | Tbool | Tfloat | Tint | TDecimal | Tstr
| TNoneType | Tfunction | Tinstance.

Definition pytype_eqb (a b : pytype) : bool :=
  match a, b with
  | Tdict, Tdict | Tlist, Tlist | Tset, Tset | Tbool, Tbool | Tfloat, Tfloat
  | Tint, Tint | TDecimal, TDecimal | Tstr, Tstr | TNoneType, TNoneType
  | Tfunction, Tfunction | Tinstance, Tinstance => true
  | _, _ => false
  end.

(** No value of the embedding is a [float] or a [decimal.Decimal]; what the
    lookups do at these types is stated on the types ([class_for_type],
    [key_for_type]). *)
Definition type_of (v : pyval) : pytype :=
  match v with
  | VNone => TNoneType
  | VBool _ => Tbool
  | VInt _ => Tint
  | VStr _ => Tstr
  | VList _ => Tlist
  | VSet _ => Tset
  | VDict _ => Tdict
  | VFun _ => Tfunction
  | VMap _ _ _ => Tinstance
  end.

(** A dictionary keyed by types. *)
Fixpoint by_type {V : Type} (d : list (pytype * V)) (t : pytype) : option V :=
  match d with
  | [] => None
  | (t', v) :: rest => if pytype_eqb t' t then Some v else by_type rest t
  end.

Definition SERIALIZE_CLASS_MAP : list (pytype * pyobj) :=
  [ (Tdict, Container MapAttribute_class [] []);
    (Tlist, Plain List_ bare);
    (Tset, Plain List_ bare);
    (Tbool, Plain Boolean bare);
    (Tfloat, Plain Number bare);
    (Tint, Plain Number bare);
    (TDecimal, Plain Number bare);
    (Tstr, Plain Unicode bare) ].

Definition SERIALIZE_KEY_MAP : list (pytype * string) :=
  [ (Tdict, MAP_SHORT);
    (Tlist, LIST_SHORT);
    (Tset, LIST_SHORT);
    (Tbool, BOOLEAN);
    (Tfloat, NUMBER_SHORT);
    (Tint, NUMBER_SHORT);
    (Tstr, STRING_SHORT) ].

(** The end of [_get_class_for_serialize] and of [_get_key_for_serialize]:
    the membership test and the lookup, for a value of type
    [value_type]. *)
Definition class_for_type (value_type : pytype) : result pyobj :=
  match by_type SERIALIZE_CLASS_MAP value_type with
  | None => Raise ValueError
  | Some attr_class => Ok attr_class
  end.

Definition key_for_type (value_type : pytype) : result string :=
  match by_type SERIALIZE_KEY_MAP value_type with
  | None => Raise ValueError
  | Some key => Ok key
  end.

(** For a [MapAttribute] object the source builds a new instance of the
    class of the object; an object bound as a value carries the name of its
    class only, and the case is not modelled. *)
Definition _get_class_for_serialize (value : pyval) : result pyobj :=
  if Py.is_None value then Ok (Plain Null bare)
  else
    match value with
    | VMap _ _ _ => Unsupported
    | _ =>
        let value_type := type_of value in
        class_for_type value_type
    end.

(** [NullAttribute.attr_type] is the constant [NULL]. *)
Definition _get_key_for_serialize (value : pyval) : result string :=
  if Py.is_None value then Ok NULL
  else
    match value with
    | VMap _ _ _ => Ok MAP_SHORT
    | _ =>
        let value_type := type_of value in
        key_for_type value_type
    end.

(** [attr_class.serialize(value)] for the attribute classes other than
    [MapAttribute]. *)
Definition serialize_plain (k : AttrClass) (value : pyval) : result pyval :=
  match k with
  | Unicode => UnicodeAttribute.serialize value
  | UnicodeSet => UnicodeSetAttribute.serialize value
  | Number => NumberAttribute.serialize value
  | Null => NullAttribute.serialize value
  | List_ => ListAttribute.serialize value
  | Boolean => BooleanAttribute.serialize value
  | Key cfg => KeyAttribute.serialize cfg value
  | TTL => TTLAttribute.serialize (TValue value)
  end.

Module MapAttributeSerialize.

Definition _should_skip (c : Class) (value : pyval) : bool :=
  negb (MapAttribute.is_raw c) && Py.is_None value.

Definition _get_serialize_class (c : Class) (key : string) (value : pyval)
  : result (option pyobj) :=
  if negb (MapAttribute.is_raw c)
  then Ok (Dict.get (AttributeContainer.get_attributes c) key)
  else attr_class <- _get_class_for_serialize value ;; Ok (Some attr_class).

Section Encode.
(** [attr_class.serialize] on a nested map, [attr_class] being a
    [MapAttribute] of class [c]. *)
Variable serialize_map : Class -> pyval -> result pyval.

(** The loop of [serialize] over the items of [values], filling [rval].
    An attribute without a wire name (one that no metaclass has named)
    would give the key [None], which is not modelled. *)
Definition serialize_items (c : Class) : dict -> dict -> result dict :=
  fix loop (items : dict) (rval : dict) : result dict :=
    match items with
    | [] => Ok rval
    | (key, val) :: rest =>
        if _should_skip c val then loop rest rval
        else
          attr_class <- _get_serialize_class c key val ;;
          match attr_class with
          | None => loop rest rval
          | Some attr_class =>
              (* If this is a subclassed MapAttribute, there may be an
                 alternate attr name *)
              attr_name <- match Dict.get (AttributeContainer.get_attributes c) key with
                           | Some attr => Attribute.attr_name attr
                           | None => Ok (Some key)
                           end ;;
              serialized <- match attr_class with
                            | Plain k _ => serialize_plain k val
                            | Container c' _ _ | Descriptor c' _ _ => serialize_map c' val
                            end ;;
              if _should_skip c serialized then loop rest rval
              else
                match attr_name with
                | Some attr_name => loop rest (Dict.set rval attr_name serialized)
                | None => Unsupported
                end
          end
    end.
End Encode.

(** [serialize(self, values)] with [c] the class of [self]; [values] is a
    dict or a [MapAttribute] object that owns its values (iterating it
    gives its keys, subscripting it its values).  Other [values] are not
    modelled. *)
Fixpoint serialize (c : Class) (values : pyval) {struct values} : result pyval :=
  match values with
  | VDict entries =>
      rval <- serialize_items serialize c entries [] ;; Ok (VDict rval)
  | VMap _ _ attribute_values =>
      rval <- serialize_items serialize c attribute_values [] ;; Ok (VDict rval)
  | _ => Unsupported
  end.

(** [value.as_dict() if isinstance(value, MapAttribute) else value] *)
Fixpoint as_dict_value (value : pyval) : pyval :=
  match value with
  | VMap _ _ attribute_values =>
      VDict ((fix loop (items : dict) (result : dict) : dict :=
                match items with
                | [] => result
                | (key, value) :: rest =>
                    loop rest (Dict.set result key (as_dict_value value))
                end) attribute_values [])
  | _ => value
  end.

(** [as_dict(self)]: a converted map has no [attribute_values] (a field of
    that name on its class would answer, which is not modelled). *)
Definition as_dict (self : pyobj) : result pyval :=
  if negb (isinstance_MapAttribute self) then Unsupported
  else
    match self with
    | Container c kwargs attribute_values =>
        Ok (as_dict_value (VMap (class_name c) kwargs attribute_values))
    | Descriptor c _ _ =>
        if Dict.mem (AttributeContainer.get_attributes c) "attribute_values"
        then Unsupported
        else Raise AttributeError
    | Plain _ _ => Unsupported
    end.

End MapAttributeSerialize.

(** ** Dates cut to whole seconds *)

(** The instant of [d] cut to whole seconds, as an aware UTC value. *)
Definition whole_seconds_utc (d : datetime) : datetime :=
  let utc := (wall d - match utcoffset d with Some offset => offset | None => 0 end)%Z in
  {| wall := (utc / 1000000 * 1000000)%Z; utcoffset := Some 0%Z |}.

(** ** Further notions used in the statements *)

(** The field [name] of the class stores its value under its own name: the
    attribute declared as [name] has a wire name, and the class resolves
    that wire name back to [name]. *)
Definition bound_to_own_name (c : Class) (name : string) : Prop :=
  exists attr wire,
    Dict.get (AttributeContainer.get_attributes c) name = Some attr
    /\ Attribute.attr_name attr = Ok (Some wire)
    /\ AttributeContainer._dynamo_to_python_attr c wire = name.

(** The member [v] is the object the store holds under the identity the
    name of [m] is bound to. *)
Definition held (s : store) (m : string * ident) (v : string * pyobj) : Prop :=
  fst v = fst m /\ s (snd m) = Some (snd v).

(** [cls] is what the metaclass makes of a class whose body binds distinct
    names to distinct objects, [members] being these names with the
    objects as they are before the registration. *)
Definition registers (kind : ClassKind) (cname : string)
    (members : list (string * pyobj)) (cls : Class) : Prop :=
  exists (s : store) (bindings : list (string * ident)) (s' : store),
    NoDup (map fst bindings)
    /\ NoDup (map snd bindings)
    /\ AttributeContainerMeta.objects_at s bindings = Ok members
    /\ AttributeContainerMeta._initialize_attributes_in kind cname s bindings = Ok (cls, s').

(** A class body that gives each member an object of its own: the object
    of the member at position [i] has the identity [i]. *)
Definition own_objects (members : list (string * pyobj)) : store :=
  fun i => option_map snd (nth_error members i).

Definition own_bindings (members : list (string * pyobj)) : list (string * ident) :=
  combine (map fst members) (seq 0 (List.length members)).




(** The wire name a member is registered with. *)
Definition declared_wire (m : string * pyobj) : option string :=
  match AttributeContainerMeta.prepare (fst m) (snd m) with
  | Ok (_, attr_name) => Some (wire_name (fst m) attr_name)
  | _ => None
  end.





(** The values an instance holds once the keywords [attributes] are set. *)
Definition apply_keywords (attributes : dict) (values : dict) : dict :=
  fold_left (fun values kv => Dict.set values (fst kv) (snd kv)) attributes values.


(** A value that is a scalar, a list or a set. *)
Definition flat (v : pyval) : bool :=
  match v with
  | VDict _ | VMap _ _ _ | VFun _ => false
  | _ => true
  end.

(** What a raw map emits for such a value. *)
Definition raw_wire (v : pyval) : pyval :=
  match v with
  | VNone => VBool true
  | VStr s => if String.eqb s "" then VNone else v
  | _ => v
  end.

(** The items of a dict or of a map object. *)
Definition entries_of (values : pyval) : option dict :=
  match values with
  | VDict entries => Some entries
  | VMap _ _ attribute_values => Some attribute_values
  | _ => None
  end.

(** What a raw map decodes a wire value to, when the value is a tag over a
    payload that is no map: nothing is decoded under the tag [NULL] or from
    the payload [None]; otherwise the tag picks the decoder. *)
Definition untagged (wire_value : pyval) : option pyval :=
  match wire_value with
  | VDict ((tag, payload) :: _) =>
      if String.eqb tag NULL || Py.is_None payload then
        if existsb (String.eqb tag)
             [STRING_SHORT; LIST_SHORT; BOOLEAN; NUMBER_SHORT; NULL]
        then Some VNone else None
      else if String.eqb tag STRING_SHORT || String.eqb tag LIST_SHORT then Some payload
      else if String.eqb tag BOOLEAN then Some (VBool (Py.truthy payload))
      else if String.eqb tag NUMBER_SHORT then
        match payload with
        | VInt _ | VBool _ | VList _ | VSet _ | VDict _ | VFun _ | VMap _ _ _ | VNone => None
        | VStr text =>
            match Json.loads_text text with
            | Ok number => Some number
            | _ => None
            end
        end
      else None
  | _ => None
  end.

(** The values behind a list of decodable wire values. *)
Fixpoint all_untagged (entries : dict) : option dict :=
  match entries with
  | [] => Some []
  | (key, wire_value) :: rest =>
      match untagged wire_value, all_untagged rest with
      | Some v, Some vs => Some ((key, v) :: vs)
      | _, _ => None
      end
  end.

(** Two wire values that carry the same payload under tags other than
    [NULL]. *)
Definition same_payload (wire_value wire_value' : pyval) : Prop :=
  exists tag tag' payload more more',
    wire_value = VDict ((tag, payload) :: more)
    /\ wire_value' = VDict ((tag', payload) :: more')
    /\ tag <> NULL /\ tag' <> NULL.

(** A wire value that is no tag over a payload: an empty dict, or a scalar,
    a list or a set. *)
Definition malformed (wire_value : pyval) : option exn :=
  match wire_value with
  | VDict [] => Some StopIteration
  | VDict _ | VMap _ _ _ => None
  | _ => Some AttributeError
  end.

(** ** Further objects used in examples *)

(** The class a registration yields (the raw class when it fails). *)
Definition registered (r : result Class) : Class :=
  match r with
  | Ok c => c
  | _ => MapAttribute_class
  end.

(** A model [Customer] with a field [home] (stored as [h]) that is an
    [Address], which has a field [geo] that is a [Point], which has the
    fields [lat] (stored as [y]) and [lon]. *)
Definition Point_members : list (string * pyobj) :=
  [("lon", Plain Number bare); ("lat", Plain Number (named "y"))].

Definition Point : Class :=
  Eval cbv in
    registered (AttributeContainerMeta._initialize_attributes SubMapAttribute "Point"
                  Point_members).

Definition Address_members : list (string * pyobj) :=
  [("street", Plain Unicode bare); ("geo", Container Point [] [])].

Definition Address : Class :=
  Eval cbv in
    registered (AttributeContainerMeta._initialize_attributes SubMapAttribute "Address"
                  Address_members).

Definition Customer_members : list (string * pyobj) :=
  [("name", Plain Unicode bare);
   ("home", Container Address [("attr_name", VStr "h")] [])].

Definition Customer : Class :=
  Eval cbv in
    registered (AttributeContainerMeta._initialize_attributes PlainContainer "Customer"
                  Customer_members).

(** Two attributes of a class [Pair]: [a], given the wire name [b], and
    [b], which has no wire name but its own. *)
Definition Pair_objects : store :=
  fun i =>
    match i with
    | 0 => Some (Plain Unicode (named "b"))
    | 1 => Some (Plain Unicode bare)
    | _ => None
    end.

Definition Pair_members : list (string * ident) := [("a", 0); ("b", 1)].

(** One attribute bound to the two names [x] and [y] of a class:
    [x = y = UnicodeAttribute()]. *)
Definition Twin_objects : store :=
  fun i =>
    match i with
    | 0 => Some (Plain Unicode bare)
    | _ => None
    end.

Definition Twin_members : list (string * ident) := [("x", 0); ("y", 0)].

(** [a'] is [a] with the segment in front of its path and, when [a] is a
    converted map, in front of the path of every copy it holds, at every
    depth. *)
#[warnings="-register-all"]
Inductive prefixed (path_segment : option string) : pyobj -> pyobj -> Prop :=
| prefixed_plain (k : AttrClass) (st : AttrState) :
    prefixed path_segment (Plain k st) (Plain k (Attribute.insert_path path_segment st))
| prefixed_map (c : Class) (st : AttrState) (locals locals' : list (string * pyobj)) :
    (forall n, In n (Dict.keys (AttributeContainer.get_attributes c)) ->
       exists a a', Dict.get locals n = Some a /\ Dict.get locals' n = Some a'
                    /\ prefixed path_segment a a') ->
    prefixed path_segment (Descriptor c st locals)
      (Descriptor c (Attribute.insert_path path_segment st) locals').



(** * Properties *)

(** ** The error monad *)

Lemma bind_Ok_inv {A B : Type} (m : result A) (k : A -> result B) (b : B) :
  bind m k = Ok b -> exists a, m = Ok a /\ k a = Ok b.
Proof.
  destruct m as [a | e | ]; simpl; intros H; try discriminate.
  exists a; split; [reflexivity | exact H].
Qed.

Lemma not_raises_Ok {A : Type} (a : A) : ~ raises (Ok a).
Proof. intros [e H]; discriminate. Qed.

(** ** Sorting *)

Section SortFacts.
Context {A : Type} (le : A -> A -> bool).
Hypothesis le_total : forall x y, le x y = true \/ le y x = true.
Hypothesis le_antisym : forall x y, le x y = true -> le y x = true -> x = y.
Hypothesis le_trans : forall x y z, le x y = true -> le y z = true -> le x z = true.

Let R (x y : A) : Prop := le x y = true.

Lemma insert_perm (x : A) (l : list A) : Permutation (x :: l) (Py.insert le x l).
Proof.
  induction l as [| y l IH]; simpl.
  - apply Permutation_refl.
  - destruct (le x y).
    + apply Permutation_refl.
    + eapply perm_trans; [apply perm_swap |].
      apply perm_skip, IH.
Qed.

Lemma sort_perm (l : list A) : Permutation l (Py.sort le l).
Proof.
  induction l as [| x l IH]; simpl.
  - constructor.
  - eapply perm_trans; [apply perm_skip, IH | apply insert_perm].
Qed.

Lemma insert_sorted (x : A) (l : list A) :
  StronglySorted R l -> StronglySorted R (Py.insert le x l).
Proof.
  induction 1 as [| y l Hs IH Hy]; simpl.
  - constructor; constructor.
  - destruct (le x y) eqn:Hxy.
    + constructor.
      * constructor; assumption.
      * constructor; [exact Hxy |].
        rewrite Forall_forall in *.
        intros z Hz. unfold R. eapply le_trans; [exact Hxy | apply Hy, Hz].
    + constructor; [exact IH |].
      assert (Hyx : R y x).
      { destruct (le_total x y) as [H | H]; [congruence | exact H]. }
      rewrite Forall_forall in *.
      intros z Hz.
      apply (Permutation_in _ (Permutation_sym (insert_perm x l))) in Hz.
      destruct Hz as [<- | Hz]; [exact Hyx | apply Hy, Hz].
Qed.

Lemma sort_sorted (l : list A) : StronglySorted R (Py.sort le l).
Proof.
  induction l as [| x l IH]; simpl.
  - constructor.
  - apply insert_sorted, IH.
Qed.

Lemma sorted_perm_eq (l l' : list A) :
  StronglySorted R l -> StronglySorted R l' -> Permutation l l' -> l = l'.
Proof.
  intros Hl; revert l'.
  induction Hl as [| x l Hs IH Hx]; intros l' Hl' Hp.
  - apply Permutation_nil in Hp. symmetry; exact Hp.
  - destruct Hl' as [| y l' Hs' Hy].
    + apply Permutation_sym, Permutation_nil in Hp. discriminate.
    + assert (Hrefl : forall z, R z z).
      { intros z. destruct (le_total z z); assumption. }
      assert (Hxy : R x y).
      { assert (Hin : In y (x :: l)).
        { apply (Permutation_in _ (Permutation_sym Hp)). left; reflexivity. }
        destruct Hin as [<- | Hin]; [apply Hrefl |].
        rewrite Forall_forall in Hx. apply Hx, Hin. }
      assert (Hyx : R y x).
      { assert (Hin : In x (y :: l')).
        { apply (Permutation_in _ Hp). left; reflexivity. }
        destruct Hin as [<- | Hin]; [apply Hrefl |].
        rewrite Forall_forall in Hy. apply Hy, Hin. }
      assert (x = y) by (apply le_antisym; assumption).
      subst y. f_equal.
      apply IH; [exact Hs' |].
      eapply Permutation_cons_inv; exact Hp.
Qed.

Lemma sort_invariant (l l' : list A) :
  Permutation l l' -> Py.sort le l = Py.sort le l'.
Proof.
  intros Hp. apply sorted_perm_eq; try apply sort_sorted.
  eapply perm_trans; [apply Permutation_sym, sort_perm |].
  eapply perm_trans; [exact Hp | apply sort_perm].
Qed.

End SortFacts.

Lemma string_leb_trans (x y z : string) :
  String.leb x y = true -> String.leb y z = true -> String.leb x z = true.
Proof.
  unfold String.leb.
  destruct (String.compare x y) eqn:Hxy; try discriminate; intros _;
  destruct (String.compare y z) eqn:Hyz; try discriminate; intros _.
  - apply String.compare_eq_iff in Hxy; subst. rewrite Hyz. reflexivity.
  - apply String.compare_eq_iff in Hxy; subst. rewrite Hyz. reflexivity.
  - apply String.compare_eq_iff in Hyz; subst. rewrite Hxy. reflexivity.
  - apply String_as_OT.cmp_lt in Hxy, Hyz.
    pose proof (String_as_OT.lt_trans _ _ _ Hxy Hyz) as H.
    apply String_as_OT.cmp_lt in H. unfold String_as_OT.cmp in H.
    rewrite H. reflexivity.
Qed.

Lemma sorted_strings_invariant (l l' : list string) :
  Permutation l l' -> Py.sorted_strings l = Py.sorted_strings l'.
Proof.
  apply sort_invariant.
  - apply String.leb_total.
  - apply String.leb_antisym.
  - apply string_leb_trans.
Qed.

Lemma sorted_strings_perm (l : list string) : Permutation l (Py.sorted_strings l).
Proof. apply sort_perm. Qed.

Lemma sorted_strings_nonempty (l : list string) : l <> [] -> Py.sorted_strings l <> [].
Proof.
  intros Hl Hs. apply Hl.
  apply Permutation_nil. rewrite <- Hs. apply Permutation_sym, sorted_strings_perm.
Qed.

(** ** Sets of strings *)

Lemma all_some_as_str (l : list string) : Py.all_some Py.as_str (map VStr l) = Some l.
Proof.
  induction l as [| s l IH]; simpl; [reflexivity |].
  rewrite IH. reflexivity.
Qed.

Lemma py_sorted_strings (l : list string) :
  Py.sorted (map VStr l) = Ok (map VStr (Py.sorted_strings l)).
Proof.
  destruct l as [| a [| b l]]; try reflexivity.
  unfold Py.sorted.
  change (VStr a :: VStr b :: map VStr l) with (map VStr (a :: b :: l)).
  rewrite all_some_as_str. reflexivity.
Qed.

Lemma mapM_dumps_strings (l : list string) :
  mapM Json.dumps (map VStr l) = Ok (map Json.dumps_str l).
Proof.
  induction l as [| s l IH]; simpl; [reflexivity |].
  rewrite IH. reflexivity.
Qed.

Lemma mapM_element_serialize_strings (l : list string) :
  mapM UnicodeSetAttribute.element_serialize (map VStr l) = Ok l.
Proof.
  induction l as [| s l IH]; simpl; [reflexivity |].
  rewrite IH. reflexivity.
Qed.

Lemma truthy_nonempty_set (l : list string) :
  l <> [] -> Py.truthy (VSet (map VStr l)) = true.
Proof. destruct l; [congruence | reflexivity]. Qed.

(** [SetMixin.serialize] on a non-empty set of strings. *)
Lemma SetMixin_serialize_strings (l : list string) :
  l <> [] ->
  SetMixin.serialize (VSet (map VStr l))
  = Ok (VList (map VStr (map Json.dumps_str (Py.sorted_strings l)))).
Proof.
  intros Hl. unfold SetMixin.serialize, iterable_or_singleton, items_of.
  cbn [Py.is_None negb Py.iter].
  rewrite (truthy_nonempty_set l Hl). cbn [bind].
  rewrite py_sorted_strings. cbn [bind].
  rewrite mapM_dumps_strings. reflexivity.
Qed.

(** [UnicodeSetAttribute.serialize] on a non-empty set of strings. *)
Lemma UnicodeSetAttribute_serialize_strings (l : list string) :
  l <> [] ->
  UnicodeSetAttribute.serialize (VSet (map VStr l))
  = Ok (Py.set_of (Py.sorted_strings l)).
Proof.
  intros Hl. unfold UnicodeSetAttribute.serialize, iterable_or_singleton, items_of.
  cbn [Py.is_None negb Py.iter].
  rewrite (truthy_nonempty_set l Hl). cbn [bind].
  rewrite py_sorted_strings. cbn [bind].
  rewrite mapM_element_serialize_strings. reflexivity.
Qed.

(** C5, as stated, fails on [UnicodeSetAttribute.serialize]: the set
    [{"b", "a"}] is serialized to the set [{"a", "b"}] of the strings
    themselves, which is no list, and whose elements are not the JSON
    texts of the elements. *)
Lemma unicode_set_wire_is_no_json_list :
  UnicodeSetAttribute.serialize (VSet [VStr "b"; VStr "a"])
  = Ok (VSet [VStr "a"; VStr "b"])
  /\ ~ sorted_json_list [VStr "b"; VStr "a"] (VSet [VStr "a"; VStr "b"])
  /\ Json.dumps (VStr "a") <> Ok "a".
Proof.
  split; [reflexivity |]. split.
  - intros (ordered & texts & _ & _ & H). discriminate H.
  - discriminate.
Qed.

(** C5 (amended).  For a non-empty set of strings, given by any iteration
    order [l]: [SetMixin.serialize] yields the list of the JSON-encoded
    elements in sorted order; [UnicodeSetAttribute.serialize], which
    overrides it, yields a set of the elements themselves (not encoded);
    both outputs are the same for every iteration order of the same set.
    [None] and the empty set are serialized to [None] by both. *)
Theorem set_serialization_deterministic (l l' : list string) :
  l <> [] -> Permutation l l' ->
  SetMixin.serialize (VSet (map VStr l))
    = Ok (VList (map VStr (map Json.dumps_str (Py.sorted_strings l))))
  /\ sorted_json_list (map VStr l)
       (VList (map VStr (map Json.dumps_str (Py.sorted_strings l))))
  /\ UnicodeSetAttribute.serialize (VSet (map VStr l))
    = Ok (Py.set_of (Py.sorted_strings l))
  /\ SetMixin.serialize (VSet (map VStr l)) = SetMixin.serialize (VSet (map VStr l'))
  /\ UnicodeSetAttribute.serialize (VSet (map VStr l))
    = UnicodeSetAttribute.serialize (VSet (map VStr l'))
  /\ SetMixin.serialize VNone = Ok VNone
  /\ SetMixin.serialize (VSet []) = Ok VNone
  /\ UnicodeSetAttribute.serialize VNone = Ok VNone
  /\ UnicodeSetAttribute.serialize (VSet []) = Ok VNone.
Proof.
  intros Hl Hp.
  assert (Hl' : l' <> []).
  { intros ->. apply Hl. apply Permutation_nil, Permutation_sym, Hp. }
  repeat split; try reflexivity.
  - apply SetMixin_serialize_strings, Hl.
  - exists (map VStr (Py.sorted_strings l)), (map Json.dumps_str (Py.sorted_strings l)).
    repeat split.
    + apply py_sorted_strings.
    + apply mapM_dumps_strings.
  - apply UnicodeSetAttribute_serialize_strings, Hl.
  - rewrite (SetMixin_serialize_strings l Hl), (SetMixin_serialize_strings l' Hl').
    rewrite (sorted_strings_invariant l l' Hp). reflexivity.
  - rewrite (UnicodeSetAttribute_serialize_strings l Hl),
      (UnicodeSetAttribute_serialize_strings l' Hl').
    rewrite (sorted_strings_invariant l l' Hp). reflexivity.
Qed.

Lemma set_serialization_deterministic_witness :
  SetMixin.serialize (VSet (map VStr ["b"; "a"]))
  = SetMixin.serialize (VSet (map VStr ["a"; "b"])).
Proof.
  apply (set_serialization_deterministic ["b"; "a"] ["a"; "b"]).
  - discriminate.
  - apply perm_swap.
Defined.

(** ** Numbers *)

Lemma loads_text_str_of_Z (n : Z) : Json.loads_text (Py.str_of_Z n) = Ok (VInt n).
Proof.
  unfold Json.loads_text, Py.str_of_Z.
  rewrite NilZero.isi.
  - rewrite DecimalZ.of_to. rewrite String.eqb_refl. reflexivity.
  - destruct n; simpl; try discriminate.
    intros H. injection H as H. exact (Unsigned.to_uint_nonnil _ H).
  - destruct n; simpl; try discriminate.
    intros H. injection H as H. exact (Unsigned.to_uint_nonnil _ H).
Qed.

(** The decoder reads the text of a number... *)
Lemma NumberAttribute_deserialize_text (n : Z) :
  (text <- Json.dumps (VInt n) ;; NumberAttribute.deserialize (VStr text)) = Ok (VInt n).
Proof. simpl. apply loads_text_str_of_Z. Qed.

(** ... but the encoder hands the number over as it is. *)
Lemma NumberAttribute_serialize_identity (v : pyval) : NumberAttribute.serialize v = Ok v.
Proof. reflexivity. Qed.

(** C4 at the number attribute: [serialize] does not produce text, and
    [deserialize], which expects text, raises [TypeError] on what
    [serialize] returned.  No integer round-trips. *)
Theorem NumberAttribute_roundtrip_raises (n : Z) :
  NumberAttribute.serialize (VInt n) = Ok (VInt n)
  /\ (wire <- NumberAttribute.serialize (VInt n) ;; NumberAttribute.deserialize wire)
     = Raise TypeError.
Proof. split; reflexivity. Qed.

(** The other scalar and collection attributes of the embedding do
    round-trip on the values they do not omit. *)
Lemma UnicodeAttribute_roundtrip (s : string) :
  s <> "" ->
  (wire <- UnicodeAttribute.serialize (VStr s) ;; UnicodeAttribute.deserialize wire)
  = Ok (VStr s).
Proof.
  intros Hs. unfold UnicodeAttribute.serialize. simpl.
  destruct (String.eqb_spec s ""); [contradiction | reflexivity].
Qed.

Lemma BooleanAttribute_roundtrip (b : bool) :
  (wire <- BooleanAttribute.serialize (VBool b) ;; BooleanAttribute.deserialize wire)
  = Ok (VBool b).
Proof. destruct b; reflexivity. Qed.

Lemma ListAttribute_roundtrip (l : list pyval) :
  (wire <- ListAttribute.serialize (VList l) ;; ListAttribute.deserialize wire)
  = Ok (VList l).
Proof. reflexivity. Qed.

Lemma NullAttribute_roundtrip :
  (wire <- NullAttribute.serialize VNone ;; NullAttribute.deserialize wire) = Ok VNone.
Proof. reflexivity. Qed.

Lemma nodup_NoDup_id (l : list string) : NoDup l -> nodup string_dec l = l.
Proof. apply nodup_fixed_point. Qed.

(** A non-empty string set comes back as the same set (its elements in
    sorted order). *)
Lemma UnicodeSetAttribute_roundtrip (l : list string) :
  l <> [] -> NoDup l ->
  exists l',
    (wire <- UnicodeSetAttribute.serialize (VSet (map VStr l)) ;;
     UnicodeSetAttribute.deserialize wire) = Ok (VSet (map VStr l'))
    /\ Permutation l l'.
Proof.
  intros Hl Hnd. exists (Py.sorted_strings l). split.
  - rewrite (UnicodeSetAttribute_serialize_strings l Hl). cbn [bind].
    assert (Hnd' : NoDup (Py.sorted_strings l)).
    { eapply Permutation_NoDup; [apply sorted_strings_perm | exact Hnd]. }
    unfold Py.set_of. rewrite (nodup_NoDup_id _ Hnd').
    unfold UnicodeSetAttribute.deserialize, items_of.
    rewrite (truthy_nonempty_set _ (sorted_strings_nonempty l Hl)).
    cbn [Py.iter bind]. unfold UnicodeSetAttribute.element_deserialize.
    rewrite map_id. unfold build_set. rewrite all_some_as_str.
    unfold Py.set_of. rewrite (nodup_NoDup_id _ Hnd'). reflexivity.
  - apply sorted_strings_perm.
Qed.

(** ** Conversion of a nested map that was converted before *)

(** C1, as stated, fails: on an instance that is no longer in data mode
    [make_attribute] returns [False] and raises nothing, and the class that
    declares the reused instance is registered. *)
Lemma make_attribute_twice_is_silent :
  MapAttribute.make_attribute (Container MapAttribute_class [] []) = Ok (true, converted_once)
  /\ MapAttribute.is_attribute_container converted_once = false
  /\ MapAttribute.make_attribute converted_once = Ok (false, converted_once)
  /\ ~ raises (MapAttribute.make_attribute converted_once)
  /\ ~ raises (AttributeContainerMeta._initialize_attributes PlainContainer "Second"
                 [("again", reused_field)]).
Proof.
  repeat split; apply not_raises_Ok.
Qed.

(** C1 (amended).  On an instance that was converted before,
    [make_attribute] returns [False] and leaves the instance as it is, and
    the registration that asked for the conversion goes on without
    prefixing any path: the instance is entered in the schema map
    unchanged and its wire name in the reverse map. *)
Theorem make_attribute_again_returns_False
    (c : Class) (st : AttrState) (locals : list (string * pyobj))
    (name wire : string) (attrs : list (string * pyobj)) (rev_map : list (string * string)) :
  Attribute.last_segment st = Ok (Some wire) ->
  MapAttribute.make_attribute (Descriptor c st locals) = Ok (false, Descriptor c st locals)
  /\ AttributeContainerMeta.register name (Descriptor c st locals) (attrs, rev_map)
     = Ok (Dict.set attrs name (Descriptor c st locals), Dict.set rev_map wire name).
Proof.
  intros Hw. split; [reflexivity |].
  unfold AttributeContainerMeta.register, AttributeContainerMeta.prepare.
  cbn [isinstance_MapAttribute].
  cbn [MapAttribute.make_attribute MapAttribute.is_attribute_container negb bind].
  cbn [Attribute.attr_name]. rewrite Hw. reflexivity.
Qed.

Lemma make_attribute_again_returns_False_witness :
  Attribute.last_segment (named "doc") = Ok (Some "doc")
  /\ MapAttribute.make_attribute reused_field = Ok (false, reused_field)
  /\ AttributeContainerMeta.register "again" reused_field ([], [])
     = Ok ([("again", reused_field)], [("doc", "again")]).
Proof.
  split; [reflexivity |].
  apply (make_attribute_again_returns_False MapAttribute_class (named "doc") []
           "again" "doc" [] []).
  reflexivity.
Defined.

(** ** Equality of containers *)

(** C10.  For a container [a] (a [MapAttribute] in data mode included) and
    any object [b], [a == b] is [a is b] and [a != b] is [a is not b]; so
    two distinct containers that hold equal field values are unequal. *)
Theorem container_equality_is_identity
    (s : store) (a b : ident) (c : Class) (kwargs values : dict) :
  s a = Some (Container c kwargs values) ->
  py_eq s a b = Ok (Nat.eqb a b)
  /\ py_ne s a b = Ok (negb (Nat.eqb a b))
  /\ (py_eq s a b = Ok true <-> a = b)
  /\ (py_ne s a b = Ok true <-> a <> b)
  /\ (forall ob, s b = Some ob -> a <> b ->
      same_field_values (Container c kwargs values) ob ->
      py_eq s a b = Ok false /\ py_ne s a b = Ok true).
Proof.
  intros Ha.
  assert (Heq : py_eq s a b = Ok (Nat.eqb a b)).
  { unfold py_eq, method__eq__. rewrite Ha.
    destruct (class_kind c); cbn; unfold AttributeContainer.__eq__;
      destruct (Nat.eqb a b); reflexivity. }
  assert (Hne : py_ne s a b = Ok (negb (Nat.eqb a b))).
  { unfold py_ne, method__ne__. rewrite Ha.
    destruct (class_kind c); cbn; unfold AttributeContainer.__ne__;
      destruct (Nat.eqb a b); reflexivity. }
  rewrite Heq, Hne.
  split; [reflexivity |]. split; [reflexivity |]. split; [| split].
  - split.
    + intros H. injection H as H. apply Nat.eqb_eq, H.
    + intros ->. rewrite Nat.eqb_refl. reflexivity.
  - split.
    + intros H. injection H as H. intros ->. rewrite Nat.eqb_refl in H. discriminate.
    + intros H. apply Nat.eqb_neq in H. rewrite H. reflexivity.
  - intros ob _ Hab _. apply Nat.eqb_neq in Hab. rewrite Hab. split; reflexivity.
Qed.

Lemma container_equality_is_identity_witness :
  two_equal_maps 0 = Some (Container MapAttribute_class [] [("k", VInt 1)])
  /\ py_eq two_equal_maps 0 1 = Ok false
  /\ py_ne two_equal_maps 0 1 = Ok true
  /\ py_eq two_equal_maps 0 0 = Ok true.
Proof.
  split; [reflexivity |].
  pose proof (container_equality_is_identity two_equal_maps 0 1 MapAttribute_class []
                [("k", VInt 1)] eq_refl) as H1.
  pose proof (container_equality_is_identity two_equal_maps 0 0 MapAttribute_class []
                [("k", VInt 1)] eq_refl) as H0.
  destruct H1 as (H1 & H1' & _). destruct H0 as (H0 & _).
  repeat split; assumption.
Defined.

(** ** Strings *)

Lemma append_nil_r (s : string) : s ++ "" = s.
Proof. induction s as [| c s IH]; simpl; [reflexivity | rewrite IH; reflexivity]. Qed.

Lemma append_assoc (a b c : string) : (a ++ b) ++ c = a ++ b ++ c.
Proof. induction a as [| x a IH]; simpl; [reflexivity | rewrite IH; reflexivity]. Qed.

Lemma prefix_drop (p s : string) :
  String.prefix p s = true -> p ++ Py.drop (String.length p) s = s.
Proof.
  revert s; induction p as [| c p IH]; intros s H; simpl.
  - destruct s; reflexivity.
  - destruct s as [| c' s]; simpl in H.
    + discriminate H.
    + destruct (Ascii.ascii_dec c c') as [Heq | Hne].
      * subst c'. cbn [Py.drop]. rewrite (IH s H). reflexivity.
      * discriminate H.
Qed.

Lemma split_from_nonempty (sep : string) (skip : nat) (cur s : string) :
  Py.split_from sep skip cur s <> [].
Proof.
  revert skip cur; induction s as [| c s IH]; intros skip cur; cbn [Py.split_from].
  - discriminate.
  - destruct skip; [| apply IH].
    destruct (String.prefix sep (String c s)); [discriminate | apply IH].
Qed.

Lemma concat_cons (sep x : string) (l : list string) :
  l <> [] -> String.concat sep (x :: l) = x ++ sep ++ String.concat sep l.
Proof. destruct l; [congruence | reflexivity]. Qed.

(** Joining the segments of [split] with the separator gives the string
    back. *)
Lemma concat_split_from (sep : string) (skip : nat) (cur s : string) :
  sep <> "" ->
  String.concat sep (Py.split_from sep skip cur s) = cur ++ Py.drop skip s.
Proof.
  intros Hsep. revert skip cur; induction s as [| c s IH]; intros skip cur.
  - destruct skip; simpl; rewrite append_nil_r; reflexivity.
  - destruct skip as [| k].
    + cbn [Py.split_from Py.drop].
      destruct (String.prefix sep (String c s)) eqn:Hp.
      * rewrite concat_cons by apply split_from_nonempty.
        rewrite IH. simpl.
        destruct sep as [| c' sep']; [congruence |].
        pose proof (prefix_drop _ _ Hp) as Hd.
        cbn [String.length Py.drop] in Hd.
        cbn [String.length]. rewrite Nat.sub_succ, Nat.sub_0_r.
        rewrite Hd. reflexivity.
      * rewrite IH. cbn [Py.drop]. rewrite append_assoc. reflexivity.
    + cbn [Py.split_from Py.drop]. apply IH.
Qed.

Lemma py_last_nonempty (l : list string) :
  l <> [] -> Py.last l = Ok (List.last l "").
Proof.
  intros Hl. unfold Py.last.
  rewrite (app_removelast_last "" Hl) at 1.
  rewrite rev_app_distr. reflexivity.
Qed.

Lemma py_first_nonempty (l : list string) :
  l <> [] -> Py.first l = Ok (List.hd "" l).
Proof. destruct l; [congruence | reflexivity]. Qed.

(** ** The composite key *)

Lemma truthy_opt_configured (part : option string) :
  Py.truthy_opt part = match configured part with [] => false | _ => true end.
Proof.
  destruct part as [s |]; simpl; [| reflexivity].
  destruct (String.eqb s ""); reflexivity.
Qed.

Lemma serialize_value_choice (cfg : KeyConfig) (value : pyval) :
  (if negb (Py.truthy value) && Py.truthy_opt (fixed_value cfg)
   then match fixed_value cfg with Some s => VStr s | None => value end
   else value) = supplied_or_fixed cfg value.
Proof.
  unfold supplied_or_fixed.
  destruct (fixed_value cfg) as [s |]; simpl.
  - destruct (String.eqb s ""); simpl;
      destruct (Py.truthy value); reflexivity.
  - destruct (Py.truthy value); reflexivity.
Qed.

Lemma serialize_text_composition (cfg : KeyConfig) (text : string) :
  (if Py.truthy_opt (prefix cfg)
   then match prefix cfg with Some p => p ++ separator cfg | None => "" end
   else "")
  ++ text
  ++ (if Py.truthy_opt (suffix cfg)
      then match suffix cfg with Some s => separator cfg ++ s | None => "" end
      else "")
  = compose_key cfg text.
Proof.
  unfold compose_key.
  destruct (prefix cfg) as [p |]; destruct (suffix cfg) as [s |]; simpl;
    repeat match goal with
           | |- context [String.eqb ?x ""] => destruct (String.eqb x ""); simpl
           end;
    rewrite ?append_nil_r, ?append_assoc; reflexivity.
Qed.

(** A key attribute that was constructed has a separator that is not
    empty. *)
Lemma KeyAttribute_init_separator (p s v sep : option string)
    (hash_key range_key : bool) (cfg : KeyConfig) (st : AttrState) :
  KeyAttribute.__init__ p s v hash_key range_key sep = Ok (cfg, st) ->
  separator cfg <> "".
Proof.
  unfold KeyAttribute.__init__.
  destruct (_ && _ && _); [discriminate |].
  destruct (_ && _); [discriminate |].
  intros H. apply bind_Ok_inv in H. destruct H as (st0 & _ & H). injection H as <- _.
  cbn. destruct sep as [x |]; cbn; [| discriminate].
  destruct (String.eqb_spec x ""); cbn; [discriminate | assumption].
Qed.

(** C8.  [serialize] puts the fixed value in the place of a dynamic value
    that is not supplied, composes [prefix SEP value SEP suffix] without
    the absent parts and hands the text to the string encoder;
    [deserialize] splits the stored string on the separator (joining the
    segments with the separator gives the string back), takes the last
    segment when a prefix is configured and the first otherwise, and hands
    it to the string decoder. *)
Theorem KeyAttribute_composes_and_splits (cfg : KeyConfig) :
  separator cfg <> "" ->
  (forall (value : pyval) (text : string),
      Py.str (supplied_or_fixed cfg value) = Ok text ->
      KeyAttribute.serialize cfg value
      = UnicodeAttribute.serialize (VStr (compose_key cfg text)))
  /\ (forall stored : string,
      exists segments,
        Py.split stored (separator cfg) = Ok segments
        /\ String.concat (separator cfg) segments = stored
        /\ KeyAttribute.deserialize cfg (VStr stored)
           = UnicodeAttribute.deserialize (VStr (pick_segment cfg segments))
        /\ KeyAttribute.deserialize cfg (VStr stored)
           = Ok (VStr (pick_segment cfg segments))).
Proof.
  intros Hsep. split.
  - intros value text Htext.
    unfold KeyAttribute.serialize.
    rewrite serialize_value_choice, Htext. cbn [bind].
    rewrite serialize_text_composition. reflexivity.
  - intros stored.
    exists (Py.split_from (separator cfg) 0 "" stored).
    assert (Hsplit : Py.split stored (separator cfg)
                     = Ok (Py.split_from (separator cfg) 0 "" stored)).
    { unfold Py.split. destruct (String.eqb_spec (separator cfg) ""); [contradiction | reflexivity]. }
    assert (Hpick : (if Py.truthy_opt (prefix cfg)
                     then Py.last (Py.split_from (separator cfg) 0 "" stored)
                     else Py.first (Py.split_from (separator cfg) 0 "" stored))
                    = Ok (pick_segment cfg (Py.split_from (separator cfg) 0 "" stored))).
    { unfold pick_segment. rewrite truthy_opt_configured.
      destruct (configured (prefix cfg)).
      - apply py_first_nonempty, split_from_nonempty.
      - apply py_last_nonempty, split_from_nonempty. }
    repeat split.
    + exact Hsplit.
    + rewrite concat_split_from by exact Hsep. reflexivity.
    + unfold KeyAttribute.deserialize. rewrite Hsplit. cbn [bind].
      rewrite Hpick. reflexivity.
    + unfold KeyAttribute.deserialize. rewrite Hsplit. cbn [bind].
      rewrite Hpick. reflexivity.
Qed.

Lemma KeyAttribute_composes_and_splits_witness :
  separator user_key <> ""
  /\ KeyAttribute.serialize user_key (VStr "42") = Ok (VStr "user#42")
  /\ KeyAttribute.deserialize user_key (VStr "user#42") = Ok (VStr "42").
Proof.
  assert (Hsep : separator user_key <> "") by discriminate.
  destruct (KeyAttribute_composes_and_splits user_key Hsep) as [Hser Hdes].
  split; [exact Hsep |]. split.
  - rewrite (Hser (VStr "42") "42" eq_refl). reflexivity.
  - destruct (Hdes "user#42") as (segments & Hsplit & _ & _ & Hd).
    rewrite Hd. injection Hsplit as <-. reflexivity.
Defined.

(** *** Keys with a one-character separator *)

Lemma prefix_single (c x : ascii) (s : string) :
  String.prefix (String c "") (String x s) = Ascii.eqb x c.
Proof.
  cbn. destruct (Ascii.ascii_dec c x) as [-> | Hne].
  - rewrite Ascii.eqb_refl. destruct s; reflexivity.
  - symmetry. apply Ascii.eqb_neq. congruence.
Qed.

Lemma split_without_separator (c : ascii) (cur v : string) :
  occurs c v = false -> Py.split_from (String c "") 0 cur v = [cur ++ v].
Proof.
  revert cur; induction v as [| x v IH]; intros cur Hv.
  - cbn. rewrite append_nil_r. reflexivity.
  - cbn [occurs] in Hv. apply orb_false_iff in Hv. destruct Hv as [Hx Hv].
    cbn [Py.split_from]. rewrite prefix_single, Hx.
    rewrite (IH _ Hv), append_assoc. reflexivity.
Qed.

(** The last segment is what follows the last separator. *)
Lemma split_last_segment (c : ascii) (cur before v : string) :
  occurs c v = false ->
  List.last (Py.split_from (String c "") 0 cur (before ++ String c v)) "" = v.
Proof.
  intros Hv. revert cur; induction before as [| x before IH]; intros cur.
  - cbn [append Py.split_from]. rewrite prefix_single, Ascii.eqb_refl.
    cbn [String.length Nat.sub]. rewrite (split_without_separator c "" v Hv).
    reflexivity.
  - cbn [append Py.split_from]. rewrite prefix_single.
    destruct (Ascii.eqb x c).
    + cbn [String.length Nat.sub].
      assert (Hne := split_from_nonempty (String c "") 0 "" (before ++ String c v)).
      destruct (Py.split_from (String c "") 0 "" (before ++ String c v)) eqn:Hs;
        [congruence |].
      rewrite <- Hs. cbn [List.last]. rewrite Hs. rewrite <- Hs. apply IH.
    + apply IH.
Qed.

(** The first segment is what precedes the first separator. *)
Lemma split_first_segment (c : ascii) (cur v after : string) :
  occurs c v = false ->
  List.hd "" (Py.split_from (String c "") 0 cur (v ++ String c after)) = cur ++ v.
Proof.
  revert cur; induction v as [| x v IH]; intros cur Hv.
  - cbn [append Py.split_from]. rewrite prefix_single, Ascii.eqb_refl.
    cbn. rewrite append_nil_r. reflexivity.
  - cbn [occurs] in Hv. apply orb_false_iff in Hv. destruct Hv as [Hx Hv].
    cbn [append Py.split_from]. rewrite prefix_single, Hx.
    rewrite (IH _ Hv), append_assoc. reflexivity.
Qed.

Lemma append_nonempty_l (a b : string) : a <> "" -> a ++ b <> "".
Proof. destruct a; [congruence | discriminate]. Qed.

Lemma append_nonempty_r (a b : string) : b <> "" -> a ++ b <> "".
Proof. destruct a; [cbn; trivial | discriminate]. Qed.

Lemma UnicodeAttribute_serialize_nonempty (s : string) :
  s <> "" -> UnicodeAttribute.serialize (VStr s) = Ok (VStr s).
Proof.
  intros Hs. unfold UnicodeAttribute.serialize. cbn.
  destruct (String.eqb_spec s ""); [contradiction | reflexivity].
Qed.

Lemma truthy_opt_Some (s : string) : s <> "" -> Py.truthy_opt (Some s) = true.
Proof. intros Hs. cbn. destruct (String.eqb_spec s ""); [contradiction | reflexivity]. Qed.

Lemma truthy_VStr (s : string) : s <> "" -> Py.truthy (VStr s) = true.
Proof. intros Hs. cbn. destruct (String.eqb_spec s ""); [contradiction | reflexivity]. Qed.

(** A key with a prefix and no suffix gives a supplied value back when the
    separator does not occur in the value. *)
Lemma KeyAttribute_roundtrip_prefix (p : string) (fixed : option string) (c : ascii)
    (v : string) :
  p <> "" -> v <> "" -> occurs c v = false ->
  let cfg := {| prefix := Some p; suffix := None; fixed_value := fixed;
                separator := String c "" |} in
  KeyAttribute.serialize cfg (VStr v) = Ok (VStr (p ++ String c v))
  /\ KeyAttribute.deserialize cfg (VStr (p ++ String c v)) = Ok (VStr v).
Proof.
  intros Hp Hv Hc cfg. split.
  - unfold KeyAttribute.serialize. cbn [cfg fixed_value prefix suffix separator].
    rewrite (truthy_VStr v Hv). cbn [negb andb Py.str bind].
    rewrite (truthy_opt_Some p Hp). cbn [Py.truthy_opt].
    rewrite append_nil_r, append_assoc. cbn [append].
    apply UnicodeAttribute_serialize_nonempty, append_nonempty_l, Hp.
  - unfold KeyAttribute.deserialize, Py.split. cbn [cfg prefix separator String.eqb].
    cbn [Ascii.eqb]. replace (String.eqb (String c "") "") with false by reflexivity.
    cbn [bind]. rewrite (truthy_opt_Some p Hp).
    rewrite py_last_nonempty by apply split_from_nonempty. cbn [bind].
    rewrite (split_last_segment c "" p v Hc). reflexivity.
Qed.

(** A key with a suffix and no prefix does so as well. *)
Lemma KeyAttribute_roundtrip_suffix (s : string) (fixed : option string) (c : ascii)
    (v : string) :
  s <> "" -> v <> "" -> occurs c v = false ->
  let cfg := {| prefix := None; suffix := Some s; fixed_value := fixed;
                separator := String c "" |} in
  KeyAttribute.serialize cfg (VStr v) = Ok (VStr (v ++ String c s))
  /\ KeyAttribute.deserialize cfg (VStr (v ++ String c s)) = Ok (VStr v).
Proof.
  intros Hs Hv Hc cfg. split.
  - unfold KeyAttribute.serialize. cbn [cfg fixed_value prefix suffix separator].
    rewrite (truthy_VStr v Hv). cbn [negb andb Py.str bind].
    rewrite (truthy_opt_Some s Hs). cbn [Py.truthy_opt append].
    apply UnicodeAttribute_serialize_nonempty, append_nonempty_l, Hv.
  - unfold KeyAttribute.deserialize, Py.split. cbn [cfg prefix separator].
    replace (String.eqb (String c "") "") with false by reflexivity.
    cbn [bind Py.truthy_opt].
    rewrite py_first_nonempty by apply split_from_nonempty. cbn [bind].
    rewrite (split_first_segment c "" v s Hc). reflexivity.
Qed.

(** A key with both a prefix and a suffix does not: what [deserialize]
    returns is the suffix. *)
Lemma KeyAttribute_prefix_and_suffix_lossy (p s : string) (fixed : option string)
    (c : ascii) (v : string) :
  p <> "" -> s <> "" -> v <> "" -> occurs c s = false ->
  let cfg := {| prefix := Some p; suffix := Some s; fixed_value := fixed;
                separator := String c "" |} in
  KeyAttribute.serialize cfg (VStr v) = Ok (VStr (p ++ String c (v ++ String c s)))
  /\ KeyAttribute.deserialize cfg (VStr (p ++ String c (v ++ String c s))) = Ok (VStr s).
Proof.
  intros Hp Hs Hv Hc cfg. split.
  - unfold KeyAttribute.serialize. cbn [cfg fixed_value prefix suffix separator].
    rewrite (truthy_VStr v Hv). cbn [negb andb Py.str bind].
    rewrite (truthy_opt_Some p Hp), (truthy_opt_Some s Hs).
    rewrite append_assoc. cbn [append].
    apply UnicodeAttribute_serialize_nonempty, append_nonempty_l, Hp.
  - unfold KeyAttribute.deserialize, Py.split. cbn [cfg prefix separator].
    replace (String.eqb (String c "") "") with false by reflexivity.
    cbn [bind]. rewrite (truthy_opt_Some p Hp).
    rewrite py_last_nonempty by apply split_from_nonempty. cbn [bind].
    replace (p ++ String c (v ++ String c s)) with ((p ++ String c v) ++ String c s)
      by (rewrite append_assoc; reflexivity).
    rewrite (split_last_segment c "" (p ++ String c v) s Hc). reflexivity.
Qed.

(** ** Deserialization of maps *)

Lemma deserialize_unfold (c : Class) (entries : dict) :
  MapAttribute.deserialize c (VDict entries)
  = (deserialized_dict <-
       MapAttribute.deserialize_items MapAttribute.deserialize c entries [] ;;
     if negb (MapAttribute.is_raw c)
     then MapAttribute.__init__ c deserialized_dict
     else Ok (VDict deserialized_dict)).
Proof. reflexivity. Qed.

Lemma deserialize_items_app (rec : Class -> pyval -> result pyval) (c : Class)
    (before after acc : dict) :
  MapAttribute.deserialize_items rec c (before ++ after)%list acc
  = (acc' <- MapAttribute.deserialize_items rec c before acc ;;
     MapAttribute.deserialize_items rec c after acc').
Proof.
  revert acc; induction before as [| [key val] before IH]; intros acc.
  - reflexivity.
  - cbn [app MapAttribute.deserialize_items].
    destruct (_get_value_for_deserialize val) as [attr_value | e | ]; cbn [bind];
      try reflexivity.
    destruct (MapAttribute._get_deserialize_class c
                (AttributeContainer._dynamo_to_python_attr c key) val)
      as [[attr_class |] | e | ]; cbn [bind]; try reflexivity.
    + match goal with
      | |- bind ?m _ = _ => destruct m as [v | e | ]; cbn [bind]; try reflexivity
      end.
      apply IH.
    + apply IH.
Qed.

Lemma wire_value_unwraps (tag : string) (payload : pyval) (more : dict) :
  exists attr_value,
    _get_value_for_deserialize (VDict ((tag, payload) :: more)) = Ok attr_value.
Proof.
  unfold _get_value_for_deserialize. cbn [keys_of Dict.keys map fst bind].
  destruct (String.eqb tag NULL).
  - eexists; reflexivity.
  - cbn [Dict.get]. rewrite String.eqb_refl. eexists; reflexivity.
Qed.

(** A wire field of a typed map whose name resolves to no attribute is
    skipped. *)
Lemma unknown_field_skipped (rec : Class -> pyval -> result pyval) (c : Class)
    (key tag : string) (payload : pyval) (more rest acc : dict) :
  MapAttribute.is_raw c = false ->
  Dict.get (AttributeContainer.get_attributes c)
    (AttributeContainer._dynamo_to_python_attr c key) = None ->
  MapAttribute.deserialize_items rec c ((key, VDict ((tag, payload) :: more)) :: rest) acc
  = MapAttribute.deserialize_items rec c rest acc.
Proof.
  intros Hraw Hnone. cbn [MapAttribute.deserialize_items].
  destruct (wire_value_unwraps tag payload more) as [attr_value ->]. cbn [bind].
  unfold MapAttribute._get_deserialize_class. rewrite Hraw. cbn [negb bind].
  rewrite Hnone. reflexivity.
Qed.

(** A wire value of a raw map whose type tag is not in the registry stops
    the decoding with [ValueError]. *)
Lemma unknown_tag_raises (rec : Class -> pyval -> result pyval) (c : Class)
    (key tag : string) (payload : pyval) (more rest acc : dict) :
  MapAttribute.is_raw c = true ->
  Dict.get DESERIALIZE_CLASS_MAP tag = None ->
  MapAttribute.deserialize_items rec c ((key, VDict ((tag, payload) :: more)) :: rest) acc
  = Raise ValueError.
Proof.
  intros Hraw Hnone. cbn [MapAttribute.deserialize_items].
  destruct (wire_value_unwraps tag payload more) as [attr_value ->]. cbn [bind].
  unfold MapAttribute._get_deserialize_class. rewrite Hraw. cbn [negb].
  unfold _get_class_for_deserialize. cbn [keys_of Dict.keys map fst bind].
  rewrite Hnone. reflexivity.
Qed.

(** The wire values above are type-tag wrappers.  A field whose value is
    an empty mapping stops the decoding before its name is looked at. *)
Lemma empty_wire_value_raises (rec : Class -> pyval -> result pyval) (c : Class)
    (key : string) (rest acc : dict) :
  MapAttribute.deserialize_items rec c ((key, VDict []) :: rest) acc = Raise StopIteration.
Proof. reflexivity. Qed.

(** C7.  In a typed map, a wire field whose name resolves to no attribute
    of the schema is dropped: the result, an error of another field
    included, is the one without that field.  In a raw map, a wire value
    whose type tag the registry does not hold makes [deserialize] fail: it
    never returns, and it raises [ValueError] as soon as the fields before
    it are decoded. *)
Theorem unknown_name_dropped_unknown_tag_fatal
    (c : Class) (key tag : string) (payload : pyval) (more before after : dict) :
  (MapAttribute.is_raw c = false ->
   Dict.get (AttributeContainer.get_attributes c)
     (AttributeContainer._dynamo_to_python_attr c key) = None ->
   MapAttribute.deserialize c
     (VDict (before ++ (key, VDict ((tag, payload) :: more)) :: after)%list)
   = MapAttribute.deserialize c (VDict (before ++ after)%list))
  /\ (MapAttribute.is_raw c = true ->
      Dict.get DESERIALIZE_CLASS_MAP tag = None ->
      (forall v,
          MapAttribute.deserialize c
            (VDict (before ++ (key, VDict ((tag, payload) :: more)) :: after)%list)
          <> Ok v)
      /\ (forall acc,
          MapAttribute.deserialize_items MapAttribute.deserialize c before [] = Ok acc ->
          MapAttribute.deserialize c
            (VDict (before ++ (key, VDict ((tag, payload) :: more)) :: after)%list)
          = Raise ValueError)).
Proof.
  split.
  - intros Hraw Hnone. rewrite !deserialize_unfold, !deserialize_items_app.
    destruct (MapAttribute.deserialize_items MapAttribute.deserialize c before [])
      as [acc | e | ]; cbn [bind]; try reflexivity.
    rewrite (unknown_field_skipped _ c key tag payload more after acc Hraw Hnone).
    reflexivity.
  - intros Hraw Hnone. split.
    + intros v. rewrite deserialize_unfold, deserialize_items_app.
      destruct (MapAttribute.deserialize_items MapAttribute.deserialize c before [])
        as [acc | e | ]; cbn [bind]; try discriminate.
      rewrite (unknown_tag_raises _ c key tag payload more after acc Hraw Hnone).
      discriminate.
    + intros acc Hacc. rewrite deserialize_unfold, deserialize_items_app, Hacc.
      cbn [bind].
      rewrite (unknown_tag_raises _ c key tag payload more after acc Hraw Hnone).
      reflexivity.
Qed.

(** ** Construction of containers *)

Lemma MapAttribute_init_unfold (c : Class) (attributes : dict) :
  MapAttribute.__init__ c attributes = MapAttribute.init MapAttribute.__init__ c attributes.
Proof. destruct c; reflexivity. Qed.

Section ContainerInvariant.
Variable construct : Class -> dict -> result pyval.

Lemma Attribute_set_keeps (attr self self' : pyobj) (c : Class) (kwargs : dict)
    (value : pyval) :
  container_of c kwargs self ->
  Attribute.__set__ attr self value = Ok self' ->
  container_of c kwargs self'.
Proof.
  intros [values ->] H. unfold Attribute.__set__ in H. cbn in H.
  destruct (Attribute.attr_name attr) as [[w |] | e | ]; cbn in H; try discriminate.
  injection H as <-. eexists; reflexivity.
Qed.

Lemma descriptor_set_keeps (attr self self' : pyobj) (c : Class) (kwargs : dict)
    (value : pyval) :
  container_of c kwargs self ->
  MapAttribute.descriptor__set__ construct attr self value = Ok self' ->
  container_of c kwargs self'.
Proof.
  intros Hc H. unfold MapAttribute.descriptor__set__, MapAttribute.__set__ in H.
  destruct attr as [k st | |].
  - destruct k; try (eapply Attribute_set_keeps; eassumption).
    unfold TTLAttribute.__set__ in H.
    apply bind_Ok_inv in H. destruct H as ([d |] & _ & H); [discriminate |].
    eapply Attribute_set_keeps; eassumption.
  - apply bind_Ok_inv in H. destruct H as (v & _ & H).
    eapply Attribute_set_keeps; eassumption.
  - apply bind_Ok_inv in H. destruct H as (v & _ & H).
    eapply Attribute_set_keeps; eassumption.
Qed.

Lemma lookup_Ok_inv {X : Type} (name : string) (k : pyobj -> result X)
    (entries : list (string * pyobj)) (x : X) :
  lookup name k Unsupported entries = Ok x -> exists attr, k attr = Ok x.
Proof.
  induction entries as [| [n a] entries IH]; cbn; [discriminate |].
  destruct (String.eqb n name); [intros H; exists a; exact H | exact IH].
Qed.

Lemma setattr_keeps (c0 c : Class) (kwargs : dict) (self self' : pyobj)
    (name : string) (value : pyval) :
  container_of c kwargs self ->
  MapAttribute.setattr construct c0 self name value = Ok self' ->
  container_of c kwargs self'.
Proof.
  intros [values ->] H.
  unfold MapAttribute.setattr, AttributeContainer.setattr in H.
  destruct (is_MapAttribute_itself c0).
  - injection H as <-. eexists; reflexivity.
  - apply lookup_Ok_inv in H. destruct H as [attr H].
    eapply descriptor_set_keeps; [| exact H]. eexists; reflexivity.
Qed.

Lemma set_defaults_keeps (c0 c : Class) (kwargs : dict) (user : pyval)
    (self self' : pyobj) :
  container_of c kwargs self ->
  AttributeContainer._set_defaults (MapAttribute.descriptor__set__ construct)
    c0 self user = Ok self' ->
  container_of c kwargs self'.
Proof.
  unfold AttributeContainer._set_defaults.
  generalize (AttributeContainer.get_attributes c0) as items.
  intros items; revert self; induction items as [| [name attr] items IH];
    intros self Hc H.
  - injection H as <-. exact Hc.
  - apply bind_Ok_inv in H. destruct H as (st & _ & H).
    apply bind_Ok_inv in H. destruct H as (self1 & H1 & H).
    apply (IH self1); [| exact H].
    match type of H1 with
    | (if ?b then _ else _) = _ => destruct b
    end.
    + eapply setattr_keeps; eassumption.
    + injection H1 as <-. exact Hc.
Qed.

Lemma container_set_attributes_keeps (c0 c : Class) (kwargs : dict)
    (attributes : dict) (self self' : pyobj) :
  container_of c kwargs self ->
  AttributeContainer._set_attributes (MapAttribute.descriptor__set__ construct)
    c0 self attributes = Ok self' ->
  container_of c kwargs self'.
Proof.
  unfold AttributeContainer._set_attributes.
  revert self; induction attributes as [| [name value] attributes IH];
    intros self Hc H.
  - injection H as <-. exact Hc.
  - destruct (negb (Dict.mem (AttributeContainer.get_attributes c0) name));
      [discriminate |].
    apply bind_Ok_inv in H. destruct H as (self1 & H1 & H).
    apply (IH self1); [| exact H].
    eapply setattr_keeps; eassumption.
Qed.

Lemma set_attributes_keeps (c0 c : Class) (kwargs : dict)
    (attrs : dict) (self self' : pyobj) :
  container_of c kwargs self ->
  MapAttribute._set_attributes construct c0 self attrs = Ok self' ->
  container_of c kwargs self'.
Proof.
  unfold MapAttribute._set_attributes.
  destruct (MapAttribute.is_raw c0).
  - revert self; induction attrs as [| [name value] attrs IH]; intros self Hc H.
    + injection H as <-. exact Hc.
    + apply bind_Ok_inv in H. destruct H as (self1 & H1 & H).
      apply (IH self1); [| exact H].
      eapply setattr_keeps; eassumption.
  - apply container_set_attributes_keeps.
Qed.

(** What [type(self)(...)] returns is an instance of that class. *)
Lemma init_returns_instance (c : Class) (attributes : dict) (fresh : pyval) :
  MapAttribute.init construct c attributes = Ok fresh ->
  exists kwargs values, fresh = VMap (class_name c) kwargs values.
Proof.
  unfold MapAttribute.init, AttributeContainer.__init__.
  set (kwargs := filter _ (map _ Attribute.attribute_args)).
  intros H. destruct (Dict.mem attributes "self"); [discriminate |].
  apply bind_Ok_inv in H. destruct H as (self2 & H2 & H).
  apply bind_Ok_inv in H. destruct H as (self3 & H3 & H).
  apply bind_Ok_inv in H2. destruct H2 as (self1 & H1 & H2).
  assert (Hc1 : container_of c kwargs self1).
  { eapply set_defaults_keeps; [| exact H1]. eexists; reflexivity. }
  assert (Hc2 : container_of c kwargs self2).
  { eapply set_attributes_keeps; eassumption. }
  assert (Hc3 : container_of c kwargs self3).
  { match type of H3 with
    | (if ?b then _ else _) = _ => destruct b
    end.
    - eapply set_attributes_keeps; eassumption.
    - injection H3 as <-. exact Hc2. }
  destruct Hc3 as [values ->]. cbn in H. injection H as <-.
  exists kwargs, values. reflexivity.
Qed.

(** A raw map takes any keywords but [self]. *)
Lemma raw_set_attributes_total (c : Class) (kwargs values attrs : dict) :
  MapAttribute.is_raw c = true ->
  exists values',
    MapAttribute._set_attributes construct c (Container c kwargs values) attrs
    = Ok (Container c kwargs values').
Proof.
  intros Hraw. unfold MapAttribute._set_attributes. rewrite Hraw.
  revert values; induction attrs as [| [name value] attrs IH]; intros values.
  - eexists; reflexivity.
  - assert (Hstep : MapAttribute.setattr construct c (Container c kwargs values) name value
                    = Ok (Container c kwargs (Dict.set values name value))).
    { unfold MapAttribute.setattr, AttributeContainer.setattr.
      unfold MapAttribute.is_raw in Hraw. rewrite Hraw. reflexivity. }
    cbn -[MapAttribute.setattr]. rewrite Hstep. cbn [bind]. apply IH.
Qed.

Lemma raw_init_total (attributes : dict) :
  Dict.mem attributes "self" = false ->
  exists fresh, MapAttribute.init construct MapAttribute_class attributes = Ok fresh.
Proof.
  intros Hself. unfold MapAttribute.init, AttributeContainer.__init__. rewrite Hself.
  set (kwargs := filter _ (map _ Attribute.attribute_args)).
  cbn [AttributeContainer._set_defaults AttributeContainer.get_attributes
         MapAttribute_class bind].
  match goal with
  | |- context [MapAttribute._set_attributes construct ?c (Container ?c ?k ?v) ?a] =>
      destruct (raw_set_attributes_total c k v a eq_refl) as [values1 ->]
  end.
  cbn [bind].
  match goal with
  | |- context [if ?b then _ else _] => destruct b
  end.
  - destruct (raw_set_attributes_total MapAttribute_class kwargs values1 kwargs eq_refl)
      as [values2 ->].
    cbn. eexists; reflexivity.
  - cbn. eexists; reflexivity.
Qed.

End ContainerInvariant.

Lemma dict_get_set_same {V : Type} (d : list (string * V)) (k : string) (v : V) :
  Dict.get (Dict.set d k v) k = Some v.
Proof.
  induction d as [| [k' v'] d IH]; cbn.
  - rewrite String.eqb_refl. reflexivity.
  - destruct (String.eqb k' k) eqn:Hk; cbn.
    + rewrite String.eqb_refl. reflexivity.
    + rewrite Hk. exact IH.
Qed.

(** The keyword [self] is refused by every class. *)
Lemma init_refuses_self (c : Class) (attributes : dict) :
  Dict.mem attributes "self" = true ->
  MapAttribute.__init__ c attributes = Raise TypeError.
Proof.
  intros H. rewrite MapAttribute_init_unfold. unfold MapAttribute.init. rewrite H.
  reflexivity.
Qed.

(** C9.  Assigning a plain mapping to a field that is a converted
    [MapAttribute] builds an instance of the field's class from the entries
    of the mapping, taken as keywords, and stores that instance, under the
    field's name, in the [attribute_values] of the container; when the
    construction raises, so does the assignment, and nothing is stored: the
    mapping itself is never stored.  A mapping with the key [self] is one
    the construction refuses ([TypeError]); for a raw field the
    construction succeeds on every other mapping. *)
Theorem mapping_assigned_is_stored_as_instance
    (field_class : Class) (st : AttrState) (locals : list (string * pyobj))
    (wire : string) (c : Class) (kwargs values : dict) (mapping : dict) :
  Attribute.last_segment st = Ok (Some wire) ->
  let self := Descriptor field_class st locals in
  let key := AttributeContainer._dynamo_to_python_attr c wire in
  MapAttribute.__set__ MapAttribute.__init__ self (Container c kwargs values) (VDict mapping)
  = (fresh <- MapAttribute.__init__ field_class mapping ;;
     Ok (Container c kwargs (Dict.set values key fresh)))
  /\ (forall fresh,
      MapAttribute.__init__ field_class mapping = Ok fresh ->
      (exists kw vals, fresh = VMap (class_name field_class) kw vals)
      /\ fresh <> VDict mapping
      /\ Dict.get (Dict.set values key fresh) key = Some fresh)
  /\ (forall updated,
      MapAttribute.__set__ MapAttribute.__init__ self (Container c kwargs values)
        (VDict mapping) = Ok updated ->
      exists fresh kw vals,
        updated = Container c kwargs (Dict.set values key fresh)
        /\ fresh = VMap (class_name field_class) kw vals)
  /\ (Dict.mem mapping "self" = true ->
      MapAttribute.__set__ MapAttribute.__init__ self (Container c kwargs values)
        (VDict mapping) = Raise TypeError)
  /\ (field_class = MapAttribute_class -> Dict.mem mapping "self" = false ->
      exists fresh, MapAttribute.__init__ field_class mapping = Ok fresh).
Proof.
  intros Hwire self key.
  assert (Hset : MapAttribute.__set__ MapAttribute.__init__ self
                   (Container c kwargs values) (VDict mapping)
                 = (fresh <- MapAttribute.__init__ field_class mapping ;;
                    Ok (Container c kwargs (Dict.set values key fresh)))).
  { unfold MapAttribute.__set__, self.
    destruct (MapAttribute.__init__ field_class mapping) as [fresh | e | ];
      cbn [bind]; try reflexivity.
    unfold Attribute.__set__. cbn [Attribute._is_map_attribute_class_object negb].
    cbn [Attribute.attr_name]. rewrite Hwire. reflexivity. }
  split; [exact Hset |]. split; [| split; [| split]].
  - intros fresh H. rewrite MapAttribute_init_unfold in H.
    apply init_returns_instance in H. destruct H as (kw & vals & ->).
    split; [exists kw, vals; reflexivity |].
    split; [discriminate | apply dict_get_set_same].
  - intros updated H. rewrite Hset in H.
    apply bind_Ok_inv in H. destruct H as (fresh & Hfresh & H). injection H as <-.
    rewrite MapAttribute_init_unfold in Hfresh.
    apply init_returns_instance in Hfresh. destruct Hfresh as (kw & vals & ->).
    exists (VMap (class_name field_class) kw vals), kw, vals. split; reflexivity.
  - intros Hself. rewrite Hset, (init_refuses_self field_class mapping Hself). reflexivity.
  - intros -> Hself. rewrite MapAttribute_init_unfold. apply raw_init_total, Hself.
Qed.

(** ** Defaults on rehydration *)

Lemma Profile_registered :
  AttributeContainerMeta._initialize_attributes SubMapAttribute "Profile" Profile_members
  = Ok Profile.
Proof. reflexivity. Qed.

(** C2 at the failing input.  The field [nickname] of [Profile] has the
    for-new default ["anonymous"] and no plain default.  A container built
    in the mode of rehydration ([_user_instantiated] false) leaves the
    field unset; [MapAttribute.deserialize] on a stored payload without
    the field builds the instance through [type(self)(...)], which takes
    the mode of a fresh instance, and the for-new default is applied. *)
Theorem deserialize_applies_default_for_new :
  AttributeContainer.__init__ (MapAttribute.descriptor__set__ MapAttribute.__init__)
    (MapAttribute._set_attributes MapAttribute.__init__) Profile [] (VBool false) []
  = Ok (Container Profile [] [])
  /\ MapAttribute.__init__ Profile [] = Ok (VMap "Profile" [] [("nickname", VStr "anonymous")])
  /\ MapAttribute.deserialize Profile (VDict [])
     = Ok (VMap "Profile" [] [("nickname", VStr "anonymous")])
  /\ MapAttribute.deserialize Profile (VDict [("legacy", VDict [("S", VStr "x")])])
     = Ok (VMap "Profile" [] [("nickname", VStr "anonymous")]).
Proof. repeat split. Qed.

Lemma unknown_name_dropped_unknown_tag_fatal_witness :
  MapAttribute.deserialize Profile
    (VDict [("legacy", VDict [("S", VStr "x")]); ("nickname", VDict [("S", VStr "kim")])])
  = Ok (VMap "Profile" [] [("nickname", VStr "kim")])
  /\ MapAttribute.deserialize MapAttribute_class
       (VDict [("n", VDict [("N", VStr "1")]); ("tags", VDict [("SS", VList [VStr "a"])])])
     = Raise ValueError.
Proof.
  destruct (unknown_name_dropped_unknown_tag_fatal Profile "legacy" "S" (VStr "x") []
              [] [("nickname", VDict [("S", VStr "kim")])]) as [Htyped _].
  destruct (unknown_name_dropped_unknown_tag_fatal MapAttribute_class "tags" "SS"
              (VList [VStr "a"]) [] [("n", VDict [("N", VStr "1")])] [])
    as [_ Hraw].
  split.
  - etransitivity; [exact (Htyped eq_refl eq_refl) | reflexivity].
  - destruct (Hraw eq_refl eq_refl) as [_ Hfatal].
    exact (Hfatal [("n", VInt 1)] eq_refl).
Defined.

Lemma mapping_assigned_is_stored_as_instance_witness :
  Attribute.last_segment (named "p") = Ok (Some "p")
  /\ MapAttribute.__set__ MapAttribute.__init__ (Descriptor Profile (named "p") [])
       (Container (mkClass PlainContainer "Account" [] [("p", "profile")]) [] [])
       (VDict [("nickname", VStr "kim")])
     = Ok (Container (mkClass PlainContainer "Account" [] [("p", "profile")]) []
             [("profile", VMap "Profile" [] [("nickname", VStr "kim")])]).
Proof.
  split; [reflexivity |].
  destruct (mapping_assigned_is_stored_as_instance Profile (named "p") [] "p"
              (mkClass PlainContainer "Account" [] [("p", "profile")]) [] []
              [("nickname", VStr "kim")] eq_refl) as [Hset _].
  rewrite Hset. reflexivity.
Defined.

(** ** Registration of fields that share a wire name *)

(** C3, as stated, fails: two fields declared with the wire name ["id"]
    are registered without an error. *)
Lemma shared_wire_name_is_accepted :
  AttributeContainerMeta._initialize_attributes PlainContainer "Order"
    [("number", Plain Number (named "id")); ("code", Plain Unicode (named "id"))]
  = Ok (mkClass PlainContainer "Order"
          [("code", Plain Unicode (named "id")); ("number", Plain Number (named "id"))]
          [("id", "number")])
  /\ ~ raises (AttributeContainerMeta._initialize_attributes PlainContainer "Order"
                 [("number", Plain Number (named "id")); ("code", Plain Unicode (named "id"))]).
Proof. split; [reflexivity | apply not_raises_Ok]. Qed.

(** ** Attribute paths of nested maps *)

Lemma dict_get_set_other {V : Type} (d : list (string * V)) (k k' : string) (v : V) :
  k <> k' -> Dict.get (Dict.set d k v) k' = Dict.get d k'.
Proof.
  intros Hk. induction d as [| [k0 v0] d IH]; cbn.
  - destruct (String.eqb_spec k k'); [contradiction | reflexivity].
  - destruct (String.eqb_spec k0 k) as [-> | Hk0]; cbn.
    + destruct (String.eqb_spec k k'); [contradiction | reflexivity].
    + destruct (String.eqb k0 k'); [reflexivity | exact IH].
Qed.

Lemma lookup_get {X : Type} (name : string) (k : pyobj -> result X) (missing : result X)
    (entries : list (string * pyobj)) :
  lookup name k missing entries
  = match Dict.get entries name with
    | Some a => k a
    | None => missing
    end.
Proof.
  induction entries as [| [n a] entries IH]; cbn; [reflexivity |].
  destruct (String.eqb n name); [reflexivity | exact IH].
Qed.

Lemma dict_get_In {V : Type} (d : list (string * V)) (k : string) (v : V) :
  Dict.get d k = Some v -> In (k, v) d.
Proof.
  induction d as [| [k0 v0] d IH]; cbn; [discriminate |].
  destruct (String.eqb_spec k0 k) as [-> | Hk].
  - intros H; injection H as ->. left; reflexivity.
  - intros H; right; apply IH, H.
Qed.

Lemma dict_get_keys {V : Type} (d : list (string * V)) (k : string) :
  In k (Dict.keys d) -> exists v, Dict.get d k = Some v.
Proof.
  induction d as [| [k0 v0] d IH]; cbn; [contradiction |].
  intros [-> | Hin].
  - rewrite String.eqb_refl. eexists; reflexivity.
  - destruct (String.eqb k0 k); [eexists; reflexivity | apply IH, Hin].
Qed.

Lemma update_attribute_paths_unfold (c : Class) (st : AttrState)
    (locals : list (string * pyobj)) (path_segment : option string) :
  MapAttribute.update_attribute_paths (Descriptor c st locals) path_segment
  = (locals' <- MapAttribute.update_copies (MapAttribute.update_copy path_segment) locals
                  (Dict.keys (AttributeContainer.get_attributes c)) locals ;;
     Ok (Descriptor c st locals')).
Proof. reflexivity. Qed.

(** After the loop, the entry of each name it visited is the updated copy. *)
Lemma update_copies_spec (update : pyobj -> result pyobj) (locals : list (string * pyobj))
    (names : list string) (acc acc' : list (string * pyobj)) :
  MapAttribute.update_copies update locals names acc = Ok acc' ->
  (forall n, In n names ->
     exists a a', Dict.get locals n = Some a /\ update a = Ok a'
                  /\ Dict.get acc' n = Some a')
  /\ (forall n, ~ In n names -> Dict.get acc' n = Dict.get acc n).
Proof.
  revert acc; induction names as [| name names IH]; intros acc H.
  - injection H as <-. split; [intros n [] | reflexivity].
  - cbn [MapAttribute.update_copies] in H. rewrite lookup_get in H.
    destruct (Dict.get locals name) as [a |] eqn:Hget; [| discriminate].
    destruct (update a) as [a' | e | ] eqn:Hupd; try discriminate. cbn [bind] in H.
    destruct (IH _ H) as [Hin Hout]. split.
    + intros n [<- | Hn].
      * destruct (in_dec string_dec name names) as [Hdup | Hfresh].
        -- destruct (Hin name Hdup) as (a0 & a0' & Ha0 & Hu0 & Hg0).
           exists a0, a0'. repeat split; assumption.
        -- exists a, a'. repeat split; try assumption.
           rewrite (Hout name Hfresh). apply dict_get_set_same.
      * apply Hin, Hn.
    + intros n Hn. rewrite Hout by (intros Hc; apply Hn; right; exact Hc).
      apply dict_get_set_other. intros ->. apply Hn. left; reflexivity.
Qed.

Lemma update_attribute_paths_spec (c : Class) (st : AttrState)
    (locals : list (string * pyobj)) (path_segment : option string) (o : pyobj) :
  MapAttribute.update_attribute_paths (Descriptor c st locals) path_segment = Ok o ->
  exists locals',
    o = Descriptor c st locals'
    /\ forall n, In n (Dict.keys (AttributeContainer.get_attributes c)) ->
         exists a a', Dict.get locals n = Some a
                      /\ MapAttribute.update_copy path_segment a = Ok a'
                      /\ Dict.get locals' n = Some a'.
Proof.
  rewrite update_attribute_paths_unfold. intros H.
  apply bind_Ok_inv in H. destruct H as (locals' & Hloop & H). injection H as <-.
  exists locals'. split; [reflexivity |].
  apply (update_copies_spec _ _ _ _ _ Hloop).
Qed.

Lemma update_copy_spec (path_segment : option string) (a a' : pyobj) :
  MapAttribute.update_copy path_segment a = Ok a' ->
  path_of a' = path_segment :: path_of a
  /\ class_of a' = class_of a
  /\ (forall c st locals, a = Descriptor c st locals ->
        exists locals',
          a' = Descriptor c (Attribute.insert_path path_segment st) locals'
          /\ forall n, In n (Dict.keys (AttributeContainer.get_attributes c)) ->
               exists x x', Dict.get locals n = Some x
                            /\ MapAttribute.update_copy path_segment x = Ok x'
                            /\ Dict.get locals' n = Some x')
  /\ (forall k st, a = Plain k st -> a' = Plain k (Attribute.insert_path path_segment st)).
Proof.
  destruct a as [k st | c kw v | c st locals]; cbn [MapAttribute.update_copy].
  - intros H; injection H as <-. repeat split; try discriminate.
    intros k0 st0 H; injection H as <- <-. reflexivity.
  - unfold unconverted. destruct (_ && _); discriminate.
  - intros H. apply bind_Ok_inv in H. destruct H as (updated & Hu & H).
    apply update_attribute_paths_spec in Hu. destruct Hu as (locals' & -> & Hl).
    injection H as <-. repeat split; try discriminate.
    intros c0 st0 locals0 H; injection H as <- <- <-.
    exists locals'. split; [reflexivity | exact Hl].
Qed.

Lemma last_segment_singleton (st : AttrState) (w : option string) :
  attr_path st = [w] -> Attribute.last_segment st = Ok w.
Proof. intros H. unfold Attribute.last_segment. rewrite H. reflexivity. Qed.

Lemma with_own_attr_path (st : AttrState) : Attribute.with_attr_path st (attr_path st) = st.
Proof. destruct st; reflexivity. Qed.

Lemma init_attr_path (class_null : bool) (kwargs : dict) (st : AttrState) :
  Attribute.__init__ class_null kwargs = Ok st ->
  exists w, Attribute.as_name (Dict.get_default kwargs "attr_name" VNone) = Ok w
            /\ attr_path st = [w].
Proof.
  unfold Attribute.__init__.
  destruct (negb (forallb _ _)); [discriminate |].
  destruct (_ && _); [discriminate |].
  intros H. apply bind_Ok_inv in H. destruct H as (w & Hw & H).
  injection H as <-. exists w. split; [exact Hw | reflexivity].
Qed.

Lemma prepare_plain (name : string) (k : AttrClass) (st : AttrState) (w : option string) :
  attr_path st = [w] ->
  AttributeContainerMeta.prepare name (Plain k st)
  = Ok (Plain k (Attribute.with_attr_path st [Some (wire_name name w)]), w).
Proof.
  intros Hp. unfold AttributeContainerMeta.prepare.
  cbn [isinstance_MapAttribute bind Attribute.attr_name].
  rewrite (last_segment_singleton st w Hp). cbn [bind].
  destruct w as [w |]; cbn [bind andb wire_name].
  - rewrite <- Hp, with_own_attr_path. reflexivity.
  - unfold Attribute.set_attr_name, Attribute.set_last_segment. rewrite Hp. reflexivity.
Qed.

Lemma map_pair_id {A B : Type} (l : list (A * B)) :
  map (fun na => (fst na, snd na)) l = l.
Proof.
  induction l as [| [a b] l IH]; cbn; [reflexivity | rewrite IH; reflexivity].
Qed.

(** A fresh nested map, once registered as the field [name]: it carries its
    wire name as path, and its [__dict__] holds for each attribute of its
    class the copy with that wire name in front of the path. *)
Lemma prepare_container (name : string) (c : Class) (kwargs values : dict)
    (o : pyobj) (w : option string) :
  class_kind c <> PlainContainer ->
  AttributeContainerMeta.prepare name (Container c kwargs values) = Ok (o, w) ->
  exists st locals,
    Attribute.as_name (Dict.get_default kwargs "attr_name" VNone) = Ok w
    /\ o = Descriptor c (Attribute.with_attr_path st [Some (wire_name name w)]) locals
    /\ forall n, In n (Dict.keys (AttributeContainer.get_attributes c)) ->
         exists a a', Dict.get (AttributeContainer.get_attributes c) n = Some a
                      /\ MapAttribute.update_copy (Some (wire_name name w)) a = Ok a'
                      /\ Dict.get locals n = Some a'.
Proof.
  intros Hkind H. unfold AttributeContainerMeta.prepare in H.
  assert (Hmap : isinstance_MapAttribute (Container c kwargs values) = true).
  { cbn. destruct (class_kind c); try reflexivity. congruence. }
  rewrite Hmap in H.
  unfold MapAttribute.make_attribute in H.
  cbn [MapAttribute.is_attribute_container negb] in H.
  destruct (Attribute.__init__ false kwargs) as [st | e | ] eqn:Hinit;
    cbn [bind] in H; try discriminate.
  destruct (existsb _ _); [discriminate |]. cbn [bind] in H.
  unfold deepcopy in H. rewrite map_pair_id in H.
  destruct (init_attr_path _ _ _ Hinit) as (w0 & Hname & Hpath).
  cbn [Attribute.attr_name] in H.
  rewrite (last_segment_singleton st w0 Hpath) in H. cbn [bind] in H.
  assert (Hnamed : (match w0 with
                    | Some _ => Ok (Descriptor c st (AttributeContainer.get_attributes c))
                    | None => Attribute.set_attr_name
                                (Descriptor c st (AttributeContainer.get_attributes c)) name
                    end)
                   = Ok (Descriptor c (Attribute.with_attr_path st [Some (wire_name name w0)])
                           (AttributeContainer.get_attributes c))).
  { destruct w0 as [w0 |]; cbn [wire_name].
    - rewrite <- Hpath, with_own_attr_path. reflexivity.
    - unfold Attribute.set_attr_name, Attribute.set_last_segment. rewrite Hpath.
      reflexivity. }
  rewrite Hnamed in H. cbn [bind andb isinstance_MapAttribute] in H.
  apply bind_Ok_inv in H. destruct H as (updated & Hupd & H).
  injection H as <- <-.
  apply update_attribute_paths_spec in Hupd. destruct Hupd as (locals' & -> & Hl).
  exists st, locals'. repeat split; assumption.
Qed.

(** *** What registration leaves in the schema map *)

Lemma register_all_preserves (l : list (string * pyobj))
    (acc acc' : list (string * pyobj) * list (string * string)) (n : string) :
  ~ In n (map fst l) ->
  AttributeContainerMeta.register_all l acc = Ok acc' ->
  Dict.get (fst acc') n = Dict.get (fst acc) n.
Proof.
  revert acc; induction l as [| [m y] l IH]; intros acc Hn H.
  - injection H as <-. reflexivity.
  - cbn [AttributeContainerMeta.register_all] in H.
    apply bind_Ok_inv in H. destruct H as (acc1 & H1 & H).
    rewrite (IH acc1) by (try exact H; intros Hc; apply Hn; right; exact Hc).
    destruct acc as [attrs rev_map].
    unfold AttributeContainerMeta.register in H1.
    apply bind_Ok_inv in H1. destruct H1 as ([o w] & _ & H1). injection H1 as <-.
    cbn [fst]. apply dict_get_set_other. intros ->. apply Hn. left; reflexivity.
Qed.

Lemma register_all_get (l : list (string * pyobj))
    (acc acc' : list (string * pyobj) * list (string * string))
    (n : string) (x : pyobj) :
  NoDup (map fst l) -> In (n, x) l ->
  AttributeContainerMeta.register_all l acc = Ok acc' ->
  exists o w, AttributeContainerMeta.prepare n x = Ok (o, w)
              /\ Dict.get (fst acc') n = Some o.
Proof.
  revert acc; induction l as [| [m y] l IH]; intros acc Hnd Hin H; [contradiction |].
  cbn [AttributeContainerMeta.register_all] in H.
  apply bind_Ok_inv in H. destruct H as (acc1 & H1 & H).
  cbn [map fst] in Hnd. inversion Hnd as [| ? ? Hfresh Hnd']; subst.
  destruct Hin as [Heq | Hin].
  - injection Heq as -> ->.
    destruct acc as [attrs rev_map].
    unfold AttributeContainerMeta.register in H1.
    apply bind_Ok_inv in H1. destruct H1 as ([o w] & Hprep & H1). injection H1 as <-.
    exists o, w. split; [exact Hprep |].
    rewrite (register_all_preserves l _ acc' n Hfresh H). cbn [fst].
    apply dict_get_set_same.
  - apply (IH acc1); assumption.
Qed.

(** Dropping members keeps their names distinct. *)
Lemma filter_keeps_names_distinct (keep : string * pyobj -> bool)
    (members : list (string * pyobj)) :
  NoDup (map fst members) -> NoDup (map fst (filter keep members)).
Proof.
  induction members as [| [n x] members IH]; cbn [filter map fst].
  - intros _. constructor.
  - intros Hnd. inversion Hnd as [| ? ? Hfresh Hrest]; subst.
    destruct (keep (n, x)); [| apply IH, Hrest].
    cbn [map fst]. constructor; [| apply IH, Hrest].
    intros Hin. apply Hfresh.
    apply in_map_iff in Hin. destruct Hin as ([m y] & Hm & Hin).
    apply filter_In in Hin. destruct Hin as [Hin _].
    apply in_map_iff. exists (m, y). split; assumption.
Qed.

(** The attribute a class holds for a declared member is the prepared
    member. *)
(** A class that is registered declares no field under a reserved name,
    and its two dictionaries are those the loop leaves. *)
Lemma initialize_Ok_inv (kind : ClassKind) (cname : string)
    (members : list (string * pyobj)) (cls : Class) :
  AttributeContainerMeta._initialize_attributes kind cname members = Ok cls ->
  existsb reserved (Dict.keys (AttributeContainerMeta.getmembers members)) = false
  /\ exists acc,
       AttributeContainerMeta.register_all (AttributeContainerMeta.getmembers members) ([], [])
       = Ok acc
       /\ cls = mkClass kind cname (fst acc) (snd acc).
Proof.
  unfold AttributeContainerMeta._initialize_attributes. cbv zeta.
  destruct (existsb reserved _); [discriminate |].
  intros H. apply bind_Ok_inv in H. destruct H as (acc & Hreg & H). injection H as <-.
  split; [reflexivity |]. exists acc. split; [exact Hreg | reflexivity].
Qed.

Lemma initialize_kind (kind : ClassKind) (cname : string)
    (members : list (string * pyobj)) (cls : Class) :
  AttributeContainerMeta._initialize_attributes kind cname members = Ok cls ->
  class_kind cls = kind.
Proof.
  intros H. apply initialize_Ok_inv in H. destruct H as (_ & acc & _ & ->). reflexivity.
Qed.

Lemma registered_member (kind : ClassKind) (cname : string)
    (members : list (string * pyobj)) (cls : Class) (n : string) (x : pyobj) :
  NoDup (map fst members) -> In (n, x) members -> isinstance_Attribute x = true ->
  AttributeContainerMeta._initialize_attributes kind cname members = Ok cls ->
  exists o w, AttributeContainerMeta.prepare n x = Ok (o, w)
              /\ Dict.get (AttributeContainer.get_attributes cls) n = Some o.
Proof.
  intros Hnd Hin Hattr H. apply initialize_Ok_inv in H.
  destruct H as (_ & acc & Hreg & ->).
  cbn [AttributeContainer.get_attributes].
  apply (register_all_get _ _ _ n x) in Hreg; [exact Hreg | |].
  - unfold AttributeContainerMeta.getmembers.
    eapply Permutation_NoDup; [apply Permutation_map, sort_perm |].
    apply filter_keeps_names_distinct, Hnd.
  - unfold AttributeContainerMeta.getmembers.
    eapply Permutation_in; [apply sort_perm |].
    apply filter_In. split; [exact Hin | exact Hattr].
Qed.

(** *** Access to nested fields *)

Lemma class_getattr_field (c : Class) (n : string) (o : pyobj) :
  Dict.get (AttributeContainer.get_attributes c) n = Some o ->
  class_getattr c n = Ok (GotAttribute o).
Proof. intros H. unfold class_getattr. rewrite lookup_get, H. reflexivity. Qed.

(** Reading the field [n] on a converted map returns the copy the map
    holds, provided the wire name of the field resolves to [n]. *)
Lemma getattr_copy (c : Class) (st : AttrState) (locals : list (string * pyobj))
    (n w : string) (attr local : pyobj) :
  Dict.get (AttributeContainer.get_attributes c) n = Some attr ->
  Attribute.attr_name attr = Ok (Some w) ->
  AttributeContainer._dynamo_to_python_attr c w = n ->
  Dict.get locals n = Some local ->
  getattr (Descriptor c st locals) n = Ok (GotAttribute local).
Proof.
  intros Hattr Hw Hres Hlocal. unfold getattr. rewrite lookup_get, Hattr.
  unfold Attribute.__get__. rewrite Hw. cbn [bind].
  unfold AttributeContainer._dynamo_to_python_attr in Hres. rewrite Hres, Hlocal.
  reflexivity.
Qed.

(** [Inner] declares the field [leaf], [Middle] the field [b] holding an
    [Inner], [Outer] the field [a] holding a [Middle], each class among any
    other members; the three classes are registered, and the wire names of
    [leaf] and [b] resolve to these fields in the reverse maps of their
    classes.  Then the path of [Outer.a.b.leaf] is the wire name of [a],
    then that of [b], then that of [leaf]. *)
Lemma nested_path_among_other_members
    (inner_name middle_name outer_name : string) (outer_kind : ClassKind)
    (inner_members middle_members outer_members : list (string * pyobj))
    (Inner Middle Outer : Class)
    (a b leaf : string) (wa wb wl : option string)
    (k : AttrClass) (st : AttrState) (kwargs_a values_a kwargs_b values_b : dict) :
  NoDup (map fst inner_members) ->
  NoDup (map fst middle_members) ->
  NoDup (map fst outer_members) ->
  In (leaf, Plain k st) inner_members ->
  attr_path st = [wl] ->
  In (b, Container Inner kwargs_b values_b) middle_members ->
  Attribute.as_name (Dict.get_default kwargs_b "attr_name" VNone) = Ok wb ->
  In (a, Container Middle kwargs_a values_a) outer_members ->
  Attribute.as_name (Dict.get_default kwargs_a "attr_name" VNone) = Ok wa ->
  AttributeContainerMeta._initialize_attributes SubMapAttribute inner_name inner_members
    = Ok Inner ->
  AttributeContainerMeta._initialize_attributes SubMapAttribute middle_name middle_members
    = Ok Middle ->
  AttributeContainerMeta._initialize_attributes outer_kind outer_name outer_members
    = Ok Outer ->
  AttributeContainer._dynamo_to_python_attr Inner (wire_name leaf wl) = leaf ->
  AttributeContainer._dynamo_to_python_attr Middle (wire_name b wb) = b ->
  attr_path_of (then_getattr (then_getattr (class_getattr Outer a) b) leaf)
  = Ok [Some (wire_name a wa); Some (wire_name b wb); Some (wire_name leaf wl)].
Proof.
  intros Hnd_i Hnd_m Hnd_o Hleaf Hpath Hb Hwb Ha Hwa Hreg_i Hreg_m Hreg_o Hres_l Hres_b.
  pose proof (initialize_kind _ _ _ _ Hreg_i) as Hk_i.
  pose proof (initialize_kind _ _ _ _ Hreg_m) as Hk_m.
  (* the field leaf of Inner *)
  destruct (registered_member _ _ _ _ leaf (Plain k st) Hnd_i Hleaf eq_refl Hreg_i)
    as (leaf_attr & wl' & Hprep_l & Hget_l).
  rewrite (prepare_plain leaf k st wl Hpath) in Hprep_l. injection Hprep_l as <- <-.
  (* the field b of Middle *)
  assert (Hattr_b : isinstance_Attribute (Container Inner kwargs_b values_b) = true).
  { cbn. rewrite Hk_i. reflexivity. }
  destruct (registered_member _ _ _ _ b _ Hnd_m Hb Hattr_b Hreg_m)
    as (b_attr & wb' & Hprep_b & Hget_b).
  apply prepare_container in Hprep_b; [| rewrite Hk_i; discriminate].
  destruct Hprep_b as (st_b & locals_b & Hwb' & -> & Hlocals_b).
  rewrite Hwb in Hwb'. injection Hwb' as <-.
  (* the field a of Outer *)
  assert (Hattr_a : isinstance_Attribute (Container Middle kwargs_a values_a) = true).
  { cbn. rewrite Hk_m. reflexivity. }
  destruct (registered_member _ _ _ _ a _ Hnd_o Ha Hattr_a Hreg_o)
    as (a_attr & wa' & Hprep_a & Hget_a).
  apply prepare_container in Hprep_a; [| rewrite Hk_m; discriminate].
  destruct Hprep_a as (st_a & locals_a & Hwa' & -> & Hlocals_a).
  rewrite Hwa in Hwa'. injection Hwa' as <-.
  (* the copy of leaf held by Middle.b *)
  assert (Hin_leaf : In leaf (Dict.keys (AttributeContainer.get_attributes Inner))).
  { apply dict_get_In in Hget_l. apply (in_map fst) in Hget_l. exact Hget_l. }
  destruct (Hlocals_b leaf Hin_leaf) as (x & leaf_b & Hx & Hupd_leaf_b & Hget_leaf_b).
  rewrite Hget_l in Hx. injection Hx as <-.
  apply update_copy_spec in Hupd_leaf_b.
  destruct Hupd_leaf_b as (_ & _ & _ & Hleaf_b). specialize (Hleaf_b _ _ eq_refl).
  (* the copy of b held by Outer.a, and the copy of leaf it holds *)
  assert (Hin_b : In b (Dict.keys (AttributeContainer.get_attributes Middle))).
  { apply dict_get_In in Hget_b. apply (in_map fst) in Hget_b. exact Hget_b. }
  destruct (Hlocals_a b Hin_b) as (x & b_a & Hx & Hupd_b_a & Hget_b_a).
  rewrite Hget_b in Hx. injection Hx as <-.
  apply update_copy_spec in Hupd_b_a.
  destruct Hupd_b_a as (_ & _ & Hb_a & _).
  destruct (Hb_a _ _ _ eq_refl) as (locals_b_a & -> & Hlocals_b_a).
  destruct (Hlocals_b_a leaf Hin_leaf) as (x & leaf_a & Hx & Hupd_leaf_a & Hget_leaf_a).
  rewrite Hget_leaf_b in Hx. injection Hx as <-.
  apply update_copy_spec in Hupd_leaf_a.
  destruct Hupd_leaf_a as (_ & _ & _ & Hleaf_a). rewrite Hleaf_b in Hleaf_a.
  specialize (Hleaf_a _ _ eq_refl).
  (* the three accesses *)
  rewrite (class_getattr_field Outer a _ Hget_a). cbn [then_getattr bind].
  rewrite (getattr_copy Middle _ locals_a b (wire_name b wb) _ _ Hget_b eq_refl
             Hres_b Hget_b_a).
  cbn [then_getattr bind].
  rewrite (getattr_copy Inner _ locals_b_a leaf (wire_name leaf wl) _ _ Hget_l eq_refl
             Hres_l Hget_leaf_a).
  rewrite Hleaf_a. reflexivity.
Qed.

(** *** Registration of nested maps succeeds *)

Lemma dict_mem_get {V : Type} (d : list (string * V)) (k : string) :
  Dict.mem d k = true -> exists v, Dict.get d k = Some v.
Proof.
  unfold Dict.mem. destruct (Dict.get d k) as [v |]; [eexists; reflexivity | discriminate].
Qed.

Lemma dict_get_mem {V : Type} (d : list (string * V)) (k : string) (v : V) :
  Dict.get d k = Some v -> Dict.mem d k = true.
Proof. unfold Dict.mem. intros ->. reflexivity. Qed.

Lemma Forall_dict_set {V : Type} (P : V -> Prop) (d : list (string * V)) (k : string) (v : V) :
  Forall (fun kv => P (snd kv)) d -> P v -> Forall (fun kv => P (snd kv)) (Dict.set d k v).
Proof.
  intros Hd Hv. induction Hd as [| [k0 v0] d H0 Hd IH]; cbn.
  - constructor; [exact Hv | constructor].
  - destruct (String.eqb k0 k); constructor; assumption.
Qed.

(** The loop succeeds when every name has a copy and every copy can be
    updated, and what holds of the copies before and of the updated copies
    holds of the copies after. *)
Lemma update_copies_total (update : pyobj -> result pyobj) (Q : pyobj -> Prop)
    (locals : list (string * pyobj)) (names : list string)
    (acc : list (string * pyobj)) :
  (forall n, In n names -> Dict.mem locals n = true) ->
  (forall n a, Dict.get locals n = Some a -> exists a', update a = Ok a' /\ Q a') ->
  Forall (fun na => Q (snd na)) acc ->
  exists acc',
    MapAttribute.update_copies update locals names acc = Ok acc'
    /\ Forall (fun na => Q (snd na)) acc'.
Proof.
  intros Hnames Hupd. revert acc; induction names as [| name names IH]; intros acc Hacc.
  - exists acc. split; [reflexivity | exact Hacc].
  - cbn [MapAttribute.update_copies]. rewrite lookup_get.
    destruct (dict_mem_get locals name (Hnames name (or_introl eq_refl))) as [a Ha].
    rewrite Ha. destruct (Hupd name a Ha) as (a' & -> & Hq). cbn [bind].
    apply IH.
    + intros n Hn. apply Hnames. right; exact Hn.
    + apply Forall_dict_set; assumption.
Qed.

Lemma forallb_snd_Forall (f : pyobj -> bool) (l : list (string * pyobj)) :
  forallb (fun na => f (snd na)) l = true <-> Forall (fun na => f (snd na) = true) l.
Proof. rewrite forallb_forall, Forall_forall. reflexivity. Qed.

(** A converted attribute can be copied under a further segment, and the
    copy is converted. *)
Lemma update_copy_total (path_segment : option string) (o : pyobj) :
  converted o = true ->
  exists o', MapAttribute.update_copy path_segment o = Ok o' /\ converted o' = true.
Proof.
  induction o as [k st | c kwargs values | c st locals IH] using pyobj_nested_ind;
    intros Hc.
  - eexists; split; reflexivity.
  - discriminate Hc.
  - cbn [converted] in Hc. apply andb_true_iff in Hc. destruct Hc as [Hkeys Hall].
    rewrite forallb_forall in Hkeys. apply forallb_snd_Forall in Hall.
    cbn [MapAttribute.update_copy]. rewrite update_attribute_paths_unfold.
    destruct (update_copies_total (MapAttribute.update_copy path_segment)
                (fun a => converted a = true) locals
                (Dict.keys (AttributeContainer.get_attributes c)) locals)
      as (locals' & Hloop & Hconv).
    + exact Hkeys.
    + intros n a Ha. apply dict_get_In in Ha.
      rewrite Forall_forall in IH, Hall.
      apply (IH (n, a) Ha). apply (Hall (n, a) Ha).
    + exact Hall.
    + rewrite Hloop. cbn [bind]. eexists; split; [reflexivity |].
      cbn [converted]. apply andb_true_iff. split.
      * apply forallb_forall. intros n Hn.
        destruct (update_copies_spec _ _ _ _ _ Hloop) as [Hin _].
        destruct (Hin n Hn) as (a & a' & _ & _ & Hget).
        apply (dict_get_mem _ _ _ Hget).
      * apply forallb_snd_Forall. exact Hconv.
Qed.

(** A fresh nested map of a class whose attributes are converted, none of
    them under a reserved name, is prepared, whatever the name of the
    field. *)
Lemma prepare_container_total (name : string) (c : Class) (kwargs values : dict)
    (st : AttrState) :
  class_kind c <> PlainContainer ->
  Attribute.__init__ false kwargs = Ok st ->
  existsb reserved (Dict.keys (AttributeContainer.get_attributes c)) = false ->
  class_converted c = true ->
  exists o w,
    AttributeContainerMeta.prepare name (Container c kwargs values) = Ok (o, w)
    /\ converted o = true.
Proof.
  intros Hkind Hinit Hnames Hconv. unfold AttributeContainerMeta.prepare.
  assert (Hmap : isinstance_MapAttribute (Container c kwargs values) = true).
  { cbn. destruct (class_kind c); try reflexivity. congruence. }
  rewrite Hmap. unfold MapAttribute.make_attribute.
  cbn [MapAttribute.is_attribute_container negb]. rewrite Hinit. cbn [bind].
  rewrite Hnames. cbn [bind]. unfold deepcopy. rewrite map_pair_id.
  destruct (init_attr_path _ _ _ Hinit) as (w & _ & Hpath).
  cbn [Attribute.attr_name]. rewrite (last_segment_singleton st w Hpath). cbn [bind].
  assert (Hnamed : (match w with
                    | Some _ => Ok (Descriptor c st (AttributeContainer.get_attributes c))
                    | None => Attribute.set_attr_name
                                (Descriptor c st (AttributeContainer.get_attributes c)) name
                    end)
                   = Ok (Descriptor c (Attribute.with_attr_path st [Some (wire_name name w)])
                           (AttributeContainer.get_attributes c))).
  { destruct w as [w |]; cbn [wire_name].
    - rewrite <- Hpath, with_own_attr_path. reflexivity.
    - unfold Attribute.set_attr_name, Attribute.set_last_segment. rewrite Hpath.
      reflexivity. }
  rewrite Hnamed. cbn [bind andb isinstance_MapAttribute].
  assert (Hdesc : converted (Descriptor c (Attribute.with_attr_path st
                                              [Some (wire_name name w)])
                               (AttributeContainer.get_attributes c)) = true).
  { cbn [converted]. apply andb_true_iff. split; [| exact Hconv].
    apply forallb_forall. intros n Hn.
    destruct (dict_get_keys _ _ Hn) as [v Hv]. apply (dict_get_mem _ _ _ Hv). }
  destruct (update_copy_total (Some (wire_name name w)) _ Hdesc) as (o' & Hupd & Ho').
  cbn [MapAttribute.update_copy] in Hupd.
  apply bind_Ok_inv in Hupd. destruct Hupd as (updated & Hu & Hupd).
  rewrite Hu. cbn [bind].
  exists updated, w. split; [reflexivity |].
  pose proof (update_attribute_paths_spec _ _ _ _ _ Hu) as (locals' & -> & _).
  injection Hupd as <-. exact Ho'.
Qed.

Lemma not_reserved_single (field : string) :
  reserved field = false -> existsb reserved [field] = false.
Proof. intros H. cbn [existsb]. rewrite H. reflexivity. Qed.

(** A class that declares one attribute. *)
Lemma register_single (kind : ClassKind) (cname n : string) (x o : pyobj)
    (w : option string) :
  reserved n = false ->
  isinstance_Attribute x = true ->
  AttributeContainerMeta.prepare n x = Ok (o, w) ->
  AttributeContainerMeta._initialize_attributes kind cname [(n, x)]
  = Ok (mkClass kind cname [(n, o)] (reverse_of n w)).
Proof.
  intros Hname Hattr Hprep. unfold AttributeContainerMeta._initialize_attributes,
    AttributeContainerMeta.getmembers.
  cbn [filter snd]. rewrite Hattr.
  cbn [Py.sort Py.insert Dict.keys map fst existsb]. rewrite Hname. cbn [orb].
  cbn [AttributeContainerMeta.register_all AttributeContainerMeta.register].
  rewrite Hprep. cbn [bind]. destruct w; reflexivity.
Qed.

Lemma reverse_of_resolves (kind : ClassKind) (cname field : string) (o : pyobj)
    (attr_name : option string) :
  AttributeContainer._dynamo_to_python_attr
    (mkClass kind cname [(field, o)] (reverse_of field attr_name))
    (wire_name field attr_name) = field.
Proof.
  unfold AttributeContainer._dynamo_to_python_attr, Dict.get_default.
  destruct attr_name as [w |]; cbn; [| reflexivity].
  rewrite String.eqb_refl. reflexivity.
Qed.

(** C6.  For [Inner] declaring the field [leaf], [Middle] declaring the
    field [b] that holds an [Inner], and [Outer] declaring the field [a]
    that holds a [Middle], the three fields under names that the attribute
    classes do not use themselves ([reserved]): the three classes are
    registered, and the path of [Outer.a.b.leaf] is the wire name of [a],
    then that of [b], then that of [leaf], the wire name of a field being
    the [attr_name] it was given or else its own name. *)
Theorem nested_path_is_root_to_leaf
    (a b leaf : string) (wa wb wl : option string) (k : AttrClass) (st : AttrState)
    (kwargs_a values_a kwargs_b values_b : dict) (st_a st_b : AttrState)
    (outer_kind : ClassKind) :
  attr_path st = [wl] ->
  Attribute.__init__ false kwargs_b = Ok st_b -> attr_path st_b = [wb] ->
  Attribute.__init__ false kwargs_a = Ok st_a -> attr_path st_a = [wa] ->
  reserved leaf = false -> reserved b = false -> reserved a = false ->
  exists Inner Middle Outer,
    AttributeContainerMeta._initialize_attributes SubMapAttribute "Inner"
      [(leaf, Plain k st)] = Ok Inner
    /\ AttributeContainerMeta._initialize_attributes SubMapAttribute "Middle"
         [(b, Container Inner kwargs_b values_b)] = Ok Middle
    /\ AttributeContainerMeta._initialize_attributes outer_kind "Outer"
         [(a, Container Middle kwargs_a values_a)] = Ok Outer
    /\ attr_path_of (then_getattr (then_getattr (class_getattr Outer a) b) leaf)
       = Ok [Some (wire_name a wa); Some (wire_name b wb); Some (wire_name leaf wl)].
Proof.
  intros Hpath Hinit_b Hpath_b Hinit_a Hpath_a Hleaf_name Hb_name Ha_name.
  assert (Hwb : Attribute.as_name (Dict.get_default kwargs_b "attr_name" VNone) = Ok wb).
  { destruct (init_attr_path _ _ _ Hinit_b) as (w0 & Hn0 & Hp0). congruence. }
  assert (Hwa : Attribute.as_name (Dict.get_default kwargs_a "attr_name" VNone) = Ok wa).
  { destruct (init_attr_path _ _ _ Hinit_a) as (w0 & Hn0 & Hp0). congruence. }
  pose proof (register_single SubMapAttribute "Inner" leaf (Plain k st) _ _ Hleaf_name
                eq_refl (prepare_plain leaf k st wl Hpath)) as Hreg_i.
  set (Inner := mkClass SubMapAttribute "Inner"
                  [(leaf, Plain k (Attribute.with_attr_path st [Some (wire_name leaf wl)]))]
                  (reverse_of leaf wl)) in *.
  assert (Hkind_i : class_kind Inner <> PlainContainer) by discriminate.
  destruct (prepare_container_total b Inner kwargs_b values_b st_b Hkind_i Hinit_b
              (not_reserved_single leaf Hleaf_name) eq_refl)
    as (ob & wb' & Hprep_b & Hconv_b).
  assert (wb' = wb).
  { pose proof Hprep_b as H. apply prepare_container in H; [| exact Hkind_i].
    destruct H as (? & ? & Hn & _). congruence. }
  subst wb'.
  pose proof (register_single SubMapAttribute "Middle" b
                (Container Inner kwargs_b values_b) _ _ Hb_name eq_refl Hprep_b) as Hreg_m.
  set (Middle := mkClass SubMapAttribute "Middle" [(b, ob)] (reverse_of b wb)) in *.
  assert (Hkind_m : class_kind Middle <> PlainContainer) by discriminate.
  assert (Hconv_m : class_converted Middle = true).
  { unfold class_converted. cbn [Middle AttributeContainer.get_attributes forallb snd].
    rewrite Hconv_b. reflexivity. }
  destruct (prepare_container_total a Middle kwargs_a values_a st_a Hkind_m Hinit_a
              (not_reserved_single b Hb_name) Hconv_m)
    as (oa & wa' & Hprep_a & Hconv_a).
  assert (wa' = wa).
  { pose proof Hprep_a as H. apply prepare_container in H; [| exact Hkind_m].
    destruct H as (? & ? & Hn & _). congruence. }
  subst wa'.
  pose proof (register_single outer_kind "Outer" a
                (Container Middle kwargs_a values_a) _ _ Ha_name eq_refl Hprep_a) as Hreg_o.
  exists Inner, Middle, (mkClass outer_kind "Outer" [(a, oa)] (reverse_of a wa)).
  split; [exact Hreg_i |]. split; [exact Hreg_m |]. split; [exact Hreg_o |].
  apply (nested_path_among_other_members "Inner" "Middle" "Outer" outer_kind
           [(leaf, Plain k st)] [(b, Container Inner kwargs_b values_b)]
           [(a, Container Middle kwargs_a values_a)]
           Inner Middle (mkClass outer_kind "Outer" [(a, oa)] (reverse_of a wa))
           a b leaf wa wb wl k st kwargs_a values_a kwargs_b values_b);
    try assumption;
    try (repeat constructor; intros []);
    try (left; reflexivity);
    apply reverse_of_resolves.
Qed.

Lemma nested_path_is_root_to_leaf_witness :
  attr_path (named "L") = [Some "L"]
  /\ Attribute.__init__ false (naming None) = Ok bare
  /\ Attribute.__init__ false (naming (Some "A")) = Ok (named "A")
  /\ exists Inner Middle Outer,
       AttributeContainerMeta._initialize_attributes SubMapAttribute "Inner"
         [("leaf", Plain Unicode (named "L"))] = Ok Inner
       /\ AttributeContainerMeta._initialize_attributes SubMapAttribute "Middle"
            [("b", Container Inner (naming None) [])] = Ok Middle
       /\ AttributeContainerMeta._initialize_attributes PlainContainer "Outer"
            [("a", Container Middle (naming (Some "A")) [])] = Ok Outer
       /\ attr_path_of (then_getattr (then_getattr (class_getattr Outer "a") "b") "leaf")
          = Ok [Some "A"; Some "b"; Some "L"].
Proof.
  split; [reflexivity |]. split; [reflexivity |]. split; [reflexivity |].
  apply (nested_path_is_root_to_leaf "a" "b" "leaf" (Some "A") None (Some "L") Unicode
           (named "L") (naming (Some "A")) [] (naming None) [] (named "A") bare
           PlainContainer); reflexivity.
Defined.

(** ** Registration: wire names and the reverse map *)

Lemma set_last_segment_last (st st' : AttrState) (name : string) :
  Attribute.set_last_segment st name = Ok st' ->
  Attribute.last_segment st' = Ok (Some name).
Proof.
  unfold Attribute.set_last_segment, Attribute.last_segment.
  destruct (rev (attr_path st)) as [| x before]; [discriminate |].
  intros H. injection H as <-. cbn [attr_path Attribute.with_attr_path].
  rewrite rev_app_distr. reflexivity.
Qed.

(** An attribute that was prepared as the field [name] carries its wire
    name. *)
Lemma prepare_attr_name (name : string) (x o : pyobj) (w : option string) :
  AttributeContainerMeta.prepare name x = Ok (o, w) ->
  Attribute.attr_name o = Ok (Some (wire_name name w)).
Proof.
  intros H. destruct x as [k st | c kwargs values | c st locals].
  - unfold AttributeContainerMeta.prepare in H.
    cbn [isinstance_MapAttribute bind Attribute.attr_name] in H.
    destruct (Attribute.last_segment st) as [[w0 |] | e | ] eqn:Hlast;
      cbn [bind andb] in H; try discriminate.
    + injection H as <- <-. exact Hlast.
    + unfold Attribute.set_attr_name in H.
      destruct (Attribute.set_last_segment st name) as [st' | e | ] eqn:Hset;
        cbn [bind] in H; try discriminate.
      injection H as <- <-. cbn [Attribute.attr_name wire_name].
      eapply set_last_segment_last, Hset.
  - destruct (class_kind c) eqn:Hkind.
    + destruct (prepare_container name c kwargs values o w) as (st & locals & _ & -> & _);
        [congruence | exact H |].
      reflexivity.
    + destruct (prepare_container name c kwargs values o w) as (st & locals & _ & -> & _);
        [congruence | exact H |].
      reflexivity.
    + unfold AttributeContainerMeta.prepare in H.
      cbn [isinstance_MapAttribute] in H. rewrite Hkind in H.
      cbn [bind Attribute.attr_name] in H. unfold unconverted in H.
      destruct (_ && _); discriminate.
  - unfold AttributeContainerMeta.prepare in H.
    cbn [isinstance_MapAttribute MapAttribute.make_attribute
           MapAttribute.is_attribute_container negb bind Attribute.attr_name] in H.
    destruct (Attribute.last_segment st) as [[w0 |] | e | ] eqn:Hlast;
      cbn [bind andb] in H; try discriminate.
    + injection H as <- <-. exact Hlast.
    + unfold Attribute.set_attr_name in H.
      destruct (Attribute.set_last_segment st name) as [st' | e | ] eqn:Hset;
        cbn [bind] in H; try discriminate.
      injection H as <- <-. cbn [Attribute.attr_name wire_name].
      eapply set_last_segment_last, Hset.
Qed.

Lemma register_inv (name : string) (x : pyobj)
    (acc acc' : list (string * pyobj) * list (string * string)) :
  AttributeContainerMeta.register name x acc = Ok acc' ->
  exists o w,
    AttributeContainerMeta.prepare name x = Ok (o, w)
    /\ acc' = (Dict.set (fst acc) name o,
               match w with
               | Some wire => Dict.set (snd acc) wire name
               | None => snd acc
               end).
Proof.
  destruct acc as [attrs rev_map]. unfold AttributeContainerMeta.register.
  intros H. apply bind_Ok_inv in H. destruct H as ([o w] & Hp & H).
  injection H as <-. exists o, w. split; [exact Hp | reflexivity].
Qed.

(** A wire name that no member was given explicitly is not touched in the
    reverse map. *)
Lemma register_all_reverse_other (l : list (string * pyobj))
    (acc acc' : list (string * pyobj) * list (string * string)) (k : string) :
  (forall n x o, In (n, x) l -> AttributeContainerMeta.prepare n x <> Ok (o, Some k)) ->
  AttributeContainerMeta.register_all l acc = Ok acc' ->
  Dict.get (snd acc') k = Dict.get (snd acc) k.
Proof.
  revert acc; induction l as [| [m y] l IH]; intros acc Hno H.
  - injection H as <-. reflexivity.
  - cbn [AttributeContainerMeta.register_all] in H.
    apply bind_Ok_inv in H. destruct H as (acc1 & H1 & H).
    rewrite (IH acc1) by (try exact H; intros n x o Hin; apply Hno; right; exact Hin).
    apply register_inv in H1. destruct H1 as (o & w & Hp & ->). cbn [snd].
    destruct w as [wire |]; [| reflexivity].
    apply dict_get_set_other. intros ->.
    apply (Hno m y o); [left; reflexivity | exact Hp].
Qed.

(** The wire name one member was given explicitly, and no other member
    carries, resolves to that member. *)
Lemma register_all_reverse_member (l : list (string * pyobj))
    (acc acc' : list (string * pyobj) * list (string * string))
    (n k : string) (x o : pyobj) :
  NoDup (map fst l) ->
  In (n, x) l ->
  AttributeContainerMeta.prepare n x = Ok (o, Some k) ->
  (forall m, In m l -> declared_wire m = Some k -> m = (n, x)) ->
  AttributeContainerMeta.register_all l acc = Ok acc' ->
  Dict.get (snd acc') k = Some n.
Proof.
  revert acc; induction l as [| [m y] l IH]; intros acc Hnd Hin Hp Huniq H;
    [contradiction |].
  cbn [map fst] in Hnd. inversion Hnd as [| ? ? Hfresh Hnd']; subst.
  cbn [AttributeContainerMeta.register_all] in H.
  apply bind_Ok_inv in H. destruct H as (acc1 & H1 & H).
  destruct Hin as [Heq | Hin].
  - injection Heq as -> ->.
    rewrite (register_all_reverse_other l acc1 acc' k); [| | exact H].
    + apply register_inv in H1. destruct H1 as (o1 & w1 & Hp1 & ->).
      rewrite Hp in Hp1. injection Hp1 as <- <-. cbn [snd]. apply dict_get_set_same.
    + intros n' x' o' Hin' Hp'.
      assert (Heq : (n', x') = (n, x)).
      { apply Huniq; [right; exact Hin' |].
        unfold declared_wire. cbn [fst snd]. rewrite Hp'. reflexivity. }
      injection Heq as -> ->. apply Hfresh.
      apply in_map_iff. exists (n, x). split; [reflexivity | exact Hin'].
  - apply (IH acc1); try assumption.
    intros m0 Hm0. apply Huniq. right; exact Hm0.
Qed.

Lemma distinct_images {A B : Type} (f : A -> B) (l : list A) (a b : A) :
  NoDup (map f l) -> In a l -> In b l -> f a = f b -> a = b.
Proof.
  induction l as [| x l IH]; cbn [map]; [contradiction |].
  intros Hnd Ha Hb Hab. inversion Hnd as [| ? ? Hfresh Hnd']; subst.
  destruct Ha as [-> | Ha]; destruct Hb as [-> | Hb].
  - reflexivity.
  - exfalso. apply Hfresh. rewrite Hab. apply in_map, Hb.
  - exfalso. apply Hfresh. rewrite <- Hab. apply in_map, Ha.
  - apply IH; assumption.
Qed.

(** Fresh names are registered one after the other. *)
Lemma dict_set_fresh {V : Type} (d : list (string * V)) (k : string) (v : V) :
  ~ In k (Dict.keys d) -> Dict.set d k v = (d ++ [(k, v)])%list.
Proof.
  induction d as [| [k0 v0] d IH]; cbn; [reflexivity |].
  intros Hn. destruct (String.eqb_spec k0 k) as [-> | Hne].
  - exfalso. apply Hn. left; reflexivity.
  - rewrite IH by (intros Hin; apply Hn; right; exact Hin). reflexivity.
Qed.

Lemma register_all_keys (l : list (string * pyobj))
    (acc acc' : list (string * pyobj) * list (string * string)) :
  NoDup (Dict.keys (fst acc) ++ map fst l)%list ->
  AttributeContainerMeta.register_all l acc = Ok acc' ->
  Dict.keys (fst acc') = (Dict.keys (fst acc) ++ map fst l)%list.
Proof.
  revert acc; induction l as [| [m y] l IH]; intros acc Hnd H.
  - injection H as <-. cbn. rewrite app_nil_r. reflexivity.
  - cbn [AttributeContainerMeta.register_all] in H.
    apply bind_Ok_inv in H. destruct H as (acc1 & H1 & H).
    apply register_inv in H1. destruct H1 as (o & w & _ & ->).
    cbn [map fst] in *.
    assert (Hfresh : ~ In m (Dict.keys (fst acc))).
    { intros Hin. apply NoDup_remove_2 in Hnd. apply Hnd.
      apply in_or_app. left; exact Hin. }
    assert (Hkeys : Dict.keys (Dict.set (fst acc) m o) = (Dict.keys (fst acc) ++ [m])%list).
    { rewrite dict_set_fresh by exact Hfresh. unfold Dict.keys.
      rewrite map_app. reflexivity. }
    rewrite (IH _) with (2 := H); cbn [fst]; rewrite Hkeys, <- app_assoc;
      [reflexivity | exact Hnd].
Qed.

(** The fields of a registered class whose wire names are distinct. *)
Lemma registered_members_resolve (kind : ClassKind) (cname : string)
    (members : list (string * pyobj)) (cls : Class) :
  NoDup (map fst members) ->
  NoDup (map declared_wire (filter (fun m => isinstance_Attribute (snd m)) members)) ->
  AttributeContainerMeta._initialize_attributes kind cname members = Ok cls ->
  Dict.keys (AttributeContainer.get_attributes cls)
  = map fst (AttributeContainerMeta.getmembers members)
  /\ forall n x,
       In (n, x) members -> isinstance_Attribute x = true ->
       bound_to_own_name cls n
       /\ exists o w,
            AttributeContainerMeta.prepare n x = Ok (o, w)
            /\ Dict.get (AttributeContainer.get_attributes cls) n = Some o
            /\ Attribute.attr_name o = Ok (Some (wire_name n w))
            /\ AttributeContainer._dynamo_to_python_attr cls (wire_name n w) = n.
Proof.
  intros Hnd Hwires H.
  apply initialize_Ok_inv in H. destruct H as (_ & acc & Hreg & ->).
  cbn [AttributeContainer.get_attributes].
  set (attrs := filter (fun m => isinstance_Attribute (snd m)) members) in *.
  assert (Hperm : Permutation attrs (AttributeContainerMeta.getmembers members)).
  { apply sort_perm. }
  assert (HndL : NoDup (map fst (AttributeContainerMeta.getmembers members))).
  { eapply Permutation_NoDup; [apply Permutation_map, Hperm |].
    apply filter_keeps_names_distinct, Hnd. }
  split.
  - exact (register_all_keys _ ([], []) acc HndL Hreg).
  - intros n x Hin Hattr.
    assert (HinA : In (n, x) attrs).
    { apply filter_In. split; [exact Hin | exact Hattr]. }
    assert (HinL : In (n, x) (AttributeContainerMeta.getmembers members)).
    { eapply Permutation_in; [exact Hperm | exact HinA]. }
    destruct (register_all_get _ _ _ n x HndL HinL Hreg) as (o & w & Hp & Hget).
    pose proof (prepare_attr_name n x o w Hp) as Hname.
    assert (Huniq : forall m, In m (AttributeContainerMeta.getmembers members) ->
                      declared_wire m = Some (wire_name n w) -> m = (n, x)).
    { intros m Hm Hw.
      apply (distinct_images declared_wire attrs); try assumption.
      - eapply Permutation_in; [apply Permutation_sym, Hperm | exact Hm].
      - rewrite Hw. unfold declared_wire. cbn [fst snd]. rewrite Hp. reflexivity. }
    assert (Hres : AttributeContainer._dynamo_to_python_attr
                     (mkClass kind cname (fst acc) (snd acc)) (wire_name n w) = n).
    { unfold AttributeContainer._dynamo_to_python_attr, Dict.get_default.
      cbn [_dynamo_to_python_attrs].
      destruct w as [k |]; cbn [wire_name] in *.
      - rewrite (register_all_reverse_member _ _ _ n k x o HndL HinL Hp Huniq Hreg).
        reflexivity.
      - rewrite (register_all_reverse_other (AttributeContainerMeta.getmembers members)
                   ([], []) acc n); [reflexivity | | exact Hreg].
        intros n' x' o' Hin' Hp'.
        assert (Heq : (n', x') = (n, x)).
        { apply Huniq; [exact Hin' |].
          unfold declared_wire. cbn [fst snd]. rewrite Hp'. reflexivity. }
        injection Heq as -> ->. rewrite Hp in Hp'. discriminate. }
    split.
    + exists o, (wire_name n w). repeat split; assumption.
    + exists o, w. repeat split; assumption.
Qed.

Lemma register_all_app (l1 l2 : list (string * pyobj))
    (acc : list (string * pyobj) * list (string * string)) :
  AttributeContainerMeta.register_all (l1 ++ l2) acc
  = (acc1 <- AttributeContainerMeta.register_all l1 acc ;;
     AttributeContainerMeta.register_all l2 acc1).
Proof.
  revert acc; induction l1 as [| [n x] l1 IH]; intros acc; [reflexivity |].
  cbn [app AttributeContainerMeta.register_all].
  destruct (AttributeContainerMeta.register n x acc) as [acc1 | e |]; cbn [bind];
    [apply IH | reflexivity | reflexivity].
Qed.

Lemma sorted_after {A : Type} (R : A -> A -> Prop) (l1 l2 : list A) (a : A) :
  StronglySorted R (l1 ++ a :: l2) -> Forall (R a) l2.
Proof.
  induction l1 as [| b l1 IH]; cbn [app]; intros H; inversion H; subst;
    [assumption | apply IH; assumption].
Qed.

Lemma name_le_total (x y : string * pyobj) :
  AttributeContainerMeta.name_le x y = true \/ AttributeContainerMeta.name_le y x = true.
Proof. apply String.leb_total. Qed.

Lemma name_le_trans (x y z : string * pyobj) :
  AttributeContainerMeta.name_le x y = true -> AttributeContainerMeta.name_le y z = true ->
  AttributeContainerMeta.name_le x z = true.
Proof. apply string_leb_trans. Qed.

(** A wire name resolves to the last, in the order of the loop, of the
    members that were given it as [attr_name]. *)
Lemma register_all_reverse_last (l : list (string * pyobj))
    (acc acc' : list (string * pyobj) * list (string * string))
    (n wire : string) (x o : pyobj) :
  NoDup (map fst l) ->
  StronglySorted (fun a b => AttributeContainerMeta.name_le a b = true) l ->
  In (n, x) l ->
  AttributeContainerMeta.prepare n x = Ok (o, Some wire) ->
  (forall n' x' o', In (n', x') l ->
     AttributeContainerMeta.prepare n' x' = Ok (o', Some wire) -> String.leb n' n = true) ->
  AttributeContainerMeta.register_all l acc = Ok acc' ->
  Dict.get (snd acc') wire = Some n.
Proof.
  intros Hnd Hsorted Hin Hp Hlast H.
  destruct (in_split _ _ Hin) as (l1 & l2 & ->).
  rewrite register_all_app in H.
  apply bind_Ok_inv in H. destruct H as (acc1 & _ & H).
  cbn [AttributeContainerMeta.register_all] in H.
  apply bind_Ok_inv in H. destruct H as (acc2 & H2 & H).
  rewrite (register_all_reverse_other l2 acc2 acc' wire); [| | exact H].
  - apply register_inv in H2. destruct H2 as (o2 & w2 & Hp2 & ->).
    rewrite Hp in Hp2. injection Hp2 as <- <-. cbn [snd]. apply dict_get_set_same.
  - intros n' x' o' Hin' Hp'.
    assert (Hle : String.leb n' n = true).
    { apply (Hlast n' x' o'); [| exact Hp']. apply in_or_app. right; right; exact Hin'. }
    pose proof (sorted_after _ _ _ _ Hsorted) as Hafter.
    rewrite Forall_forall in Hafter. specialize (Hafter _ Hin').
    unfold AttributeContainerMeta.name_le in Hafter. cbn [fst] in Hafter.
    assert (Heq : n = n') by (apply String.leb_antisym; assumption).
    subst n'. rewrite map_app in Hnd. cbn [map fst] in Hnd.
    apply NoDup_remove_2 in Hnd. apply Hnd. apply in_or_app. right.
    apply in_map_iff. exists (n, x'). split; [reflexivity | exact Hin'].
Qed.

(** The loop succeeds when each member can be prepared. *)
Lemma register_all_total (l : list (string * pyobj))
    (acc : list (string * pyobj) * list (string * string)) :
  (forall n x, In (n, x) l -> exists o w, AttributeContainerMeta.prepare n x = Ok (o, w)) ->
  exists acc', AttributeContainerMeta.register_all l acc = Ok acc'.
Proof.
  revert acc; induction l as [| [n x] l IH]; intros acc Hall.
  - eexists; reflexivity.
  - cbn [AttributeContainerMeta.register_all].
    destruct (Hall n x (or_introl eq_refl)) as (o & w & Hp).
    destruct acc as [attrs rev_map]. unfold AttributeContainerMeta.register at 1.
    rewrite Hp. cbn [bind]. apply IH.
    intros n' x' Hin. apply Hall. right; exact Hin.
Qed.

Lemma getmembers_In (members : list (string * pyobj)) (n : string) (x : pyobj) :
  In (n, x) (AttributeContainerMeta.getmembers members)
  <-> In (n, x) members /\ isinstance_Attribute x = true.
Proof.
  unfold AttributeContainerMeta.getmembers. split.
  - intros H. apply (Permutation_in _ (Permutation_sym (sort_perm _ _))) in H.
    apply filter_In in H. exact H.
  - intros H. apply (Permutation_in _ (sort_perm _ _)). apply filter_In. exact H.
Qed.

Lemma getmembers_names_distinct (members : list (string * pyobj)) :
  NoDup (map fst members) -> NoDup (map fst (AttributeContainerMeta.getmembers members)).
Proof.
  intros Hnd. unfold AttributeContainerMeta.getmembers.
  eapply Permutation_NoDup; [apply Permutation_map, sort_perm |].
  apply filter_keeps_names_distinct, Hnd.
Qed.

Lemma existsb_false_In {A : Type} (f : A -> bool) (l : list A) :
  existsb f l = false <-> forall a, In a l -> f a = false.
Proof.
  split.
  - intros H a Hin. destruct (f a) eqn:Hf; [| reflexivity].
    assert (Hex : existsb f l = true) by (apply existsb_exists; exists a; split; assumption).
    congruence.
  - intros H. destruct (existsb f l) eqn:Hex; [| reflexivity].
    apply existsb_exists in Hex. destruct Hex as (a & Hin & Hf).
    rewrite (H a Hin) in Hf. discriminate.
Qed.

(** A class is registered when none of its attributes has a reserved name
    and each can be prepared. *)
Lemma registration_total (kind : ClassKind) (cname : string)
    (members : list (string * pyobj)) :
  (forall n x, In (n, x) members -> isinstance_Attribute x = true ->
     reserved n = false
     /\ exists o w, AttributeContainerMeta.prepare n x = Ok (o, w)) ->
  exists cls, AttributeContainerMeta._initialize_attributes kind cname members = Ok cls.
Proof.
  intros Hall. unfold AttributeContainerMeta._initialize_attributes. cbv zeta.
  assert (Hnames : existsb reserved (Dict.keys (AttributeContainerMeta.getmembers members))
                   = false).
  { apply existsb_false_In. intros n Hn. apply in_map_iff in Hn.
    destruct Hn as ([n' x] & Hfst & Hin). cbn [fst] in Hfst. subst n'.
    apply getmembers_In in Hin. destruct Hin as [Hin Hattr].
    apply (Hall n x Hin Hattr). }
  rewrite Hnames.
  destruct (register_all_total (AttributeContainerMeta.getmembers members) ([], []))
    as [acc ->].
  - intros n x Hin. apply getmembers_In in Hin. destruct Hin as [Hin Hattr].
    apply (Hall n x Hin Hattr).
  - eexists; reflexivity.
Qed.

(** *** Members given by identity *)

Lemma objects_at_held (s : store) (bindings : list (string * ident))
    (objects : list (string * pyobj)) :
  AttributeContainerMeta.objects_at s bindings = Ok objects
  <-> Forall2 (held s) bindings objects.
Proof.
  unfold AttributeContainerMeta.objects_at. revert objects.
  induction bindings as [| [n i] bindings IH]; intros objects; cbn [mapM snd fst].
  - split; [intros H; injection H as <-; constructor | intros H; inversion H; reflexivity].
  - split.
    + destruct (s i) as [o |] eqn:Hs; cbn [bind]; [| discriminate].
      intros H. apply bind_Ok_inv in H. destruct H as (rest & Hrest & H).
      injection H as <-. constructor; [split; [reflexivity | exact Hs] | apply IH, Hrest].
    + intros H. inversion H as [| m v l l' [Hn Hs] Hl]; subst.
      cbn [fst snd] in *. rewrite Hs. cbn [bind].
      apply IH in Hl. rewrite Hl. cbn [bind]. destruct v as [n' o]. cbn in *. subst n'.
      reflexivity.
Qed.

Lemma held_names (s : store) (bindings : list (string * ident))
    (objects : list (string * pyobj)) :
  Forall2 (held s) bindings objects -> map fst objects = map fst bindings.
Proof.
  induction 1 as [| m v l l' [Hn _] _ IH]; cbn [map]; [reflexivity |].
  rewrite Hn, IH. reflexivity.
Qed.

Lemma held_filter (s : store) (bindings : list (string * ident))
    (objects : list (string * pyobj)) :
  Forall2 (held s) bindings objects ->
  Forall2 (held s)
    (filter (fun m => AttributeContainerMeta.is_attribute_at s (snd m)) bindings)
    (filter (fun m => isinstance_Attribute (snd m)) objects).
Proof.
  induction 1 as [| m v l l' Hmv _ IH]; cbn [filter]; [constructor |].
  assert (Hsame : AttributeContainerMeta.is_attribute_at s (snd m)
                  = isinstance_Attribute (snd v)).
  { destruct Hmv as [_ Hs]. unfold AttributeContainerMeta.is_attribute_at.
    rewrite Hs. reflexivity. }
  rewrite Hsame. destruct (isinstance_Attribute (snd v)); [constructor; assumption | exact IH].
Qed.

Lemma held_insert (s : store) (m : string * ident) (v : string * pyobj)
    (bindings : list (string * ident)) (objects : list (string * pyobj)) :
  held s m v -> Forall2 (held s) bindings objects ->
  Forall2 (held s) (Py.insert AttributeContainerMeta.binding_le m bindings)
    (Py.insert AttributeContainerMeta.name_le v objects).
Proof.
  intros Hmv H. induction H as [| m' v' l l' Hmv' Hl IH]; cbn [Py.insert].
  - constructor; [exact Hmv | constructor].
  - assert (Hsame : AttributeContainerMeta.binding_le m m'
                    = AttributeContainerMeta.name_le v v').
    { unfold AttributeContainerMeta.binding_le, AttributeContainerMeta.name_le.
      destruct Hmv as [-> _]. destruct Hmv' as [-> _]. reflexivity. }
    rewrite Hsame. destruct (AttributeContainerMeta.name_le v v').
    + constructor; [exact Hmv | constructor; assumption].
    + constructor; [exact Hmv' | exact IH].
Qed.

Lemma held_sort (s : store) (bindings : list (string * ident))
    (objects : list (string * pyobj)) :
  Forall2 (held s) bindings objects ->
  Forall2 (held s) (Py.sort AttributeContainerMeta.binding_le bindings)
    (Py.sort AttributeContainerMeta.name_le objects).
Proof.
  induction 1 as [| m v l l' Hmv _ IH]; cbn [Py.sort]; [constructor |].
  apply held_insert; assumption.
Qed.

Lemma held_getmembers (s : store) (members : list (string * ident))
    (objects : list (string * pyobj)) :
  Forall2 (held s) members objects ->
  Forall2 (held s) (AttributeContainerMeta.getmembers_in s members)
    (AttributeContainerMeta.getmembers objects).
Proof. intros H. apply held_sort, held_filter, H. Qed.

Lemma held_dict_set (s : store) (A : list (string * ident)) (Av : list (string * pyobj))
    (n : string) (i : ident) (o : pyobj) :
  Forall2 (held s) A Av -> s i = Some o ->
  Forall2 (held s) (Dict.set A n i) (Dict.set Av n o).
Proof.
  intros H Hs. induction H as [| m v l l' Hmv Hl IH]; cbn [Dict.set].
  - constructor; [split; [reflexivity | exact Hs] | constructor].
  - destruct m as [n1 i1]; destruct v as [n2 o2]. pose proof Hmv as [Hn _].
    cbn [fst] in Hn. subst n2.
    destruct (String.eqb n1 n).
    + constructor; [split; [reflexivity | exact Hs] | exact Hl].
    + constructor; [exact Hmv | exact IH].
Qed.

Lemma dict_set_values {V : Type} (d : list (string * V)) (k : string) (v v' : V) :
  In v' (map snd (Dict.set d k v)) -> v' = v \/ In v' (map snd d).
Proof.
  induction d as [| [k0 v0] d IH]; cbn.
  - intros [<- | []]. left; reflexivity.
  - destruct (String.eqb k0 k); cbn.
    + intros [<- | Hin]; [left; reflexivity | right; right; exact Hin].
    + intros [<- | Hin]; [right; left; reflexivity |].
      destruct (IH Hin) as [-> | Hd]; [left; reflexivity | right; right; exact Hd].
Qed.

Lemma held_store_set (s : store) (i : ident) (o : pyobj)
    (bindings : list (string * ident)) (objects : list (string * pyobj)) :
  ~ In i (map snd bindings) ->
  Forall2 (held s) bindings objects ->
  Forall2 (held (AttributeContainerMeta.store_set s i o)) bindings objects.
Proof.
  intros Hfresh H. induction H as [| m v l l' [Hn Hs] _ IH]; [constructor |].
  cbn [map] in Hfresh. constructor.
  - split; [exact Hn |]. unfold AttributeContainerMeta.store_set.
    destruct (Nat.eqb_spec (snd m) i) as [Heq | _]; [| exact Hs].
    exfalso. apply Hfresh. left; exact Heq.
  - apply IH. intros Hin. apply Hfresh. right; exact Hin.
Qed.

(** When the names are bound to distinct objects, the loop in the store
    does what the loop on the objects does. *)
Lemma register_all_in_distinct (l : list (string * ident)) :
  forall (lv : list (string * pyobj)) (s : store) (A : list (string * ident))
         (Av : list (string * pyobj)) (R : list (string * string)),
    Forall2 (held s) l lv ->
    NoDup (map snd l) ->
    (forall i, In i (map snd l) -> ~ In i (map snd A)) ->
    Forall2 (held s) A Av ->
    match AttributeContainerMeta.register_all lv (Av, R) with
    | Ok (Av', R') =>
        exists s' A',
          AttributeContainerMeta.register_all_in l (s, A, R) = Ok (s', A', R')
          /\ Forall2 (held s') A' Av'
    | Raise e => AttributeContainerMeta.register_all_in l (s, A, R) = Raise e
    | Unsupported => AttributeContainerMeta.register_all_in l (s, A, R) = Unsupported
    end.
Proof.
  induction l as [| [n i] l IH]; intros lv s A Av R Hl Hnd Hfresh HA.
  - inversion Hl; subst. cbn. exists s, A. split; [reflexivity | exact HA].
  - inversion Hl as [| m v l0 lv' [Hn Hs] Hl']; subst. destruct v as [n' x].
    cbn [fst snd] in Hn, Hs. subst n'.
    cbn [map snd] in Hnd. inversion Hnd as [| ? ? Hi Hnd']; subst.
    cbn [AttributeContainerMeta.register_all AttributeContainerMeta.register_all_in].
    unfold AttributeContainerMeta.register, AttributeContainerMeta.register_in.
    rewrite Hs.
    destruct (AttributeContainerMeta.prepare n x) as [[o w] | e |]; cbn [bind];
      [| reflexivity | reflexivity].
    apply IH.
    + apply held_store_set; assumption.
    + exact Hnd'.
    + intros j Hj Hin. destruct (dict_set_values _ _ _ _ Hin) as [-> | Hin'].
      * apply Hi, Hj.
      * apply (Hfresh j); [right; exact Hj | exact Hin'].
    + apply held_dict_set.
      * apply held_store_set; [| exact HA].
        apply Hfresh. left; reflexivity.
      * unfold AttributeContainerMeta.store_set. rewrite Nat.eqb_refl. reflexivity.
Qed.

Lemma filter_keeps_images_distinct {A B : Type} (f : A -> B) (keep : A -> bool)
    (l : list A) :
  NoDup (map f l) -> NoDup (map f (filter keep l)).
Proof.
  induction l as [| a l IH]; cbn [map filter]; [intros _; constructor |].
  intros Hnd. inversion Hnd as [| ? ? Hfresh Hnd']; subst.
  destruct (keep a); [| apply IH, Hnd'].
  cbn [map]. constructor; [| apply IH, Hnd'].
  intros Hin. apply Hfresh. apply in_map_iff in Hin. destruct Hin as (b & Hb & Hin).
  apply filter_In in Hin. destruct Hin as [Hin _].
  apply in_map_iff. exists b. split; assumption.
Qed.

(** The registration of a class whose names are bound to distinct objects
    is the registration of these objects. *)
Lemma initialize_in_distinct (kind : ClassKind) (cname : string) (s : store)
    (members : list (string * ident)) (objects : list (string * pyobj)) :
  AttributeContainerMeta.objects_at s members = Ok objects ->
  NoDup (map snd members) ->
  match AttributeContainerMeta._initialize_attributes kind cname objects with
  | Ok cls =>
      exists s', AttributeContainerMeta._initialize_attributes_in kind cname s members
                 = Ok (cls, s')
  | Raise e => AttributeContainerMeta._initialize_attributes_in kind cname s members = Raise e
  | Unsupported =>
      AttributeContainerMeta._initialize_attributes_in kind cname s members = Unsupported
  end.
Proof.
  intros Hobj Hnd. apply objects_at_held in Hobj.
  pose proof (held_getmembers s members objects Hobj) as Hheld.
  unfold AttributeContainerMeta._initialize_attributes,
    AttributeContainerMeta._initialize_attributes_in. cbv zeta.
  unfold Dict.keys. rewrite (held_names _ _ _ Hheld).
  destruct (existsb reserved _); [reflexivity |].
  assert (Hids : NoDup (map snd (AttributeContainerMeta.getmembers_in s members))).
  { unfold AttributeContainerMeta.getmembers_in.
    eapply Permutation_NoDup; [apply Permutation_map, sort_perm |].
    apply filter_keeps_images_distinct, Hnd. }
  pose proof (register_all_in_distinct _ _ s [] [] [] Hheld Hids
                (fun _ _ H => H) (Forall2_nil _)) as Hloop.
  destruct (AttributeContainerMeta.register_all _ _) as [[Av' R'] | e |].
  - destruct Hloop as (s' & A' & -> & HA'). cbn [bind].
    apply objects_at_held in HA'. rewrite HA'. cbn [bind fst snd].
    exists s'. reflexivity.
  - rewrite Hloop. reflexivity.
  - rewrite Hloop. reflexivity.
Qed.

Lemma initialize_in_Ok (kind : ClassKind) (cname : string) (s s' : store)
    (members : list (string * ident)) (objects : list (string * pyobj)) (cls : Class) :
  AttributeContainerMeta.objects_at s members = Ok objects ->
  NoDup (map snd members) ->
  AttributeContainerMeta._initialize_attributes_in kind cname s members = Ok (cls, s') ->
  AttributeContainerMeta._initialize_attributes kind cname objects = Ok cls.
Proof.
  intros Hobj Hnd H.
  pose proof (initialize_in_distinct kind cname s members objects Hobj Hnd) as Hd.
  destruct (AttributeContainerMeta._initialize_attributes kind cname objects)
    as [cls0 | e |].
  - destruct Hd as [s0 Hd]. rewrite Hd in H. injection H as <- _. reflexivity.
  - rewrite Hd in H. discriminate.
  - rewrite Hd in H. discriminate.
Qed.

(** The class of a body that binds distinct names to distinct objects is
    the one registered from these objects. *)
Lemma registers_inv (kind : ClassKind) (cname : string)
    (members : list (string * pyobj)) (cls : Class) :
  registers kind cname members cls ->
  NoDup (map fst members)
  /\ AttributeContainerMeta._initialize_attributes kind cname members = Ok cls.
Proof.
  intros (s & bindings & s' & Hnames & Hids & Hobj & Hreg). split.
  - pose proof Hobj as Hheld. apply objects_at_held in Hheld.
    rewrite (held_names _ _ _ Hheld). exact Hnames.
  - exact (initialize_in_Ok kind cname s s' bindings members cls Hobj Hids Hreg).
Qed.

Lemma map_snd_combine {A B : Type} (l : list A) (l' : list B) :
  List.length l = List.length l' -> map snd (combine l l') = l'.
Proof.
  revert l'; induction l as [| a l IH]; intros [| b l'] H; try discriminate H;
    [reflexivity |].
  cbn. rewrite IH by (injection H as H; exact H). reflexivity.
Qed.

Lemma own_objects_held (before members : list (string * pyobj)) :
  Forall2 (held (own_objects (before ++ members)))
    (combine (map fst members) (seq (List.length before) (List.length members)))
    members.
Proof.
  revert before; induction members as [| m members IH]; intros before; cbn; [constructor |].
  constructor.
  - split; [reflexivity |]. cbn [snd]. unfold own_objects.
    rewrite nth_error_app2 by apply Nat.le_refl. rewrite Nat.sub_diag. reflexivity.
  - specialize (IH (before ++ [m])%list).
    rewrite <- app_assoc, length_app in IH. cbn [app List.length] in IH.
    rewrite Nat.add_1_r in IH. exact IH.
Qed.

(** Conversely, the registration of a list of members with distinct names
    is that of a class body which gives each member an object of its
    own. *)
Lemma registers_own_objects (kind : ClassKind) (cname : string)
    (members : list (string * pyobj)) (cls : Class) :
  NoDup (map fst members) ->
  AttributeContainerMeta._initialize_attributes kind cname members = Ok cls ->
  registers kind cname members cls.
Proof.
  intros Hnd Hreg.
  assert (Hheld : Forall2 (held (own_objects members)) (own_bindings members) members).
  { exact (own_objects_held [] members). }
  assert (Hobj : AttributeContainerMeta.objects_at (own_objects members)
                   (own_bindings members) = Ok members)
    by (apply objects_at_held, Hheld).
  assert (Hids : NoDup (map snd (own_bindings members))).
  { unfold own_bindings. rewrite map_snd_combine by (rewrite length_map, length_seq; reflexivity).
    apply seq_NoDup. }
  pose proof (initialize_in_distinct kind cname _ _ _ Hobj Hids) as Hin.
  rewrite Hreg in Hin. destruct Hin as [s' Hin].
  exists (own_objects members), (own_bindings members), s'.
  split; [| split; [exact Hids | split; [exact Hobj | exact Hin]]].
  rewrite <- (held_names _ _ _ Hheld). exact Hnd.
Qed.

(** One attribute bound to two names: the first name, in the order of
    names, becomes the wire name of both fields, and the reverse map
    resolves it to the second name. *)
Lemma one_object_under_two_names :
  exists s',
    AttributeContainerMeta._initialize_attributes_in PlainContainer "Twin"
      Twin_objects Twin_members
    = Ok (mkClass PlainContainer "Twin"
            [("x", Plain Unicode (named "x")); ("y", Plain Unicode (named "x"))]
            [("x", "y")], s').
Proof. eexists. reflexivity. Qed.

(** C3 (amended).  Declaring two attribute fields with the same wire name
    on one type raises no error at declaration time.  Whatever wire names
    the attribute fields of a type carry, each field being an attribute
    object of its own under a name that is not reserved: the type is
    registered whenever each field is registered when declared alone;
    every field is kept in the schema map under its own name and carries
    its wire name, the [attr_name] it was given or else its own name; and
    the reverse map resolves a wire name to the last, in the order of
    field names, of the fields that were given it as [attr_name], and to
    itself when no field was given it as [attr_name].  So of two fields
    that share a wire name the one found is the one given the name as
    [attr_name], and the later of the two when both were. *)
Theorem shared_wire_names_are_registered
    (kind : ClassKind) (cname : string) (s : store)
    (members : list (string * ident)) (objects : list (string * pyobj)) :
  NoDup (map fst members) ->
  NoDup (map snd members) ->
  AttributeContainerMeta.objects_at s members = Ok objects ->
  (forall n x, In (n, x) objects -> isinstance_Attribute x = true ->
     reserved n = false
     /\ exists o w, AttributeContainerMeta.prepare n x = Ok (o, w)) ->
  exists cls s',
    AttributeContainerMeta._initialize_attributes_in kind cname s members = Ok (cls, s')
    /\ (forall n x, In (n, x) objects -> isinstance_Attribute x = true ->
          exists o w,
            AttributeContainerMeta.prepare n x = Ok (o, w)
            /\ Dict.get (AttributeContainer.get_attributes cls) n = Some o
            /\ Attribute.attr_name o = Ok (Some (wire_name n w)))
    /\ (forall wire,
          (forall n x o, In (n, x) objects ->
             AttributeContainerMeta.prepare n x <> Ok (o, Some wire)) ->
          AttributeContainer._dynamo_to_python_attr cls wire = wire)
    /\ (forall wire n x o,
          In (n, x) objects -> isinstance_Attribute x = true ->
          AttributeContainerMeta.prepare n x = Ok (o, Some wire) ->
          (forall n' x' o',
             In (n', x') objects -> isinstance_Attribute x' = true ->
             AttributeContainerMeta.prepare n' x' = Ok (o', Some wire) ->
             String.leb n' n = true) ->
          AttributeContainer._dynamo_to_python_attr cls wire = n).
Proof.
  intros Hnames Hids Hobj Hall.
  assert (Hnd : NoDup (map fst objects)).
  { apply objects_at_held in Hobj. rewrite (held_names _ _ _ Hobj). exact Hnames. }
  destruct (registration_total kind cname objects Hall) as [cls Hreg].
  pose proof (initialize_in_distinct kind cname s members objects Hobj Hids) as Hin.
  rewrite Hreg in Hin. destruct Hin as [s' Hin].
  exists cls, s'. split; [exact Hin |].
  pose proof Hreg as Hinv. apply initialize_Ok_inv in Hinv.
  destruct Hinv as (_ & acc & Hloop & Hcls).
  split; [| split].
  - intros n x Hx Hattr.
    destruct (registered_member kind cname objects cls n x Hnd Hx Hattr Hreg)
      as (o & w & Hp & Hget).
    exists o, w. split; [exact Hp |]. split; [exact Hget |].
    apply (prepare_attr_name n x o w Hp).
  - intros wire Hnone. subst cls.
    unfold AttributeContainer._dynamo_to_python_attr, Dict.get_default.
    cbn [_dynamo_to_python_attrs].
    rewrite (register_all_reverse_other (AttributeContainerMeta.getmembers objects)
               ([], []) acc wire); [reflexivity | | exact Hloop].
    intros n x o Hx. apply getmembers_In in Hx. apply Hnone, Hx.
  - intros wire n x o Hx Hattr Hp Hlast. subst cls.
    unfold AttributeContainer._dynamo_to_python_attr, Dict.get_default.
    cbn [_dynamo_to_python_attrs].
    rewrite (register_all_reverse_last (AttributeContainerMeta.getmembers objects)
               ([], []) acc n wire x o); [reflexivity | | | | exact Hp | | exact Hloop].
    + apply getmembers_names_distinct, Hnd.
    + apply sort_sorted; [apply name_le_total | apply name_le_trans].
    + apply getmembers_In. split; assumption.
    + intros n' x' o' Hx' Hp'. apply getmembers_In in Hx'. destruct Hx' as [Hx' Hattr'].
      apply (Hlast n' x' o' Hx' Hattr' Hp').
Qed.

Lemma shared_wire_names_are_registered_witness :
  exists cls s',
    AttributeContainerMeta._initialize_attributes_in PlainContainer "Pair"
      Pair_objects Pair_members = Ok (cls, s')
    /\ Dict.keys (AttributeContainer.get_attributes cls) = ["a"; "b"]
    /\ AttributeContainer._dynamo_to_python_attr cls "b" = "a".
Proof.
  assert (Hnames : NoDup (map fst Pair_members)).
  { cbn. constructor; [intros [H | []]; discriminate H |].
    constructor; [intros [] | constructor]. }
  assert (Hids : NoDup (map snd Pair_members)).
  { cbn. constructor; [intros [H | []]; discriminate H |].
    constructor; [intros [] | constructor]. }
  destruct (shared_wire_names_are_registered PlainContainer "Pair" Pair_objects Pair_members
              [("a", Plain Unicode (named "b")); ("b", Plain Unicode bare)]
              Hnames Hids eq_refl) as (cls & s' & Hreg & _ & _ & Hlast).
  - intros n x [H | [H | []]] _; injection H as <- <-;
      (split; [reflexivity | eexists; eexists; reflexivity]).
  - exists cls, s'. split; [exact Hreg |]. split.
    + cbn in Hreg. injection Hreg as <- _. reflexivity.
    + apply (Hlast "b" "a" (Plain Unicode (named "b")) (Plain Unicode (named "b")));
        [left; reflexivity | reflexivity | reflexivity |].
      intros n' x' o' [H | [H | []]] _ Hp; injection H as <- <-;
        [reflexivity | discriminate Hp].
Defined.

(** ** Item access on maps *)

Lemma raw_is_MapAttribute (c : Class) (kwargs values : dict) :
  MapAttribute.is_raw c = true ->
  isinstance_MapAttribute (Container c kwargs values) = true.
Proof.
  unfold MapAttribute.is_raw, is_MapAttribute_itself. cbn.
  destruct (class_kind c); [reflexivity | discriminate | discriminate].
Qed.

Lemma dict_set_keys_In {V : Type} (d : list (string * V)) (k : string) (v : V) :
  In k (Dict.keys (Dict.set d k v)).
Proof.
  induction d as [| [k0 v0] d IH]; cbn.
  - left; reflexivity.
  - destruct (String.eqb k0 k); cbn; [left; reflexivity | right; exact IH].
Qed.

Lemma dict_mem_false_get {V : Type} (d : list (string * V)) (k : string) :
  Dict.mem d k = false -> Dict.get d k = None.
Proof. unfold Dict.mem. destruct (Dict.get d k); [discriminate | reflexivity]. Qed.

(** X1.  A raw map in data mode behaves like a dictionary: an item that was
    assigned is read back by item access and by [__getattr__] (which
    answers the attribute access of a name that is no ordinary attribute
    of the object), and is among the keys; the other items are left alone;
    an item that was never assigned raises [KeyError] by item access and
    [AttributeError] by [__getattr__]. *)
Theorem raw_map_item_assignment (c : Class) (kwargs values : dict)
    (item other : string) (value : pyval) :
  MapAttribute.is_raw c = true ->
  let self := Container c kwargs values in
  let self' := Container c kwargs (Dict.set values item value) in
  MapAttributeAccess.__setitem__ self item value = Ok self'
  /\ MapAttributeAccess.__getitem__ self' item = Ok (GotValue value)
  /\ MapAttributeAccess.__getattr__ self' item = Ok value
  /\ (exists keys, MapAttributeAccess.__iter__ self' = Ok keys /\ In item keys)
  /\ (other <> item ->
      MapAttributeAccess.__getitem__ self' other = MapAttributeAccess.__getitem__ self other)
  /\ (Dict.mem values item = false ->
      MapAttributeAccess.__getitem__ self item = Raise KeyError
      /\ MapAttributeAccess.__getattr__ self item = Raise AttributeError).
Proof.
  intros Hraw self self'.
  assert (Hmap : forall vs, isinstance_MapAttribute (Container c kwargs vs) = true)
    by (intros vs; apply raw_is_MapAttribute, Hraw).
  repeat split.
  - unfold MapAttributeAccess.__setitem__, self. rewrite Hmap. cbn. rewrite Hraw.
    reflexivity.
  - unfold MapAttributeAccess.__getitem__, self'. rewrite Hmap. cbn [negb].
    rewrite dict_get_set_same. reflexivity.
  - unfold MapAttributeAccess.__getattr__, self'. rewrite Hraw, dict_get_set_same.
    reflexivity.
  - exists (Dict.keys (Dict.set values item value)). split.
    + unfold MapAttributeAccess.__iter__, self'. rewrite Hmap. reflexivity.
    + apply dict_set_keys_In.
  - intros Hne. unfold MapAttributeAccess.__getitem__, self', self. rewrite !Hmap.
    cbn [negb]. rewrite dict_get_set_other by congruence. reflexivity.
  - unfold MapAttributeAccess.__getitem__, self. rewrite Hmap. cbn [negb].
    rewrite (dict_mem_false_get _ _ H). reflexivity.
  - unfold MapAttributeAccess.__getattr__, self. rewrite Hraw.
    rewrite (dict_mem_false_get _ _ H). reflexivity.
Qed.

Lemma raw_map_item_assignment_witness :
  MapAttributeAccess.__setitem__ (Container MapAttribute_class [] [("a", VInt 1)]) "b" (VStr "x")
  = Ok (Container MapAttribute_class [] [("a", VInt 1); ("b", VStr "x")]).
Proof.
  apply (raw_map_item_assignment MapAttribute_class [] [("a", VInt 1)] "b" "a" (VStr "x")
           eq_refl).
Defined.

(** ** Reading and writing declared fields *)











(** ** What conversion does to a nested map *)

(** X4.  The first conversion of a map in data mode returns [True] and
    moves it to schema mode for good: before it, prefixing paths is
    refused with [AssertionError]; after it the object carries the state
    of an attribute and one copy per attribute of its class, under the
    same names in the same order, it is no container any more, cannot be
    iterated and accepts no item assignment ([TypeError]). *)
Theorem conversion_leaves_data_mode (self o : pyobj) (changed : bool)
    (item : string) (value : pyval) (path_segment : option string) :
  isinstance_MapAttribute self = true ->
  MapAttribute.is_attribute_container self = true ->
  MapAttribute.make_attribute self = Ok (changed, o) ->
  changed = true
  /\ MapAttribute.update_attribute_paths self path_segment = Raise AssertionError
  /\ (exists c st locals,
        class_of self = Some c
        /\ o = Descriptor c st locals
        /\ Dict.keys locals = Dict.keys (AttributeContainer.get_attributes c)
        /\ Forall2 (fun copy attr => snd copy = snd attr) locals
             (AttributeContainer.get_attributes c))
  /\ MapAttribute.is_attribute_container o = false
  /\ MapAttributeAccess.__iter__ o = Raise TypeError
  /\ MapAttributeAccess.__setitem__ o item value = Raise TypeError.
Proof.
  intros Hmap Hdata Hmake.
  destruct self as [k st | c kwargs values | c st locals]; try discriminate Hdata.
  unfold MapAttribute.make_attribute in Hmake.
  cbn [MapAttribute.is_attribute_container negb] in Hmake.
  apply bind_Ok_inv in Hmake. destruct Hmake as (st & _ & Hmake).
  destruct (existsb _ _); [discriminate |].
  injection Hmake as <- <-.
  repeat split.
  exists c, st, (map (fun na => (fst na, deepcopy (snd na)))
                   (AttributeContainer.get_attributes c)).
  repeat split.
  - unfold Dict.keys. rewrite map_map. reflexivity.
  - induction (AttributeContainer.get_attributes c) as [| [n a] l IH]; cbn;
      constructor; [reflexivity | exact IH].
Qed.

Lemma conversion_leaves_data_mode_witness :
  MapAttributeAccess.__setitem__ reused_field "k" (VInt 1) = Raise TypeError.
Proof.
  apply (conversion_leaves_data_mode
           (Container MapAttribute_class [("attr_name", VStr "doc")] [])
           reused_field true "k" (VInt 1) None eq_refl eq_refl eq_refl).
Defined.

(** ** Validation *)





(** ** Construction of instances *)

Lemma NoDup_get_In {V : Type} (d : list (string * V)) (k : string) (v : V) :
  NoDup (Dict.keys d) -> In (k, v) d -> Dict.get d k = Some v.
Proof.
  induction d as [| [k0 v0] d IH]; cbn; [contradiction |].
  intros Hnd [Heq | Hin].
  - injection Heq as -> ->. rewrite String.eqb_refl. reflexivity.
  - inversion Hnd as [| ? ? Hfresh Hnd']; subst.
    destruct (String.eqb_spec k0 k) as [-> | Hne].
    + exfalso. apply Hfresh. apply in_map_iff. exists (k, v). split; [reflexivity | exact Hin].
    + apply IH; assumption.
Qed.

Lemma get_absent {V : Type} (d : list (string * V)) (k : string) :
  ~ In k (Dict.keys d) -> Dict.get d k = None.
Proof.
  induction d as [| [k0 v0] d IH]; cbn; [reflexivity |].
  intros Hn. destruct (String.eqb_spec k0 k) as [-> | Hne].
  - exfalso. apply Hn. left; reflexivity.
  - apply IH. intros Hin. apply Hn. right; exact Hin.
Qed.






Lemma apply_keywords_get (attributes values : dict) (name : string) :
  NoDup (Dict.keys attributes) ->
  Dict.get (apply_keywords attributes values) name
  = match Dict.get attributes name with
    | Some v => Some v
    | None => Dict.get values name
    end.
Proof.
  unfold apply_keywords. revert values.
  induction attributes as [| [n v] attributes IH]; intros values Hnd; [reflexivity |].
  cbn [Dict.keys map fst] in Hnd. inversion Hnd as [| ? ? Hfresh Hnd']; subst.
  cbn [fold_left fst snd Dict.get]. rewrite (IH _ Hnd').
  destruct (String.eqb_spec n name) as [-> | Hne].
  - rewrite (get_absent attributes name Hfresh). apply dict_get_set_same.
  - destruct (Dict.get attributes name); [reflexivity |].
    apply dict_get_set_other, Hne.
Qed.

Lemma mem_absent {V : Type} (d : list (string * V)) (k : string) :
  ~ In k (Dict.keys d) -> Dict.mem d k = false.
Proof. intros H. unfold Dict.mem. rewrite (get_absent d k H). reflexivity. Qed.

Lemma filter_keeps_all {A : Type} (f : A -> bool) (l : list A) :
  Forall (fun x => f x = true) l -> filter f l = l.
Proof.
  induction 1 as [| x l Hx _ IH]; cbn; [reflexivity |].
  rewrite Hx, IH. reflexivity.
Qed.





(** ** Registration of a class whose wire names are distinct *)



(** ** The order of declaration *)

Lemma filter_permuted {A : Type} (f : A -> bool) (l l' : list A) :
  Permutation l l' -> Permutation (filter f l) (filter f l').
Proof.
  induction 1 as [| x l l' _ IH | x y l | l l' l'' _ IH1 _ IH2]; cbn.
  - constructor.
  - destruct (f x); [apply perm_skip |]; exact IH.
  - destruct (f x); destruct (f y); try apply Permutation_refl. apply perm_swap.
  - eapply perm_trans; eassumption.
Qed.

(** Two listings of the same members by increasing name are the same
    listing, when no name occurs twice. *)
Lemma listing_by_name_unique (l l' : list (string * pyobj)) :
  StronglySorted (fun x y => AttributeContainerMeta.name_le x y = true) l ->
  StronglySorted (fun x y => AttributeContainerMeta.name_le x y = true) l' ->
  Permutation l l' -> NoDup (map fst l) -> l = l'.
Proof.
  intros Hl; revert l'.
  induction Hl as [| x l Hs IH Hx]; intros l' Hl' Hp Hnd.
  - apply Permutation_nil in Hp. symmetry; exact Hp.
  - destruct Hl' as [| y l' Hs' Hy].
    + apply Permutation_sym, Permutation_nil in Hp. discriminate.
    + assert (Hiny : In y (x :: l)).
      { apply (Permutation_in _ (Permutation_sym Hp)). left; reflexivity. }
      assert (Hinx : In x (y :: l')).
      { apply (Permutation_in _ Hp). left; reflexivity. }
      assert (Hxy : AttributeContainerMeta.name_le x y = true).
      { destruct Hiny as [<- | Hin]; [destruct (name_le_total x x); assumption |].
        rewrite Forall_forall in Hx. apply Hx, Hin. }
      assert (Hyx : AttributeContainerMeta.name_le y x = true).
      { destruct Hinx as [<- | Hin]; [destruct (name_le_total y y); assumption |].
        rewrite Forall_forall in Hy. apply Hy, Hin. }
      assert (Hname : fst x = fst y) by (apply String.leb_antisym; assumption).
      assert (x = y).
      { apply (distinct_images fst (x :: l)); try assumption. left; reflexivity. }
      subst y. f_equal.
      apply IH; [exact Hs' | eapply Permutation_cons_inv; exact Hp |].
      cbn [map fst] in Hnd. inversion Hnd; assumption.
Qed.

(** X8.  The class the metaclass builds does not depend on the order in
    which the members are listed: the members are visited by increasing
    name. *)
Theorem registration_ignores_declaration_order (kind : ClassKind) (cname : string)
    (members members' : list (string * pyobj)) :
  NoDup (map fst members) ->
  Permutation members members' ->
  AttributeContainerMeta.getmembers members = AttributeContainerMeta.getmembers members'
  /\ StronglySorted (fun x y => String.leb (fst x) (fst y) = true)
       (AttributeContainerMeta.getmembers members)
  /\ AttributeContainerMeta._initialize_attributes kind cname members
     = AttributeContainerMeta._initialize_attributes kind cname members'.
Proof.
  intros Hnd Hp.
  assert (Hsame : AttributeContainerMeta.getmembers members
                  = AttributeContainerMeta.getmembers members').
  { unfold AttributeContainerMeta.getmembers.
    apply listing_by_name_unique.
    - apply sort_sorted; [apply name_le_total | apply name_le_trans].
    - apply sort_sorted; [apply name_le_total | apply name_le_trans].
    - eapply perm_trans; [apply Permutation_sym, sort_perm |].
      eapply perm_trans; [apply filter_permuted, Hp | apply sort_perm].
    - eapply Permutation_NoDup; [apply Permutation_map, sort_perm |].
      apply filter_keeps_names_distinct, Hnd. }
  split; [exact Hsame | split].
  - apply (sort_sorted AttributeContainerMeta.name_le name_le_total name_le_trans).
  - unfold AttributeContainerMeta._initialize_attributes. rewrite Hsame. reflexivity.
Qed.

Lemma registration_ignores_declaration_order_witness :
  AttributeContainerMeta._initialize_attributes PlainContainer "Order"
    [("number", Plain Number bare); ("code", Plain Unicode bare)]
  = AttributeContainerMeta._initialize_attributes PlainContainer "Order"
      [("code", Plain Unicode bare); ("number", Plain Number bare)].
Proof.
  apply (registration_ignores_declaration_order PlainContainer "Order"
           [("number", Plain Number bare); ("code", Plain Unicode bare)]
           [("code", Plain Unicode bare); ("number", Plain Number bare)]).
  - cbn. constructor; [intros [H | []]; discriminate H |].
    constructor; [intros [] | constructor].
  - apply perm_swap.
Defined.

(** ** Serialization of maps *)

Lemma serialize_unfold (c : Class) (values : pyval) (entries : dict) :
  entries_of values = Some entries ->
  MapAttributeSerialize.serialize c values
  = (rval <- MapAttributeSerialize.serialize_items MapAttributeSerialize.serialize
               c entries [] ;;
     Ok (VDict rval)).
Proof. destruct values; cbn; intros H; try discriminate; injection H as <-; reflexivity. Qed.

Lemma Forall_dict_set_entry {V : Type} (P : string * V -> Prop) (d : list (string * V))
    (k : string) (v : V) :
  Forall P d -> P (k, v) -> Forall P (Dict.set d k v).
Proof.
  intros Hd Hv. induction Hd as [| [k0 v0] d H0 Hd IH]; cbn.
  - constructor; [exact Hv | constructor].
  - destruct (String.eqb k0 k); constructor; assumption.
Qed.

(** What the loop of a typed map adds to [rval]. *)
Lemma typed_serialize_items_emit (rec : Class -> pyval -> result pyval) (c : Class)
    (P : string * pyval -> Prop) (items rval out : dict) :
  MapAttribute.is_raw c = false ->
  (forall key val attr wire serialized,
      In (key, val) items ->
      val <> VNone -> serialized <> VNone ->
      Dict.get (AttributeContainer.get_attributes c) key = Some attr ->
      Attribute.attr_name attr = Ok (Some wire) ->
      P (wire, serialized)) ->
  Forall P rval ->
  MapAttributeSerialize.serialize_items rec c items rval = Ok out ->
  Forall P out.
Proof.
  intros Hraw. revert rval; induction items as [| [key val] items IH];
    intros rval Hstep Hacc H.
  - injection H as <-. exact Hacc.
  - assert (Hrest : forall key val attr wire serialized,
               In (key, val) items -> val <> VNone -> serialized <> VNone ->
               Dict.get (AttributeContainer.get_attributes c) key = Some attr ->
               Attribute.attr_name attr = Ok (Some wire) -> P (wire, serialized)).
    { intros k v a w s Hin. apply Hstep. right; exact Hin. }
    cbn [MapAttributeSerialize.serialize_items] in H.
    unfold MapAttributeSerialize._should_skip in H. rewrite Hraw in H. cbn [negb andb] in H.
    destruct (Py.is_None val) eqn:Hnone; [apply (IH rval); assumption |].
    unfold MapAttributeSerialize._get_serialize_class in H. rewrite Hraw in H.
    cbn [negb bind] in H.
    destruct (Dict.get (AttributeContainer.get_attributes c) key) as [attr |] eqn:Hget;
      [| apply (IH rval); assumption].
    apply bind_Ok_inv in H. destruct H as (wire & Hwire & H).
    apply bind_Ok_inv in H. destruct H as (serialized & _ & H).
    destruct (Py.is_None serialized) eqn:Hnone'; [apply (IH rval); assumption |].
    destruct wire as [wire |]; [| discriminate].
    apply (IH (Dict.set rval wire serialized)); try assumption.
    apply Forall_dict_set_entry; [exact Hacc |].
    apply (Hstep key val attr wire serialized); try assumption.
    + left; reflexivity.
    + intros ->. discriminate.
    + intros ->. discriminate.
Qed.

(** X9.  What a subclass of [MapAttribute] serializes to: a dict in which
    every key is the wire name of a declared field, for which the input
    holds a value other than [None], and no value is [None].  Names the
    class does not declare and fields that hold [None] leave no trace. *)
Theorem typed_serialize_emits_declared_fields (c : Class) (values wire : pyval)
    (entries : dict) :
  MapAttribute.is_raw c = false ->
  entries_of values = Some entries ->
  MapAttributeSerialize.serialize c values = Ok wire ->
  exists rval,
    wire = VDict rval
    /\ Forall (fun kv =>
                 snd kv <> VNone
                 /\ exists name val attr,
                      In (name, val) entries /\ val <> VNone
                      /\ Dict.get (AttributeContainer.get_attributes c) name = Some attr
                      /\ Attribute.attr_name attr = Ok (Some (fst kv))) rval.
Proof.
  intros Hraw Hentries H. rewrite (serialize_unfold c values entries Hentries) in H.
  apply bind_Ok_inv in H. destruct H as (rval & Hitems & H). injection H as <-.
  exists rval. split; [reflexivity |].
  eapply (typed_serialize_items_emit _ c _ entries [] rval Hraw); [| constructor | exact Hitems].
  intros key val attr w serialized Hin Hval Hser Hget Hname. cbn [fst snd].
  split; [exact Hser |]. exists key, val, attr. repeat split; assumption.
Qed.

Lemma typed_serialize_emits_declared_fields_witness :
  MapAttributeSerialize.serialize
    (mkClass SubMapAttribute "Profile" [("nickname", Plain Unicode (named "nick"))]
       [("nick", "nickname")])
    (VDict [("nickname", VStr "kim"); ("legacy", VInt 1); ("age", VNone)])
  = Ok (VDict [("nick", VStr "kim")])
  /\ exists rval,
       VDict [("nick", VStr "kim")] = VDict rval
       /\ Forall (fun kv => snd kv <> VNone) rval.
Proof.
  split; [reflexivity |].
  destruct (typed_serialize_emits_declared_fields
              (mkClass SubMapAttribute "Profile" [("nickname", Plain Unicode (named "nick"))]
                 [("nick", "nickname")])
              (VDict [("nickname", VStr "kim"); ("legacy", VInt 1); ("age", VNone)])
              (VDict [("nick", VStr "kim")])
              [("nickname", VStr "kim"); ("legacy", VInt 1); ("age", VNone)]
              eq_refl eq_refl eq_refl) as (rval & Heq & Hall).
  exists rval. split; [exact Heq |].
  eapply Forall_impl; [| exact Hall]. intros kv [Hkv _]. exact Hkv.
Defined.

(** One turn of the loop of a raw map on a scalar, a list or a set. *)
Lemma raw_serialize_item (rec : Class -> pyval -> result pyval) (c : Class)
    (key : string) (val : pyval) (rest rval : dict) :
  MapAttribute.is_raw c = true ->
  AttributeContainer.get_attributes c = [] ->
  flat val = true ->
  MapAttributeSerialize.serialize_items rec c ((key, val) :: rest) rval
  = MapAttributeSerialize.serialize_items rec c rest (Dict.set rval key (raw_wire val)).
Proof.
  intros Hraw Hattrs Hflat. cbn [MapAttributeSerialize.serialize_items].
  unfold MapAttributeSerialize._should_skip, MapAttributeSerialize._get_serialize_class.
  rewrite Hraw, Hattrs. cbn [negb andb Dict.get].
  destruct val as [| b | n | s | l | l | d | r | cls kw vs]; try discriminate Hflat;
    cbn [_get_class_for_serialize class_for_type Py.is_None type_of by_type SERIALIZE_CLASS_MAP
           pytype_eqb bind serialize_plain raw_wire].
  - reflexivity.
  - destruct b; reflexivity.
  - reflexivity.
  - unfold UnicodeAttribute.serialize. cbn [Py.truthy Py.is_str negb].
    destruct (String.eqb s ""); reflexivity.
  - reflexivity.
  - reflexivity.
Qed.

Lemma raw_serialize_items_flat (rec : Class -> pyval -> result pyval) (c : Class)
    (items rval : dict) :
  MapAttribute.is_raw c = true ->
  AttributeContainer.get_attributes c = [] ->
  Forall (fun kv => flat (snd kv) = true) items ->
  NoDup (Dict.keys rval ++ Dict.keys items)%list ->
  MapAttributeSerialize.serialize_items rec c items rval
  = Ok (rval ++ map (fun kv => (fst kv, raw_wire (snd kv))) items)%list.
Proof.
  intros Hraw Hattrs Hflat. revert rval.
  induction Hflat as [| [key val] items Hval _ IH]; intros rval Hnd.
  - cbn. rewrite app_nil_r. reflexivity.
  - cbn [fst snd] in Hval.
    rewrite (raw_serialize_item rec c key val items rval Hraw Hattrs Hval).
    cbn [Dict.keys map fst] in Hnd.
    assert (Hfresh : ~ In key (Dict.keys rval)).
    { intros Hin. apply NoDup_remove_2 in Hnd. apply Hnd. apply in_or_app.
      left; exact Hin. }
    rewrite (dict_set_fresh rval key (raw_wire val) Hfresh).
    rewrite IH.
    + rewrite <- app_assoc. reflexivity.
    + unfold Dict.keys in *. rewrite map_app, <- app_assoc. exact Hnd.
Qed.

Lemma raw_serialize_flat (c : Class) (values : pyval) (entries : dict) :
  MapAttribute.is_raw c = true ->
  AttributeContainer.get_attributes c = [] ->
  entries_of values = Some entries ->
  NoDup (Dict.keys entries) ->
  Forall (fun kv => flat (snd kv) = true) entries ->
  MapAttributeSerialize.serialize c values
  = Ok (VDict (map (fun kv => (fst kv, raw_wire (snd kv))) entries)).
Proof.
  intros Hraw Hattrs Hentries Hnd Hflat.
  rewrite (serialize_unfold c values entries Hentries).
  rewrite (raw_serialize_items_flat _ c entries [] Hraw Hattrs Hflat Hnd).
  reflexivity.
Qed.

(** X10.  A raw map whose values are scalars, lists and sets serializes to
    a dict with the same keys in the same order, each value standing
    untagged: [None] becomes [True], the empty string becomes [None], and
    every other value, a set included, is emitted as it is. *)
Theorem raw_serialize_emits_untagged_values (c : Class) (values : pyval) (entries : dict) :
  MapAttribute.is_raw c = true ->
  AttributeContainer.get_attributes c = [] ->
  entries_of values = Some entries ->
  NoDup (Dict.keys entries) ->
  Forall (fun kv => flat (snd kv) = true) entries ->
  MapAttributeSerialize.serialize c values
  = Ok (VDict (map (fun kv => (fst kv, raw_wire (snd kv))) entries))
  /\ Dict.keys (map (fun kv => (fst kv, raw_wire (snd kv))) entries) = Dict.keys entries.
Proof.
  intros Hraw Hattrs Hentries Hnd Hflat. split.
  - apply raw_serialize_flat; assumption.
  - unfold Dict.keys. rewrite map_map. reflexivity.
Qed.

Lemma raw_serialize_emits_untagged_values_witness :
  MapAttributeSerialize.serialize MapAttribute_class
    (VDict [("a", VStr "x"); ("b", VNone); ("c", VStr ""); ("d", VSet [VInt 1])])
  = Ok (VDict [("a", VStr "x"); ("b", VBool true); ("c", VNone); ("d", VSet [VInt 1])]).
Proof.
  apply (raw_serialize_emits_untagged_values MapAttribute_class
           (VDict [("a", VStr "x"); ("b", VNone); ("c", VStr ""); ("d", VSet [VInt 1])])
           [("a", VStr "x"); ("b", VNone); ("c", VStr ""); ("d", VSet [VInt 1])]
           eq_refl eq_refl eq_refl).
  - cbn. repeat (constructor; [cbn; intuition discriminate |]). constructor.
  - repeat constructor.
Defined.

(** X11.  What a raw map serializes to is not what it deserializes:
    [serialize] emits the values without type tags, [deserialize] expects
    every value wrapped in one, and decoding the output of [serialize] for
    a non-empty raw map of scalars, lists and sets raises
    [AttributeError]. *)
Theorem raw_serialize_output_is_not_decodable (c : Class) (values : pyval)
    (key : string) (val : pyval) (rest : dict) :
  MapAttribute.is_raw c = true ->
  AttributeContainer.get_attributes c = [] ->
  entries_of values = Some ((key, val) :: rest) ->
  NoDup (Dict.keys ((key, val) :: rest)) ->
  Forall (fun kv => flat (snd kv) = true) ((key, val) :: rest) ->
  (wire <- MapAttributeSerialize.serialize c values ;; MapAttribute.deserialize c wire)
  = Raise AttributeError.
Proof.
  intros Hraw Hattrs Hentries Hnd Hflat.
  rewrite (raw_serialize_flat c values _ Hraw Hattrs Hentries Hnd Hflat).
  cbn [bind map fst snd]. rewrite deserialize_unfold.
  cbn [MapAttribute.deserialize_items].
  inversion Hflat as [| ? ? Hval _]; subst. cbn [snd] in Hval.
  destruct val as [| b | n | s | l | l | d | r | cls kw vs]; try discriminate Hval;
    cbn [raw_wire]; try reflexivity.
  destruct (String.eqb s ""); reflexivity.
Qed.

Lemma raw_serialize_output_is_not_decodable_witness :
  (wire <- MapAttributeSerialize.serialize MapAttribute_class (VDict [("a", VStr "x")]) ;;
   MapAttribute.deserialize MapAttribute_class wire)
  = Raise AttributeError.
Proof.
  apply (raw_serialize_output_is_not_decodable MapAttribute_class (VDict [("a", VStr "x")])
           "a" (VStr "x") [] eq_refl eq_refl eq_refl).
  - cbn. constructor; [intros [] | constructor].
  - repeat constructor.
Defined.

(** ** Maps as plain dictionaries *)

Lemma as_dict_items (items result : dict) :
  NoDup (Dict.keys result ++ Dict.keys items)%list ->
  (fix loop (items : dict) (result : dict) : dict :=
     match items with
     | [] => result
     | (key, value) :: rest =>
         loop rest (Dict.set result key (MapAttributeSerialize.as_dict_value value))
     end) items result
  = (result
     ++ map (fun kv => (fst kv, MapAttributeSerialize.as_dict_value (snd kv))) items)%list.
Proof.
  revert result; induction items as [| [key value] items IH]; intros result Hnd.
  - cbn. rewrite app_nil_r. reflexivity.
  - cbn [Dict.keys map fst] in Hnd.
    assert (Hfresh : ~ In key (Dict.keys result)).
    { intros Hin. apply NoDup_remove_2 in Hnd. apply Hnd. apply in_or_app.
      left; exact Hin. }
    rewrite IH.
    + rewrite (dict_set_fresh result key _ Hfresh), <- app_assoc. reflexivity.
    + rewrite (dict_set_fresh result key _ Hfresh).
      unfold Dict.keys in *. rewrite map_app, <- app_assoc. exact Hnd.
Qed.

(** X12.  [as_dict] on a map in data mode gives a dict with the same keys
    in the same order; a value that is itself a map object is replaced by
    its own [as_dict], so that no value of the result is a map object,
    while the other values, lists included, are handed over untouched: a
    map object inside a list stays one. *)
Theorem as_dict_unwraps_nested_maps (c : Class) (kwargs values : dict) :
  isinstance_MapAttribute (Container c kwargs values) = true ->
  NoDup (Dict.keys values) ->
  exists result,
    MapAttributeSerialize.as_dict (Container c kwargs values) = Ok (VDict result)
    /\ result = map (fun kv => (fst kv, MapAttributeSerialize.as_dict_value (snd kv))) values
    /\ Dict.keys result = Dict.keys values
    /\ Forall (fun kv => forall cls kw vs, snd kv <> VMap cls kw vs) result
    /\ (forall key items,
          In (key, VList items) values -> In (key, VList items) result).
Proof.
  intros Hmap Hnd.
  exists (map (fun kv => (fst kv, MapAttributeSerialize.as_dict_value (snd kv))) values).
  split; [| split; [reflexivity | split; [| split]]].
  - unfold MapAttributeSerialize.as_dict. rewrite Hmap. cbn [negb].
    cbn [MapAttributeSerialize.as_dict_value].
    rewrite (as_dict_items values [] Hnd). reflexivity.
  - unfold Dict.keys. rewrite map_map. reflexivity.
  - apply Forall_forall. intros kv Hin. apply in_map_iff in Hin.
    destruct Hin as ([k v] & <- & _). cbn [fst snd]. intros cls kw vs.
    destruct v; discriminate.
  - intros key items Hin. apply in_map_iff. exists (key, VList items).
    split; [reflexivity | exact Hin].
Qed.

Lemma as_dict_unwraps_nested_maps_witness :
  MapAttributeSerialize.as_dict
    (Container MapAttribute_class []
       [("inner", VMap "Profile" [] [("nickname", VStr "kim")]);
        ("list", VList [VMap "Profile" [] []])])
  = Ok (VDict [("inner", VDict [("nickname", VStr "kim")]);
               ("list", VList [VMap "Profile" [] []])]).
Proof.
  destruct (as_dict_unwraps_nested_maps MapAttribute_class []
              [("inner", VMap "Profile" [] [("nickname", VStr "kim")]);
               ("list", VList [VMap "Profile" [] []])] eq_refl)
    as (result & Hd & -> & _).
  - cbn. constructor; [intros [H | []]; discriminate H |].
    constructor; [intros [] | constructor].
  - exact Hd.
Defined.

(** ** The type tables *)

(** X13.  The three type tables, compared type by type.  Every type that
    has a wire tag has an encoder, and the registry of decoders holds under
    the tag an attribute of the class (and state) of the encoder.
    Conversely every type that has an encoder has a wire tag, except
    [decimal.Decimal]: a [Decimal] is encoded by a [NumberAttribute] but
    has no wire tag, so that [_get_key_for_serialize] raises [ValueError]
    for a value that [_get_class_for_serialize] accepts.  For a type
    outside the table of encoders both lookups raise [ValueError].  The
    two functions look up the type of every value but [None] and a map
    object; [None] has the tag [NULL], the encoder [NullAttribute], and
    the registry holds a [NullAttribute] under [NULL]. *)
Theorem wire_tag_matches_encoder :
  (forall value_type tag,
      key_for_type value_type = Ok tag ->
      exists decoder,
        Dict.get DESERIALIZE_CLASS_MAP tag = Some decoder
        /\ class_for_type value_type = Ok decoder)
  /\ (forall value_type encoder,
        class_for_type value_type = Ok encoder ->
        value_type <> TDecimal ->
        exists tag, key_for_type value_type = Ok tag)
  /\ (class_for_type TDecimal = Ok (Plain Number bare)
      /\ key_for_type TDecimal = Raise ValueError)
  /\ (forall value_type,
        class_for_type value_type = Raise ValueError ->
        key_for_type value_type = Raise ValueError)
  /\ (forall value,
        Py.is_None value = false ->
        (forall cls kw vs, value <> VMap cls kw vs) ->
        _get_key_for_serialize value = key_for_type (type_of value)
        /\ _get_class_for_serialize value = class_for_type (type_of value))
  /\ (_get_key_for_serialize VNone = Ok NULL
      /\ _get_class_for_serialize VNone = Ok (Plain Null bare)
      /\ Dict.get DESERIALIZE_CLASS_MAP NULL = Some (Plain Null bare)).
Proof.
  split; [| split; [| split; [| split; [| split]]]].
  - intros value_type tag H.
    destruct value_type; cbn in H; try discriminate H; injection H as <-;
      eexists; split; reflexivity.
  - intros value_type encoder H Hdec.
    destruct value_type; cbn in H; try discriminate H; try (eexists; reflexivity).
    exfalso. apply Hdec. reflexivity.
  - split; reflexivity.
  - intros value_type H. destruct value_type; cbn in H; try discriminate H; reflexivity.
  - intros value Hnone Hmap. destruct value; try discriminate Hnone; try (split; reflexivity).
    exfalso. eapply Hmap. reflexivity.
  - repeat split.
Qed.

(** ** Decoding of maps *)

Lemma deserialize_items_keys (rec : Class -> pyval -> result pyval) (c : Class)
    (items acc out : dict) :
  MapAttribute.is_raw c = true ->
  _dynamo_to_python_attrs c = [] ->
  NoDup (Dict.keys acc ++ Dict.keys items)%list ->
  MapAttribute.deserialize_items rec c items acc = Ok out ->
  Dict.keys out = (Dict.keys acc ++ Dict.keys items)%list.
Proof.
  intros Hraw Hrev. revert acc; induction items as [| [key val] items IH]; intros acc Hnd H.
  - injection H as <-. cbn. rewrite app_nil_r. reflexivity.
  - cbn [MapAttribute.deserialize_items] in H.
    apply bind_Ok_inv in H. destruct H as (attr_value & _ & H).
    unfold AttributeContainer._dynamo_to_python_attr, Dict.get_default in H.
    rewrite Hrev in H. cbn [Dict.get] in H.
    apply bind_Ok_inv in H. destruct H as (attr_class & Hclass & H).
    unfold MapAttribute._get_deserialize_class in Hclass. rewrite Hraw in Hclass.
    cbn [negb] in Hclass.
    apply bind_Ok_inv in Hclass. destruct Hclass as (a & _ & Hclass). injection Hclass as <-.
    apply bind_Ok_inv in H. destruct H as (deserialized_value & _ & H).
    cbn [Dict.keys map fst] in Hnd.
    assert (Hfresh : ~ In key (Dict.keys acc)).
    { intros Hin. apply NoDup_remove_2 in Hnd. apply Hnd. apply in_or_app.
      left; exact Hin. }
    assert (Hkeys : Dict.keys (Dict.set acc key deserialized_value)
                    = (Dict.keys acc ++ [key])%list).
    { rewrite dict_set_fresh by exact Hfresh. unfold Dict.keys. rewrite map_app.
      reflexivity. }
    rewrite (IH _) with (2 := H); rewrite Hkeys, <- app_assoc; [reflexivity | exact Hnd].
Qed.

(** X14.  What [deserialize] returns depends on the class alone: a raw map
    decodes to a dict, which has the keys of the wire dict in the same
    order, and a subclass of [MapAttribute] to an instance of that
    subclass. *)
Theorem deserialize_result_kind (c : Class) (entries : dict) (decoded : pyval) :
  MapAttribute.deserialize c (VDict entries) = Ok decoded ->
  (MapAttribute.is_raw c = true ->
   exists values,
     decoded = VDict values
     /\ (_dynamo_to_python_attrs c = [] -> NoDup (Dict.keys entries) ->
         Dict.keys values = Dict.keys entries))
  /\ (MapAttribute.is_raw c = false ->
      exists kwargs values, decoded = VMap (class_name c) kwargs values).
Proof.
  intros H. rewrite deserialize_unfold in H.
  apply bind_Ok_inv in H. destruct H as (deserialized_dict & Hitems & H).
  split; intros Hraw; rewrite Hraw in H; cbn [negb] in H.
  - injection H as <-. exists deserialized_dict. split; [reflexivity |].
    intros Hrev Hnd.
    exact (deserialize_items_keys _ c entries [] deserialized_dict Hraw Hrev Hnd Hitems).
  - rewrite MapAttribute_init_unfold in H.
    exact (init_returns_instance _ c deserialized_dict decoded H).
Qed.

Lemma deserialize_result_kind_witness :
  (exists values,
     VDict [("n", VInt 1)] = VDict values /\ Dict.keys values = ["n"])
  /\ exists kwargs values, VMap "Profile" [] [("nickname", VStr "kim")]
                           = VMap (class_name Profile) kwargs values.
Proof.
  split.
  - destruct (deserialize_result_kind MapAttribute_class [("n", VDict [("N", VStr "1")])]
                (VDict [("n", VInt 1)]) eq_refl) as [Hraw _].
    destruct (Hraw eq_refl) as (values & Heq & Hkeys).
    exists values. split; [exact Heq |].
    apply (Hkeys eq_refl). cbn. constructor; [intros [] | constructor].
  - destruct (deserialize_result_kind Profile [("nickname", VDict [("S", VStr "kim")])]
                (VMap "Profile" [] [("nickname", VStr "kim")]) eq_refl) as [_ Htyped].
    exact (Htyped eq_refl).
Defined.

(** One turn of the loop of a raw map on a wire value that is a tag over a
    payload. *)
Lemma raw_deserialize_item (rec : Class -> pyval -> result pyval) (c : Class)
    (key : string) (wire_value decoded : pyval) (rest acc : dict) :
  MapAttribute.is_raw c = true ->
  _dynamo_to_python_attrs c = [] ->
  untagged wire_value = Some decoded ->
  MapAttribute.deserialize_items rec c ((key, wire_value) :: rest) acc
  = MapAttribute.deserialize_items rec c rest (Dict.set acc key decoded).
Proof.
  intros Hraw Hrev Hun.
  destruct wire_value as [| | | | | | [| [tag payload] more] | |]; try discriminate Hun.
  cbn [MapAttribute.deserialize_items].
  unfold AttributeContainer._dynamo_to_python_attr, Dict.get_default. rewrite Hrev.
  cbn [Dict.get].
  unfold MapAttribute._get_deserialize_class. rewrite Hraw. cbn [negb].
  unfold _get_value_for_deserialize, _get_class_for_deserialize.
  cbn [keys_of Dict.keys map fst bind Dict.get]. rewrite String.eqb_refl.
  cbn [untagged] in Hun.
  revert Hun. cbn [existsb].
  destruct (String.eqb_spec tag NULL) as [-> | Hnull].
  { cbn. intros Hun. injection Hun as <-. reflexivity. }
  destruct (String.eqb_spec tag STRING_SHORT) as [-> | Hs].
  { destruct payload; cbn; intros Hun; injection Hun as <-; reflexivity. }
  destruct (String.eqb_spec tag LIST_SHORT) as [-> | Hl].
  { destruct payload; cbn; intros Hun; injection Hun as <-; reflexivity. }
  destruct (String.eqb_spec tag BOOLEAN) as [-> | Hb].
  { destruct payload; cbn; intros Hun; injection Hun as <-; reflexivity. }
  destruct (String.eqb_spec tag NUMBER_SHORT) as [-> | Hn].
  { destruct payload as [| | | text | | | | |]; cbn -[Json.loads_text]; intros Hun;
      try discriminate Hun; try (injection Hun as <-; reflexivity).
    destruct (Json.loads_text text) as [number | |]; try discriminate Hun.
    injection Hun as <-. reflexivity. }
  cbn [orb]. destruct (Py.is_None payload); intros Hun; discriminate Hun.
Qed.

Lemma raw_deserialize_items_tagged (rec : Class -> pyval -> result pyval) (c : Class)
    (items acc decoded : dict) :
  MapAttribute.is_raw c = true ->
  _dynamo_to_python_attrs c = [] ->
  all_untagged items = Some decoded ->
  NoDup (Dict.keys acc ++ Dict.keys items)%list ->
  MapAttribute.deserialize_items rec c items acc = Ok (acc ++ decoded)%list.
Proof.
  intros Hraw Hrev. revert acc decoded.
  induction items as [| [key wire_value] items IH]; intros acc decoded Hall Hnd.
  - injection Hall as <-. cbn. rewrite app_nil_r. reflexivity.
  - cbn [all_untagged] in Hall.
    destruct (untagged wire_value) as [v |] eqn:Hun; [| discriminate].
    destruct (all_untagged items) as [vs |] eqn:Hrest; [| discriminate].
    injection Hall as <-.
    rewrite (raw_deserialize_item rec c key wire_value v items acc Hraw Hrev Hun).
    cbn [Dict.keys map fst] in Hnd.
    assert (Hfresh : ~ In key (Dict.keys acc)).
    { intros Hin. apply NoDup_remove_2 in Hnd. apply Hnd. apply in_or_app.
      left; exact Hin. }
    rewrite (dict_set_fresh acc key v Hfresh).
    rewrite (IH _ vs eq_refl).
    + rewrite <- app_assoc. reflexivity.
    + unfold Dict.keys in *. rewrite map_app, <- app_assoc. exact Hnd.
Qed.

(** X15.  A raw map decodes a wire dict of tagged values (no nested maps)
    by stripping the tags: the text under [S] and the list under [L] are
    handed over, the value under [BOOL] is turned into a boolean, the text
    of an integer under [N] is read as that integer, and whatever stands
    under [NULL] decodes to [None], as does the payload [None] under any
    tag.  Only the first tag of a wire value is looked at. *)
Theorem raw_deserialize_strips_tags (c : Class) (entries decoded : dict) :
  MapAttribute.is_raw c = true ->
  _dynamo_to_python_attrs c = [] ->
  NoDup (Dict.keys entries) ->
  all_untagged entries = Some decoded ->
  MapAttribute.deserialize c (VDict entries) = Ok (VDict decoded).
Proof.
  intros Hraw Hrev Hnd Hall. rewrite deserialize_unfold.
  rewrite (raw_deserialize_items_tagged _ c entries [] decoded Hraw Hrev Hall Hnd).
  cbn [bind]. rewrite Hraw. reflexivity.
Qed.

Lemma raw_deserialize_strips_tags_witness :
  MapAttribute.deserialize MapAttribute_class
    (VDict [("name", VDict [("S", VStr "kim")]);
            ("age", VDict [("N", VStr "42"); ("S", VStr "ignored")]);
            ("gone", VDict [("NULL", VBool true)]);
            ("flag", VDict [("BOOL", VNone)])])
  = Ok (VDict [("name", VStr "kim"); ("age", VInt 42); ("gone", VNone); ("flag", VNone)]).
Proof.
  apply (raw_deserialize_strips_tags MapAttribute_class
           [("name", VDict [("S", VStr "kim")]);
            ("age", VDict [("N", VStr "42"); ("S", VStr "ignored")]);
            ("gone", VDict [("NULL", VBool true)]);
            ("flag", VDict [("BOOL", VNone)])]
           [("name", VStr "kim"); ("age", VInt 42); ("gone", VNone); ("flag", VNone)]
           eq_refl eq_refl).
  - cbn. repeat (constructor; [cbn; intuition discriminate |]). constructor.
  - reflexivity.
Defined.

(** ** Typed maps and the type tags *)

Lemma null_tag_false (tag : string) : tag <> NULL -> String.eqb tag NULL = false.
Proof. intros H. apply String.eqb_neq, H. Qed.

Lemma typed_items_ignore_tags (rec : Class -> pyval -> result pyval) (c : Class)
    (entries entries' acc : dict) :
  MapAttribute.is_raw c = false ->
  Forall2 (fun e e' => fst e = fst e' /\ same_payload (snd e) (snd e')) entries entries' ->
  MapAttribute.deserialize_items rec c entries acc
  = MapAttribute.deserialize_items rec c entries' acc.
Proof.
  intros Hraw Hall. revert acc.
  induction Hall as [| [key val] [key' val'] entries entries' [Hkey Hsame] _ IH]; intros acc.
  - reflexivity.
  - cbn [fst snd] in Hkey, Hsame. subst key'.
    destruct Hsame as (tag & tag' & payload & more & more' & -> & -> & Htag & Htag').
    cbn [MapAttribute.deserialize_items].
    unfold _get_value_for_deserialize.
    cbn [keys_of Dict.keys map fst bind Dict.get].
    rewrite !String.eqb_refl, (null_tag_false tag Htag), (null_tag_false tag' Htag').
    cbn [bind].
    unfold MapAttribute._get_deserialize_class. rewrite Hraw. cbn [negb bind].
    destruct (Dict.get (AttributeContainer.get_attributes c)
                (AttributeContainer._dynamo_to_python_attr c key)) as [attr |];
      [| apply IH].
    match goal with
    | |- bind ?m _ = bind ?m _ => destruct m as [v | e | ]; cbn [bind]; try reflexivity
    end.
    apply IH.
Qed.

(** X16.  A subclass of [MapAttribute] decodes every field with the
    attribute declared for it and never looks at the type tag, except to
    see whether it is [NULL]: two wire dicts with the same keys and the
    same payloads decode to the same result (or fail alike) whatever tags
    other than [NULL] they carry. *)
Theorem typed_deserialize_ignores_tags (c : Class) (entries entries' : dict) :
  MapAttribute.is_raw c = false ->
  Forall2 (fun e e' => fst e = fst e' /\ same_payload (snd e) (snd e')) entries entries' ->
  MapAttribute.deserialize c (VDict entries) = MapAttribute.deserialize c (VDict entries').
Proof.
  intros Hraw Hall. rewrite !deserialize_unfold.
  rewrite (typed_items_ignore_tags _ c entries entries' [] Hraw Hall). reflexivity.
Qed.

Lemma typed_deserialize_ignores_tags_witness :
  MapAttribute.deserialize Profile (VDict [("nickname", VDict [("N", VStr "7")])])
  = Ok (VMap "Profile" [] [("nickname", VStr "7")]).
Proof.
  rewrite (typed_deserialize_ignores_tags Profile
             [("nickname", VDict [("N", VStr "7")])]
             [("nickname", VDict [("S", VStr "7")])] eq_refl).
  - reflexivity.
  - constructor; [| constructor]. split; [reflexivity |].
    exists "N", "S", (VStr "7"), [], []. repeat split; discriminate.
Defined.

(** ** Wire values that are no tag over a payload *)

Lemma malformed_item_raises (rec : Class -> pyval -> result pyval) (c : Class)
    (key : string) (wire_value : pyval) (e : exn) (rest acc : dict) :
  malformed wire_value = Some e ->
  MapAttribute.deserialize_items rec c ((key, wire_value) :: rest) acc = Raise e.
Proof.
  intros H. cbn [MapAttribute.deserialize_items].
  destruct wire_value as [| | | | | | [| kv more] | |]; cbn in H; try discriminate H;
    injection H as <-; reflexivity.
Qed.

(** X17.  A field whose wire value is no tag over a payload stops the
    decoding of a map, raw or typed, once the fields before it are
    decoded: with [StopIteration] when the value is an empty dict, with
    [AttributeError] when it is a scalar, a list or a set.  This holds for
    a field the class does not declare as well: its value is unwrapped
    before its name is looked up. *)
Theorem malformed_wire_value_stops_decoding (c : Class) (key : string)
    (wire_value : pyval) (e : exn) (before after acc : dict) :
  malformed wire_value = Some e ->
  MapAttribute.deserialize_items MapAttribute.deserialize c before [] = Ok acc ->
  MapAttribute.deserialize c (VDict (before ++ (key, wire_value) :: after)%list) = Raise e.
Proof.
  intros Hbad Hbefore. rewrite deserialize_unfold, deserialize_items_app, Hbefore.
  cbn [bind]. rewrite (malformed_item_raises _ c key wire_value e after acc Hbad).
  reflexivity.
Qed.

Lemma malformed_wire_value_stops_decoding_witness :
  MapAttribute.deserialize Profile
    (VDict [("nickname", VDict [("S", VStr "kim")]); ("legacy", VDict [])])
  = Raise StopIteration
  /\ MapAttribute.deserialize Profile (VDict [("legacy", VStr "x")]) = Raise AttributeError.
Proof.
  split.
  - apply (malformed_wire_value_stops_decoding Profile "legacy" (VDict []) StopIteration
             [("nickname", VDict [("S", VStr "kim")])] [] [("nickname", VStr "kim")]
             eq_refl eq_refl).
  - apply (malformed_wire_value_stops_decoding Profile "legacy" (VStr "x") AttributeError
             [] [] [] eq_refl eq_refl).
Defined.

(** ** Round trips of composite keys *)

(** X18.  With a one-character separator that does not occur in it, a
    non-empty value survives the round trip through a key attribute that
    has a prefix only, a suffix only, or neither (a fixed value only):
    [serialize] composes the stored key and [deserialize] gives the value
    back. *)
Theorem KeyAttribute_value_round_trip (c : ascii) (part : string)
    (fixed : option string) (v : string) :
  part <> "" -> v <> "" -> occurs c v = false ->
  let with_prefix := {| prefix := Some part; suffix := None; fixed_value := fixed;
                        separator := String c "" |} in
  let with_suffix := {| prefix := None; suffix := Some part; fixed_value := fixed;
                        separator := String c "" |} in
  let bare_key := {| prefix := None; suffix := None; fixed_value := fixed;
                     separator := String c "" |} in
  (wire <- KeyAttribute.serialize with_prefix (VStr v) ;;
   KeyAttribute.deserialize with_prefix wire) = Ok (VStr v)
  /\ KeyAttribute.serialize with_prefix (VStr v) = Ok (VStr (part ++ String c v))
  /\ (wire <- KeyAttribute.serialize with_suffix (VStr v) ;;
      KeyAttribute.deserialize with_suffix wire) = Ok (VStr v)
  /\ KeyAttribute.serialize with_suffix (VStr v) = Ok (VStr (v ++ String c part))
  /\ (wire <- KeyAttribute.serialize bare_key (VStr v) ;;
      KeyAttribute.deserialize bare_key wire) = Ok (VStr v)
  /\ KeyAttribute.serialize bare_key (VStr v) = Ok (VStr v).
Proof.
  intros Hpart Hv Hc with_prefix with_suffix bare_key.
  destruct (KeyAttribute_roundtrip_prefix part fixed c v Hpart Hv Hc) as [Hps Hpd].
  destruct (KeyAttribute_roundtrip_suffix part fixed c v Hpart Hv Hc) as [Hss Hsd].
  assert (Hbs : KeyAttribute.serialize bare_key (VStr v) = Ok (VStr v)).
  { unfold KeyAttribute.serialize. cbn [bare_key fixed_value prefix suffix separator].
    rewrite (truthy_VStr v Hv). cbn [negb andb Py.str bind Py.truthy_opt append].
    rewrite append_nil_r. apply UnicodeAttribute_serialize_nonempty, Hv. }
  assert (Hbd : KeyAttribute.deserialize bare_key (VStr v) = Ok (VStr v)).
  { unfold KeyAttribute.deserialize, Py.split. cbn [bare_key prefix separator].
    replace (String.eqb (String c "") "") with false by reflexivity.
    cbn [bind Py.truthy_opt].
    rewrite (split_without_separator c "" v Hc). reflexivity. }
  repeat split.
  - fold with_prefix in Hps, Hpd. rewrite Hps. exact Hpd.
  - exact Hps.
  - fold with_suffix in Hss, Hsd. rewrite Hss. exact Hsd.
  - exact Hss.
  - rewrite Hbs. exact Hbd.
  - exact Hbs.
Qed.

Lemma KeyAttribute_value_round_trip_witness :
  (wire <- KeyAttribute.serialize user_key (VStr "42") ;;
   KeyAttribute.deserialize user_key wire) = Ok (VStr "42").
Proof.
  apply (KeyAttribute_value_round_trip "#" "user" None "42").
  - discriminate.
  - discriminate.
  - reflexivity.
Defined.





(** ** What the constructor of a key attribute guarantees *)

Lemma KeyAttribute_init_inv (p s v sep : option string) (hash_key range_key : bool)
    (cfg : KeyConfig) (st : AttrState) :
  KeyAttribute.__init__ p s v hash_key range_key sep = Ok (cfg, st) ->
  prefix cfg = p /\ suffix cfg = s /\ fixed_value cfg = v
  /\ (Py.truthy_opt s = true \/ Py.truthy_opt p = true \/ Py.truthy_opt v = true)
  /\ (hash_key = true \/ range_key = true)
  /\ st = {| default := VNone; default_for_new := VNone; null := VBool false;
             is_hash_key := VBool hash_key; is_range_key := VBool range_key;
             attr_path := [None] |}.
Proof.
  unfold KeyAttribute.__init__.
  destruct (Py.truthy_opt s) eqn:Hs; destruct (Py.truthy_opt p) eqn:Hp;
    destruct (Py.truthy_opt v) eqn:Hv; cbn [negb andb]; try discriminate;
    destruct hash_key; destruct range_key; cbn [negb andb]; try discriminate;
    intros H; cbn in H; injection H as <- <-; cbn; intuition.
Qed.

(** X20.  The constructor of a key attribute refuses a key without prefix,
    suffix and fixed value, and one that is neither hash nor range key
    ([AttributeError]).  A key attribute that was constructed is a hash or
    a range key, has no wire name of its own (the constructor takes no
    [attr_name]), and a separator that is not empty; so [deserialize]
    never fails on a string, and [serialize] never drops a string: it
    returns a non-empty string for every string given, the empty one
    included. *)
Theorem KeyAttribute_constructed (p s v sep : option string) (hash_key range_key : bool) :
  (Py.truthy_opt s = false -> Py.truthy_opt p = false -> Py.truthy_opt v = false ->
   KeyAttribute.__init__ p s v hash_key range_key sep = Raise AttributeError)
  /\ (hash_key = false -> range_key = false ->
      KeyAttribute.__init__ p s v hash_key range_key sep = Raise AttributeError)
  /\ (forall cfg st,
        KeyAttribute.__init__ p s v hash_key range_key sep = Ok (cfg, st) ->
        (is_hash_key st = VBool true \/ is_range_key st = VBool true)
        /\ attr_path st = [None]
        /\ separator cfg <> ""
        /\ (forall stored, exists segment,
              KeyAttribute.deserialize cfg (VStr stored) = Ok (VStr segment))
        /\ (forall value, exists key,
              KeyAttribute.serialize cfg (VStr value) = Ok (VStr key) /\ key <> "")).
Proof.
  split; [| split].
  - intros Hs Hp Hv. unfold KeyAttribute.__init__. rewrite Hs, Hp, Hv. reflexivity.
  - intros -> ->. unfold KeyAttribute.__init__.
    destruct (_ && _ && _); reflexivity.
  - intros cfg st H.
    pose proof (KeyAttribute_init_separator p s v sep hash_key range_key cfg st H) as Hsep.
    destruct (KeyAttribute_init_inv p s v sep hash_key range_key cfg st H)
      as (Hp & Hs & Hv & Hparts & Hkey & ->).
    split; [| split; [reflexivity | split; [exact Hsep | split]]].
    + cbn. destruct Hkey as [-> | ->]; [left | right]; reflexivity.
    + intros stored. unfold KeyAttribute.deserialize, Py.split.
      destruct (String.eqb_spec (separator cfg) ""); [contradiction |].
      cbn [bind].
      destruct (Py.truthy_opt (prefix cfg)).
      * rewrite py_last_nonempty by apply split_from_nonempty. eexists; reflexivity.
      * rewrite py_first_nonempty by apply split_from_nonempty. eexists; reflexivity.
    + intros value. unfold KeyAttribute.serialize.
      rewrite Hp, Hs, Hv.
      set (chosen := if negb (Py.truthy (VStr value)) && Py.truthy_opt v
                     then match v with Some f => VStr f | None => VStr value end
                     else VStr value).
      assert (Hchosen : exists text, chosen = VStr text
                        /\ (Py.truthy_opt s = false -> Py.truthy_opt p = false ->
                            text <> "")).
      { unfold chosen. cbn [Py.truthy].
        destruct (String.eqb_spec value "") as [-> | Hne]; cbn [negb andb].
        - destruct v as [f |]; cbn [Py.truthy_opt].
          + destruct (String.eqb_spec f "") as [-> | Hf]; cbn [negb].
            * exists "". split; [reflexivity |]. intros Hs0 Hp0.
              destruct Hparts as [Hx | [Hx | Hx]]; cbn in Hx; congruence.
            * exists f. split; [reflexivity | intros _ _; exact Hf].
          + exists "". split; [reflexivity |]. intros Hs0 Hp0.
            destruct Hparts as [Hx | [Hx | Hx]]; cbn in Hx; congruence.
        - exists value. split; [reflexivity | intros _ _; exact Hne]. }
      destruct Hchosen as (text & -> & Htext). cbn [Py.str bind].
      eexists. split.
      * apply UnicodeAttribute_serialize_nonempty.
        destruct p as [pre |]; destruct s as [suf |]; cbn [Py.truthy_opt] in *;
          repeat match goal with
                 | |- context [String.eqb ?x ""] =>
                     destruct (String.eqb_spec x ""); cbn [negb] in *
                 end;
          try (apply append_nonempty_l; apply append_nonempty_l; assumption);
          try (apply append_nonempty_r; apply append_nonempty_r;
               apply append_nonempty_r; assumption);
          try (cbn [append]; rewrite ?append_nil_r; apply Htext; reflexivity).
      * destruct p as [pre |]; destruct s as [suf |]; cbn [Py.truthy_opt] in *;
          repeat match goal with
                 | |- context [String.eqb ?x ""] =>
                     destruct (String.eqb_spec x ""); cbn [negb] in *
                 end;
          try (apply append_nonempty_l; apply append_nonempty_l; assumption);
          try (apply append_nonempty_r; apply append_nonempty_r;
               apply append_nonempty_r; assumption);
          try (cbn [append]; rewrite ?append_nil_r; apply Htext; reflexivity).
Qed.

(** ** Round trips of sets *)

Lemma insert_VInt (n : Z) (l : list Z) :
  Py.insert Py.int_le (VInt n) (map VInt l) = map VInt (Py.insert Z.leb n l).
Proof.
  induction l as [| m l IH]; cbn [map Py.insert]; [reflexivity |].
  cbn [Py.int_le Py.as_int]. destruct (Z.leb n m); [reflexivity |].
  rewrite IH. reflexivity.
Qed.

Lemma sort_VInt (l : list Z) :
  Py.sort Py.int_le (map VInt l) = map VInt (Py.sort Z.leb l).
Proof.
  induction l as [| n l IH]; cbn [map Py.sort]; [reflexivity |].
  rewrite IH. apply insert_VInt.
Qed.

Lemma forallb_as_int_VInt (l : list Z) :
  forallb (fun v => match Py.as_int v with Some _ => true | None => false end) (map VInt l)
  = true.
Proof. induction l as [| n l IH]; cbn; [reflexivity | exact IH]. Qed.

Lemma py_sorted_integers (l : list Z) :
  Py.sorted (map VInt l) = Ok (map VInt (Py.sort Z.leb l)).
Proof.
  destruct l as [| a [| b l]]; try reflexivity.
  unfold Py.sorted.
  change (map VInt (a :: b :: l)) with (VInt a :: VInt b :: map VInt l).
  cbn [Py.all_some Py.as_str].
  change (VInt a :: VInt b :: map VInt l) with (map VInt (a :: b :: l)).
  rewrite forallb_as_int_VInt, sort_VInt. reflexivity.
Qed.

Lemma mapM_dumps_integers (l : list Z) :
  mapM Json.dumps (map VInt l) = Ok (map Py.str_of_Z l).
Proof.
  induction l as [| n l IH]; cbn [map mapM]; [reflexivity |].
  cbn [Json.dumps bind]. rewrite IH. reflexivity.
Qed.

Lemma mapM_loads_integers (l : list Z) :
  mapM Json.loads (map VStr (map Py.str_of_Z l)) = Ok (map VInt l).
Proof.
  induction l as [| n l IH]; cbn [map mapM]; [reflexivity |].
  cbn [Json.loads]. rewrite loads_text_str_of_Z. cbn [bind]. rewrite IH. reflexivity.
Qed.

Lemma all_some_integers (l : list Z) :
  Py.all_some (fun v => match v with VInt n => Some n | _ => None end) (map VInt l) = Some l.
Proof.
  induction l as [| n l IH]; cbn; [reflexivity |]. rewrite IH. reflexivity.
Qed.

Lemma build_set_integers (l : list Z) :
  l <> [] -> NoDup l -> build_set (map VInt l) = Ok (VSet (map VInt l)).
Proof.
  intros Hl Hnd. unfold build_set.
  destruct l as [| n l]; [congruence |].
  change (Py.all_some Py.as_str (map VInt (n :: l))) with (@None (list string)).
  cbn iota. rewrite all_some_integers.
  rewrite (nodup_fixed_point Z.eq_dec Hnd). reflexivity.
Qed.

Lemma sort_integers_nonempty (l : list Z) : l <> [] -> Py.sort Z.leb l <> [].
Proof.
  intros Hl Hs. apply Hl. apply Permutation_nil. rewrite <- Hs.
  apply Permutation_sym, sort_perm.
Qed.

(** X21.  [SetMixin] round-trips a non-empty set of integers: [serialize]
    lists the JSON texts of the elements in increasing order,
    [deserialize] reads them back into the set of the same elements. *)
Theorem SetMixin_round_trips_integers (l : list Z) :
  l <> [] -> NoDup l ->
  SetMixin.serialize (VSet (map VInt l))
  = Ok (VList (map VStr (map Py.str_of_Z (Py.sort Z.leb l))))
  /\ (wire <- SetMixin.serialize (VSet (map VInt l)) ;; SetMixin.deserialize wire)
     = Ok (VSet (map VInt (Py.sort Z.leb l)))
  /\ Permutation l (Py.sort Z.leb l)
  /\ StronglySorted (fun x y => Z.leb x y = true) (Py.sort Z.leb l).
Proof.
  intros Hl Hnd.
  assert (Hser : SetMixin.serialize (VSet (map VInt l))
                 = Ok (VList (map VStr (map Py.str_of_Z (Py.sort Z.leb l))))).
  { unfold SetMixin.serialize, iterable_or_singleton, items_of.
    cbn [Py.is_None negb Py.iter].
    assert (Htrue : Py.truthy (VSet (map VInt l)) = true).
    { destruct l; [congruence | reflexivity]. }
    rewrite Htrue. cbn [bind]. rewrite py_sorted_integers. cbn [bind].
    rewrite mapM_dumps_integers. reflexivity. }
  split; [exact Hser | split; [| split]].
  - rewrite Hser. cbn [bind]. unfold SetMixin.deserialize, items_of.
    assert (Htrue : Py.truthy (VList (map VStr (map Py.str_of_Z (Py.sort Z.leb l)))) = true).
    { pose proof (sort_integers_nonempty l Hl) as Hs.
      destruct (Py.sort Z.leb l); [congruence | reflexivity]. }
    rewrite Htrue. cbn [Py.iter bind]. rewrite mapM_loads_integers. cbn [bind].
    apply build_set_integers; [apply sort_integers_nonempty, Hl |].
    eapply Permutation_NoDup; [apply sort_perm | exact Hnd].
  - apply sort_perm.
  - apply sort_sorted.
    + intros x y. destruct (Z.leb_spec x y); [left; reflexivity |].
      right. apply Z.leb_le. lia.
    + intros x y z Hxy Hyz. apply Z.leb_le in Hxy, Hyz. apply Z.leb_le. lia.
Qed.

Lemma SetMixin_round_trips_integers_witness :
  (wire <- SetMixin.serialize (VSet [VInt 3; VInt 1; VInt 2]) ;; SetMixin.deserialize wire)
  = Ok (VSet [VInt 1; VInt 2; VInt 3]).
Proof.
  apply (SetMixin_round_trips_integers [3; 1; 2]%Z).
  - discriminate.
  - repeat (constructor; [cbn; intuition discriminate |]). constructor.
Defined.

(** X22.  [UnicodeSetAttribute] round-trips a non-empty set of strings:
    what comes back holds the same elements (in sorted iteration order).
    The empty set does not come back: it is serialized to [None], and
    [None] is deserialized to [None]. *)
Theorem UnicodeSetAttribute_round_trips_strings (l : list string) :
  l <> [] -> NoDup l ->
  (wire <- UnicodeSetAttribute.serialize (VSet (map VStr l)) ;;
   UnicodeSetAttribute.deserialize wire) = Ok (VSet (map VStr (Py.sorted_strings l)))
  /\ Permutation l (Py.sorted_strings l)
  /\ (wire <- UnicodeSetAttribute.serialize (VSet []) ;;
      UnicodeSetAttribute.deserialize wire) = Ok VNone.
Proof.
  intros Hl Hnd. split; [| split; [apply sorted_strings_perm | reflexivity]].
  rewrite (UnicodeSetAttribute_serialize_strings l Hl). cbn [bind].
  assert (Hnd' : NoDup (Py.sorted_strings l)).
  { eapply Permutation_NoDup; [apply sorted_strings_perm | exact Hnd]. }
  unfold Py.set_of. rewrite (nodup_NoDup_id _ Hnd').
  unfold UnicodeSetAttribute.deserialize, items_of.
  rewrite (truthy_nonempty_set _ (sorted_strings_nonempty l Hl)).
  cbn [Py.iter bind]. unfold UnicodeSetAttribute.element_deserialize.
  rewrite map_id. unfold build_set. rewrite all_some_as_str.
  unfold Py.set_of. rewrite (nodup_NoDup_id _ Hnd'). reflexivity.
Qed.

Lemma UnicodeSetAttribute_round_trips_strings_witness :
  (wire <- UnicodeSetAttribute.serialize (VSet [VStr "b"; VStr "a"]) ;;
   UnicodeSetAttribute.deserialize wire) = Ok (VSet [VStr "a"; VStr "b"]).
Proof.
  apply (UnicodeSetAttribute_round_trips_strings ["b"; "a"]).
  - discriminate.
  - repeat (constructor; [cbn; intuition discriminate |]). constructor.
Defined.

Lemma distinct_names (l : list string) :
  (fix distinct (l : list string) : bool :=
     match l with
     | [] => true
     | x :: rest => negb (existsb (String.eqb x) rest) && distinct rest
     end) l = true -> NoDup l.
Proof.
  induction l as [| x l IH]; intros H; [constructor |].
  apply andb_true_iff in H. destruct H as [Hx Hl]. constructor; [| apply IH, Hl].
  intros Hin. apply negb_true_iff in Hx.
  assert (Hex : existsb (String.eqb x) l = true).
  { apply existsb_exists. exists x. split; [exact Hin | apply String.eqb_refl]. }
  congruence.
Qed.

Lemma distinct_images_computed (l : list ident) :
  (fix distinct (l : list ident) : bool :=
     match l with
     | [] => true
     | x :: rest => negb (existsb (Nat.eqb x) rest) && distinct rest
     end) l = true -> NoDup l.
Proof.
  induction l as [| x l IH]; intros H; [constructor |].
  apply andb_true_iff in H. destruct H as [Hx Hl]. constructor; [| apply IH, Hl].
  intros Hin. apply negb_true_iff in Hx.
  assert (Hex : existsb (Nat.eqb x) l = true).
  { apply existsb_exists. exists x. split; [exact Hin | apply Nat.eqb_refl]. }
  congruence.
Qed.

(** ** Paths of nested fields in classes with several fields *)

(** X23.  For three registered classes with any number of fields, each
    class body binding distinct names (none of them reserved) to distinct
    objects, where [Outer] declares the field [a] holding a [Middle],
    [Middle] the field [b] holding an [Inner], and [Inner] the field
    [leaf], and where the fields of [Inner] and of [Middle] carry pairwise
    distinct wire names: the path of [Outer.a.b.leaf] is the wire name of
    [a], then that of [b], then that of [leaf]. *)
Theorem nested_path_with_distinct_wire_names
    (inner_name middle_name outer_name : string) (outer_kind : ClassKind)
    (inner_members middle_members outer_members : list (string * pyobj))
    (Inner Middle Outer : Class) (a b leaf : string) (wa wb wl : option string)
    (k : AttrClass) (st : AttrState) (kwargs_a values_a kwargs_b values_b : dict) :
  registers SubMapAttribute inner_name inner_members Inner ->
  registers SubMapAttribute middle_name middle_members Middle ->
  registers outer_kind outer_name outer_members Outer ->
  NoDup (map declared_wire
           (filter (fun m => isinstance_Attribute (snd m)) inner_members)) ->
  NoDup (map declared_wire
           (filter (fun m => isinstance_Attribute (snd m)) middle_members)) ->
  In (leaf, Plain k st) inner_members ->
  attr_path st = [wl] ->
  In (b, Container Inner kwargs_b values_b) middle_members ->
  Attribute.as_name (Dict.get_default kwargs_b "attr_name" VNone) = Ok wb ->
  In (a, Container Middle kwargs_a values_a) outer_members ->
  Attribute.as_name (Dict.get_default kwargs_a "attr_name" VNone) = Ok wa ->
  attr_path_of (then_getattr (then_getattr (class_getattr Outer a) b) leaf)
  = Ok [Some (wire_name a wa); Some (wire_name b wb); Some (wire_name leaf wl)].
Proof.
  intros Hr_i Hr_m Hr_o Hw_i Hw_m Hleaf Hpath Hb Hwb Ha Hwa.
  apply registers_inv in Hr_i, Hr_m, Hr_o.
  destruct Hr_i as [Hnd_i Hreg_i]. destruct Hr_m as [Hnd_m Hreg_m].
  destruct Hr_o as [Hnd_o Hreg_o].
  pose proof (initialize_kind _ _ _ _ Hreg_i) as Hk_i.
  apply (nested_path_among_other_members inner_name middle_name outer_name outer_kind
           inner_members middle_members outer_members Inner Middle Outer
           a b leaf wa wb wl k st kwargs_a values_a kwargs_b values_b);
    try assumption.
  - destruct (registered_members_resolve SubMapAttribute inner_name inner_members Inner
                Hnd_i Hw_i Hreg_i) as [_ H].
    destruct (H leaf (Plain k st) Hleaf eq_refl) as (_ & o & w & Hp & _ & _ & Hres).
    rewrite (prepare_plain leaf k st wl Hpath) in Hp. injection Hp as _ <-.
    exact Hres.
  - destruct (registered_members_resolve SubMapAttribute middle_name middle_members Middle
                Hnd_m Hw_m Hreg_m) as [_ H].
    assert (Hattr : isinstance_Attribute (Container Inner kwargs_b values_b) = true).
    { cbn. rewrite Hk_i. reflexivity. }
    destruct (H b _ Hb Hattr) as (_ & o & w & Hp & _ & _ & Hres).
    apply prepare_container in Hp; [| rewrite Hk_i; discriminate].
    destruct Hp as (st_b & locals_b & Hwb' & _). rewrite Hwb in Hwb'.
    injection Hwb' as <-. exact Hres.
Qed.

(** The registration of the members of an example, each one an object of
    its own, computed. *)
Ltac registered_by_computation members :=
  exists (own_objects members), (own_bindings members); eexists;
  split; [apply distinct_names; reflexivity |];
  split; [apply distinct_images_computed; reflexivity |];
  split; reflexivity.

Lemma nested_path_with_distinct_wire_names_witness :
  attr_path_of (then_getattr (then_getattr (class_getattr Customer "home") "geo") "lat")
  = Ok [Some "h"; Some "geo"; Some "y"].
Proof.
  assert (Hpoint : registers SubMapAttribute "Point" Point_members Point)
    by registered_by_computation Point_members.
  assert (Haddress : registers SubMapAttribute "Address" Address_members Address)
    by registered_by_computation Address_members.
  assert (Hcustomer : registers PlainContainer "Customer" Customer_members Customer)
    by registered_by_computation Customer_members.
  apply (nested_path_with_distinct_wire_names "Point" "Address" "Customer" PlainContainer
           Point_members Address_members Customer_members Point Address Customer
           "home" "geo" "lat" (Some "h") None (Some "y") Number (named "y")
           [("attr_name", VStr "h")] [] [] [] Hpoint Haddress Hcustomer);
    try reflexivity;
    try (cbn; tauto).
  - cbn. constructor; [intros [H | []]; discriminate H |].
    constructor; [intros [] | constructor].
  - cbn. constructor; [intros [H | []]; discriminate H |].
    constructor; [intros [] | constructor].
Defined.

(** ** Expiry times *)

Lemma representable_whole_seconds (utc : Z) :
  representable utc = true -> representable (utc / 1000000 * 1000000) = true.
Proof.
  unfold representable, MIN_WALL, MAX_WALL. intros H.
  apply andb_true_iff in H. destruct H as [Hlo Hhi].
  apply Z.leb_le in Hlo, Hhi. apply andb_true_iff. split; apply Z.leb_le.
  - assert (H : (-62135596800 <= utc / 1000000)%Z).
    { apply Z.div_le_lower_bound; lia. }
    lia.
  - pose proof (Z.mul_div_le utc 1000000 ltac:(lia)). lia.
Qed.

Lemma whole_seconds_div (t : Z) : (t * 1000000 / 1000000 = t)%Z.
Proof. apply Z.div_mul. lia. Qed.

(** X24.  A TTL attribute takes [None], which it passes through, and dates
    that are timezone-aware (a [timedelta], which is added to the reading
    of the clock, is not modelled): a naive [datetime] and every value
    that is no date (a number, a string) are refused with [ValueError].
    An aware [datetime]
    is normalized to the UTC value of the same instant cut to whole
    seconds, and serialized as the JSON text of its Unix time;
    [deserialize] reads that text back into the normalized value, which
    normalization and serialization leave as it is. *)
Theorem TTLAttribute_round_trip (d : datetime) (offset : Z) :
  utcoffset d = Some offset ->
  representable (wall d - offset) = true ->
  let normalized := whole_seconds_utc d in
  TTLAttribute._normalize (TDatetime d) = Ok (Some normalized)
  /\ TTLAttribute.serialize (TDatetime d)
     = Ok (VStr (Py.str_of_Z ((wall d - offset) / 1000000)))
  /\ (wire <- TTLAttribute.serialize (TDatetime d) ;; TTLAttribute.deserialize wire)
     = Ok normalized
  /\ TTLAttribute._normalize (TDatetime normalized) = Ok (Some normalized)
  /\ TTLAttribute.serialize (TDatetime normalized) = TTLAttribute.serialize (TDatetime d)
  /\ TTLAttribute._normalize (TDatetime {| wall := wall d; utcoffset := None |})
     = Raise ValueError
  /\ (forall v, v <> VNone ->
        TTLAttribute._normalize (TValue v) = Raise ValueError
        /\ TTLAttribute.serialize (TValue v) = Raise ValueError)
  /\ TTLAttribute._normalize (TValue VNone) = Ok None
  /\ TTLAttribute.serialize (TValue VNone) = Ok VNone.
Proof.
  intros Hoff Hrange normalized.
  set (t := ((wall d - offset) / 1000000)%Z).
  assert (Hnormalized : normalized = {| wall := (t * 1000000)%Z; utcoffset := Some 0%Z |}).
  { unfold normalized, whole_seconds_utc. rewrite Hoff. reflexivity. }
  assert (Hrange' : representable (t * 1000000) = true)
    by (apply representable_whole_seconds, Hrange).
  assert (Hsec : utc_seconds d = Ok t).
  { unfold utc_seconds. rewrite Hoff, Hrange. reflexivity. }
  assert (Hfrom : utcfromtimestamp t = Ok {| wall := (t * 1000000)%Z; utcoffset := None |}).
  { unfold utcfromtimestamp. rewrite Hrange'. reflexivity. }
  assert (Hsec' : utc_seconds {| wall := (t * 1000000)%Z; utcoffset := Some 0%Z |} = Ok t).
  { unfold utc_seconds. cbn [wall utcoffset]. rewrite Z.sub_0_r, Hrange', whole_seconds_div.
    reflexivity. }
  assert (Hnorm : TTLAttribute._normalize (TDatetime d) = Ok (Some normalized)).
  { unfold TTLAttribute._normalize. rewrite Hoff, Hsec. cbn [bind]. rewrite Hfrom.
    cbn [bind replace_tzutc wall]. rewrite Hnormalized. reflexivity. }
  assert (Hnorm' : TTLAttribute._normalize (TDatetime normalized) = Ok (Some normalized)).
  { rewrite Hnormalized. unfold TTLAttribute._normalize. cbn [utcoffset].
    rewrite Hsec'. cbn [bind]. rewrite Hfrom. reflexivity. }
  assert (Hser : TTLAttribute.serialize (TDatetime d) = Ok (VStr (Py.str_of_Z t))).
  { unfold TTLAttribute.serialize. rewrite Hnorm. cbn [bind]. rewrite Hnormalized, Hsec'.
    reflexivity. }
  assert (Hser' : TTLAttribute.serialize (TDatetime normalized)
                  = Ok (VStr (Py.str_of_Z t))).
  { unfold TTLAttribute.serialize. rewrite Hnorm'. cbn [bind]. rewrite Hnormalized, Hsec'.
    reflexivity. }
  split; [exact Hnorm |]. split; [exact Hser |]. split.
  { rewrite Hser. cbn [bind]. unfold TTLAttribute.deserialize. cbn [Json.loads].
    rewrite loads_text_str_of_Z. cbn [bind]. rewrite Hfrom. cbn [bind replace_tzutc wall].
    rewrite Hnormalized. reflexivity. }
  split; [exact Hnorm' |]. split; [rewrite Hser, Hser'; reflexivity |].
  split; [reflexivity |]. split; [| split; reflexivity].
  intros v Hv. destruct v; try congruence; split; reflexivity.
Qed.

Lemma TTLAttribute_round_trip_witness :
  (wire <- TTLAttribute.serialize
             (TDatetime {| wall := 1500000; utcoffset := Some 3600000000%Z |}) ;;
   TTLAttribute.deserialize wire)
  = Ok {| wall := (-3599000000)%Z; utcoffset := Some 0%Z |}.
Proof.
  destruct (TTLAttribute_round_trip {| wall := 1500000; utcoffset := Some 3600000000%Z |}
              3600000000 eq_refl eq_refl) as (_ & _ & H & _).
  exact H.
Defined.

(** ** Prefixing the paths of the copies *)

Lemma update_copy_prefixes (path_segment : option string) (a a' : pyobj) :
  MapAttribute.update_copy path_segment a = Ok a' -> prefixed path_segment a a'.
Proof.
  revert a'.
  induction a as [k st | c kwargs values | c st locals IH] using pyobj_nested_ind;
    intros a' H.
  - cbn in H. injection H as <-. constructor.
  - cbn in H. unfold unconverted in H. destruct (_ && _); discriminate.
  - destruct (update_copy_spec path_segment _ a' H) as (_ & _ & Hmap & _).
    destruct (Hmap c st locals eq_refl) as (locals' & -> & Hcopies).
    constructor. intros n Hn.
    destruct (Hcopies n Hn) as (x & x' & Hx & Hupd & Hx').
    exists x, x'. split; [exact Hx | split; [exact Hx' |]].
    rewrite Forall_forall in IH.
    exact (IH (n, x) (dict_get_In _ _ _ Hx) x' Hupd).
Qed.

(** X25.  On a converted map whose copies are all converted,
    [update_attribute_paths] succeeds; it leaves the class and the own path
    of the map alone and puts the segment in front of the path of every
    copy the map holds for an attribute of its class, and of the copies
    those hold, at every depth. *)
Theorem update_attribute_paths_prefixes_every_copy (c : Class) (st : AttrState)
    (locals : list (string * pyobj)) (path_segment : option string) :
  converted (Descriptor c st locals) = true ->
  exists locals',
    MapAttribute.update_attribute_paths (Descriptor c st locals) path_segment
    = Ok (Descriptor c st locals')
    /\ forall n, In n (Dict.keys (AttributeContainer.get_attributes c)) ->
         exists a a',
           Dict.get locals n = Some a /\ Dict.get locals' n = Some a'
           /\ prefixed path_segment a a'
           /\ path_of a' = path_segment :: path_of a
           /\ class_of a' = class_of a.
Proof.
  intros Hconv.
  destruct (update_copy_total path_segment (Descriptor c st locals) Hconv)
    as (o' & Hupd & _).
  cbn [MapAttribute.update_copy] in Hupd.
  apply bind_Ok_inv in Hupd. destruct Hupd as (updated & Hpaths & _).
  destruct (update_attribute_paths_spec c st locals path_segment updated Hpaths)
    as (locals' & -> & Hcopies).
  exists locals'. split; [exact Hpaths |].
  intros n Hn. destruct (Hcopies n Hn) as (a & a' & Ha & Hupd & Ha').
  exists a, a'. split; [exact Ha | split; [exact Ha' | split]].
  - apply update_copy_prefixes, Hupd.
  - destruct (update_copy_spec path_segment a a' Hupd) as (Hpath & Hclass & _).
    split; assumption.
Qed.

Lemma update_attribute_paths_prefixes_every_copy_witness :
  exists locals' a',
    MapAttribute.update_attribute_paths
      (Descriptor Profile (named "p") [("nickname", Plain Unicode (named "nickname"))])
      (Some "p")
    = Ok (Descriptor Profile (named "p") locals')
    /\ Dict.get locals' "nickname" = Some a'
    /\ path_of a' = [Some "p"; Some "nickname"].
Proof.
  destruct (update_attribute_paths_prefixes_every_copy Profile (named "p")
              [("nickname", Plain Unicode (named "nickname"))] (Some "p") eq_refl)
    as (locals' & Hpaths & Hcopies).
  destruct (Hcopies "nickname" (or_introl eq_refl)) as (a & a' & Ha & Ha' & _ & Hpath & _).
  exists locals', a'. split; [exact Hpaths | split; [exact Ha' |]].
  rewrite Hpath. cbn in Ha. injection Ha as <-. reflexivity.
Defined.

(** ** Decoding a typed map *)









(** ** Construction of raw maps *)

Lemma get_filter_keys {V : Type} (f : string -> bool) (d : list (string * V)) (k : string) :
  Dict.get (filter (fun kv => f (fst kv)) d) k = if f k then Dict.get d k else None.
Proof.
  induction d as [| [k0 v0] d IH]; cbn [filter fst Dict.get].
  - destruct (f k); reflexivity.
  - destruct (f k0) eqn:Hk0; cbn [Dict.get].
    + destruct (String.eqb_spec k0 k) as [-> | Hne]; [rewrite Hk0; reflexivity | exact IH].
    + destruct (String.eqb_spec k0 k) as [-> | Hne]; [rewrite Hk0 in *; exact IH | exact IH].
Qed.

Lemma filter_keys_distinct {V : Type} (f : string * V -> bool) (d : list (string * V)) :
  NoDup (Dict.keys d) -> NoDup (Dict.keys (filter f d)).
Proof.
  induction d as [| [k0 v0] d IH]; cbn [filter Dict.keys map fst]; [intros _; constructor |].
  intros Hnd. inversion Hnd as [| ? ? Hfresh Hnd']; subst.
  destruct (f (k0, v0)); [| apply IH, Hnd'].
  cbn [map fst]. constructor; [| apply IH, Hnd'].
  intros Hin. apply Hfresh. apply in_map_iff in Hin. destruct Hin as ([k v] & Hk & Hin).
  apply filter_In in Hin. destruct Hin as [Hin _].
  apply in_map_iff. exists (k, v). split; assumption.
Qed.

(** The keywords that name an argument of [Attribute.__init__], as
    [MapAttribute.__init__] sets them aside. *)
Lemma attribute_kwargs_get (attributes : dict) (k : string) :
  Dict.get
    (filter (fun kv : string * pyval => Dict.mem attributes (fst kv))
       (map (fun arg => (arg, Dict.get_default attributes arg VNone))
          Attribute.attribute_args)) k
  = if existsb (String.eqb k) Attribute.attribute_args then Dict.get attributes k else None.
Proof.
  rewrite (get_filter_keys (Dict.mem attributes)).
  unfold Dict.mem, Dict.get_default.
  destruct (Dict.get attributes k) as [v |] eqn:Hget.
  - cbn [Attribute.attribute_args map Dict.get existsb].
    rewrite !(String.eqb_sym k).
    repeat match goal with
           | |- context [String.eqb ?a k] =>
               destruct (String.eqb_spec a k) as [<- | ?];
               [rewrite ?Hget; reflexivity | cbn [orb]]
           end.
    reflexivity.
  - destruct (existsb _ _); reflexivity.
Qed.

Lemma attribute_kwargs_distinct (attributes : dict) :
  NoDup (Dict.keys
           (filter (fun kv : string * pyval => Dict.mem attributes (fst kv))
              (map (fun arg => (arg, Dict.get_default attributes arg VNone))
                 Attribute.attribute_args))).
Proof.
  apply filter_keys_distinct. unfold Dict.keys. rewrite map_map. cbn [fst]. rewrite map_id.
  apply distinct_names. reflexivity.
Qed.

Lemma raw_set_attributes (construct : Class -> dict -> result pyval) (c : Class)
    (kwargs values attrs : dict) :
  MapAttribute.is_raw c = true ->
  MapAttribute._set_attributes construct c (Container c kwargs values) attrs
  = Ok (Container c kwargs (apply_keywords attrs values)).
Proof.
  intros Hraw. unfold MapAttribute._set_attributes. rewrite Hraw.
  revert values; induction attrs as [| [name value] attrs IH]; intros values.
  - reflexivity.
  - assert (Hstep : MapAttribute.setattr construct c (Container c kwargs values) name value
                    = Ok (Container c kwargs (Dict.set values name value))).
    { unfold MapAttribute.setattr, AttributeContainer.setattr.
      unfold MapAttribute.is_raw in Hraw. rewrite Hraw. reflexivity. }
    cbn -[MapAttribute.setattr]. rewrite Hstep. cbn [bind]. apply IH.
Qed.

(** X27.  A raw map built from keywords among which the mode
    [_user_instantiated] is not: with the keyword [self] the construction
    raises [TypeError]; without it the map takes every keyword: each one,
    those named like the arguments of [Attribute.__init__] ([default],
    [null], [attr_name], ...) included, is stored as an item of the new
    map, and the latter are kept aside as well, for the case that the map
    is converted into an attribute. *)
Theorem raw_map_stores_every_keyword (c : Class) (attributes : dict) :
  MapAttribute.is_raw c = true ->
  AttributeContainer.get_attributes c = [] ->
  NoDup (Dict.keys attributes) ->
  ~ In "_user_instantiated" (Dict.keys attributes) ->
  (In "self" (Dict.keys attributes) ->
   MapAttribute.__init__ c attributes = Raise TypeError)
  /\ (~ In "self" (Dict.keys attributes) ->
      exists attribute_kwargs attribute_values,
        MapAttribute.__init__ c attributes
        = Ok (VMap (class_name c) attribute_kwargs attribute_values)
        /\ (forall k, Dict.get attribute_values k = Dict.get attributes k)
        /\ (forall k, Dict.get attribute_kwargs k
                      = if existsb (String.eqb k) Attribute.attribute_args
                        then Dict.get attributes k
                        else None)).
Proof.
  intros Hraw Hattrs Hnd Hmode. split.
  { intros Hself. apply init_refuses_self. unfold Dict.mem.
    destruct (Dict.get attributes "self") eqn:Hget; [reflexivity |].
    exfalso. apply in_map_iff in Hself. destruct Hself as ([k v] & Hk & Hin).
    cbn [fst] in Hk. subst k.
    rewrite (NoDup_get_In attributes "self" v Hnd Hin) in Hget. discriminate. }
  intros Hself.
  rewrite MapAttribute_init_unfold. unfold MapAttribute.init.
  rewrite (mem_absent attributes "self" Hself).
  set (kwargs := filter _ (map _ Attribute.attribute_args)).
  set (others := filter (fun kv : string * pyval =>
                           negb (existsb (String.eqb (fst kv)) Attribute.attribute_args))
                   attributes).
  assert (Hothers : forall k, Dict.get others k
                      = if negb (existsb (String.eqb k) Attribute.attribute_args)
                        then Dict.get attributes k else None).
  { intros k. unfold others.
    apply (get_filter_keys
             (fun k => negb (existsb (String.eqb k) Attribute.attribute_args))). }
  assert (Hflag : Dict.get_default others "_user_instantiated" (VBool true) = VBool true).
  { unfold Dict.get_default. rewrite Hothers. cbn [existsb String.eqb Ascii.eqb Bool.eqb orb negb].
    rewrite (get_absent attributes _ Hmode). reflexivity. }
  assert (Hremove : Dict.remove others "_user_instantiated" = others).
  { unfold Dict.remove. apply filter_keeps_all. apply Forall_forall. intros [k v] Hin.
    cbn [fst]. destruct (String.eqb_spec k "_user_instantiated") as [-> | _]; [| reflexivity].
    exfalso. apply Hmode. unfold others in Hin. apply filter_In in Hin.
    destruct Hin as [Hin _]. apply in_map_iff. exists ("_user_instantiated", v).
    split; [reflexivity | exact Hin]. }
  rewrite Hflag, Hremove.
  unfold AttributeContainer.__init__, AttributeContainer._set_defaults.
  rewrite Hattrs. cbn [bind].
  rewrite (raw_set_attributes MapAttribute.__init__ c kwargs [] others Hraw). cbn [bind].
  rewrite Hraw.
  assert (Hkw : forall k, Dict.get kwargs k
                  = if existsb (String.eqb k) Attribute.attribute_args
                    then Dict.get attributes k else None)
    by (intros k; apply attribute_kwargs_get).
  assert (Hndo : NoDup (Dict.keys others)) by (apply filter_keys_distinct, Hnd).
  assert (Hfirst : forall k, Dict.get (apply_keywords others []) k = Dict.get others k).
  { intros k. rewrite apply_keywords_get by exact Hndo.
    destruct (Dict.get others k); reflexivity. }
  destruct (negb (Nat.eqb (List.length kwargs) 0)) eqn:Hlen; cbn [andb orb].
  - rewrite (raw_set_attributes MapAttribute.__init__ c kwargs _ kwargs Hraw).
    rewrite orb_true_r. cbn [orb bind as_value].
    exists kwargs, (apply_keywords kwargs (apply_keywords others [])).
    split; [reflexivity | split; [| exact Hkw]].
    intros k. rewrite apply_keywords_get by apply attribute_kwargs_distinct.
    fold kwargs. rewrite Hkw, Hfirst, Hothers.
    destruct (existsb (String.eqb k) Attribute.attribute_args); cbn [negb].
    + destruct (Dict.get attributes k); reflexivity.
    + reflexivity.
  - cbn [bind as_value]. exists kwargs, (apply_keywords others []).
    split; [reflexivity | split; [| exact Hkw]].
    intros k. rewrite Hfirst, Hothers.
    destruct (existsb (String.eqb k) Attribute.attribute_args) eqn:Harg; cbn [negb];
      [| reflexivity].
    assert (Hnil : kwargs = []).
    { destruct kwargs; [reflexivity | discriminate Hlen]. }
    specialize (Hkw k). rewrite Hnil, Harg in Hkw. cbn in Hkw. exact Hkw.
Qed.

Lemma raw_map_stores_every_keyword_witness :
  exists attribute_kwargs attribute_values,
    MapAttribute.__init__ MapAttribute_class [("default", VInt 1); ("city", VStr "Oslo")]
    = Ok (VMap "MapAttribute" attribute_kwargs attribute_values)
    /\ Dict.get attribute_values "default" = Some (VInt 1)
    /\ Dict.get attribute_values "city" = Some (VStr "Oslo")
    /\ Dict.get attribute_kwargs "default" = Some (VInt 1)
    /\ Dict.get attribute_kwargs "city" = None.
Proof.
  destruct (raw_map_stores_every_keyword MapAttribute_class
              [("default", VInt 1); ("city", VStr "Oslo")] eq_refl eq_refl)
    as [_ Hstored].
  - apply distinct_names. reflexivity.
  - cbn. intros [H | [H | []]]; discriminate H.
  - destruct Hstored as (kw & values & Hinit & Hvalues & Hkw).
    { cbn. intros [H | [H | []]]; discriminate H. }
    exists kw, values. split; [exact Hinit |].
    rewrite !Hvalues, !Hkw. repeat split.
Defined.
